(* ===== verification/_CoqProject ===== *)
-Q . S2P
Prelude.v
JsNumber.v
JsObject.v
Keys.v
Model.v
Scoring.v
Server.v
Lifecycle.v
Listing.v
Scenarios.v
Client.v
Frontend.v
Player.v
Creator.v
App.v
Session.v
Lockout.v
Express.v
Async.v
