(* ===== verification/Prelude.v ===== *)
(** * A verified model of the Decentralized Quiz App

    The repository is a quiz platform: an Express backend
    ([src/backend/server.js]) that keeps quizzes, participant attempts and
    running statistics in three in-memory JavaScript objects, and a browser
    frontend ([src/frontend/js/*.js]) that lists, plays and creates quizzes
    through a thin fetch wrapper ([api.js]).

    ** How the program is put together

    Every HTTP request runs one Express handler to completion; the handlers
    share three process-wide objects, [quizzesStore], [participantsStore]
    and [statsStore], and read the wall clock through [Date.now()].
    A handler validates its input with a chain of early
    [return res.status(..).json(..)] exits, then mutates the stores and
    answers with [res.json(..)].  An exception thrown by a handler (for
    example [answers.length] on a missing [answers]) reaches the error
    middleware, which answers 500.  Before any route, [cors()] answers
    [OPTIONS] preflights and [express.json()] parses the body; a body it
    rejects goes straight to the error middleware.

    The frontend keeps its state in [app.state] ([app.js]) and the
    [state] objects of the [QuizPlayer] and [QuizCreator] components
    ([components.js]); each [render] writes a template into the
    [mainContent] element, whose buttons call the components' methods.
    Every method that needs data calls [quizAPI] ([api.js]), which
    [fetch]es a route of the server and turns a non-2xx answer into an
    error value.

    ** Files of the development (in dependency order)

    - [Prelude] (this file): the [js_scope] notations, JSON values and
      JavaScript strict equality [===], ToBoolean, ToNumber and ToString,
      the handler monad [exec] that models a handler with early returns,
      its laws, the [quiz] hint and rewrite databases, the tactics shared
      by all files, and array element assignment ([js_array_set]).
    - [JsNumber]: ToNumber with the whole StringNumericLiteral grammar
      (white space, signs, fractions, exponents, [Infinity], [0x]/[0o]/[0b]),
      the comparisons of the handlers with an integer, and the [+] that
      [total_rewards_distributed += rewardAmount] applies (numeric
      addition, [NaN], or string concatenation); the play route's verdict
      and the reward gate's comparison are complementary except on [NaN].
    - [JsObject]: a JavaScript plain object used as a dictionary
      ([const quizzesStore = {}]), as an association list with the
      language's property order ([Object.values]: array-index keys first
      in ascending order, then the other keys in insertion order); its
      refinement of stdpp's [gmap] ([to_map]) and the lemmas the stores
      use.
    - [Keys]: the identifiers the server builds: [Date.now().toString()]
      for quiz ids and the template [`${participant}-${quizId}`] for the
      participation key; injectivity of the decimal rendering and of the
      key on the ids the server creates.
    - [Model]: the records of [server.js] (question, quiz, participant
      record, statistics), the request and response shapes of the nine
      routes and the server state.
    - [Scoring]: the scoring loop of [POST /api/quizzes/:quizId/play]
      (lines 121-126) with its reference specification (the number of
      strictly equal answers), their equivalence and the score bounds.
    - [Server]: one definition per route of [server.js], written in the
      handler monad with the guards in the order of the code, the
      dispatcher [handle], and the behaviour of every handler on every
      branch (errors included): at most one attempt per (participant,
      quiz), one-time reward, creation validation, status toggling, the
      answer redaction of the public view, that a refused request changes
      nothing, that the play route's verdict decides whether the reward
      route pays, and that two creations in one millisecond share an id.
    - [Lifecycle]: the server as a process ([server_step]: any request or
      a clock tick): the attempt lifecycle of the specification (not
      played, played, rewarded) as an abstract transition system that
      every request refines, and the invariant of every reachable server
      state (the statistics agree with the stores, each record is stored
      under its own key and names a stored quiz, the highest score is
      attained); once the reward total stops being a number it never is
      one again.
    - [Listing]: the order of [GET /api/quizzes]: on every reachable
      server the property order of [Object.values] is the order of
      creation, oldest first (the keys are increasing clock values).
    - [Scenarios]: sequences of requests run on the server
      ([run]): the specification's scenario and the behaviours the
      findings report (reward without passing, negative values, key
      collision, a string or missing reward amount in the reward total),
      evaluated by the kernel.
    - [Client]: [api.js]: [apiCall]'s shaping of the response and the
      endpoint, method and body of each [quizAPI] call, composed with
      Express's routing of a URL to a route ([express_route]); the round
      trip from a call to the route it means, for ids made of letters,
      digits, [-] and [_] ([url_safe]), on which the percent-decoding of
      parameters, the query and fragment split and the dot segments that
      the routing model leaves out change nothing.
    - [Frontend]: the page: the three state objects, the navigation tabs,
      the alerts, pending timers, the server as [fetch] reaches it, and
      the screens the templates draw, each with the values it prints and
      its controls' enabled state.
    - [Player]: [QuizList] and [QuizPlayer]: the list, loading a quiz,
      the question and result screens, the navigation among questions and
      the submission, with the player's invariant.
    - [Creator]: [QuizCreator] and [Dashboard]: drafting, adding and
      removing questions, [parseInt], the submission and its checks, and
      the dashboard's counts.
    - [App]: [app.js] ([goToPage], [handleQuizSelect],
      [goBackToQuizzes], the admin toggle, [init]) and the page's
      transition relation [ui_step]: one action on a control the current
      screen offers, the creator's timer, a request of another client, or
      the clock moving; [reachable] pages are those a fresh load leads to.
    - [Session]: the page and the server together: the server behind a
      reachable page is a reachable server, its invariant holds there, and
      on the synchronous schedule a result on screen means the server
      recorded the user's attempt (with requests in flight it need not:
      see [Async]).
    - [Lockout]: a predicate on pages closed under [ui_step]: once the
      player shows a quiz the user has already played, no sequence of
      actions, other clients' requests or clock ticks leaves the player.
    - [Express]: the app's middleware pipeline ([app_handle]): [cors()]'s
      preflight, [express.json()] before the routes, the routes or the 404
      page, and the error middleware; the status of every response agrees
      with its payload, and a body the parser rejects is answered 500.
    - [Async]: the page with its requests in flight: each [async] method
      runs up to its [await] ([start]) and resumes when its response
      arrives ([resume]: [QuizList.loaded], [Dashboard.loaded],
      [QuizPlayer.loaded], [QuizPlayer.submitted], [QuizCreator.created]),
      the responses arriving in any order ([astep]); the synchronous page
      of [App] is the schedule where each response arrives at once.  The
      Submit invariant holds on every schedule ([ainv]); other schedules
      put the dashboard on screen under the Quizzes tab, send two plays on
      a double click, and show the result of a late play response for a
      quiz the user never played.

    ** Theorems

    Functional theorems state, for each route and each frontend handler,
    the response, the new state and the screen on each branch of the
    code; error theorems state that a failing guard leaves the state
    unchanged; equivalence theorems relate the scoring loop to its
    specification; round-trip theorems relate a participation key to its
    pair and a [quizAPI] call to the route Express gives it;
    refinement theorems relate the ordered JavaScript object to a [gmap]
    and the creator's checks to the server's validation.  Invariants of
    the frontend are proved by rule induction on [reachable]: [ui_inv]
    holds at [init] and after every enabled action, which shows that the
    Submit button is enabled only with every answer set and that the
    creation form can never add a question; [Async.ainv] extends it to
    every interleaving of actions and responses, by induction on
    [rtc astep] over the two kinds of step; the server's invariant is
    proved by rule induction on [server_reachable], and the session's
    ([Session.session_inv]) on [reachable] pages, where it ties what the
    screen shows to what the server stores.  A liveness theorem
    ([Lockout]) shows the opposite of progress: a set of pages no step
    leaves, proved by induction on [rtc ui_step], so the quiz list is
    never reached again.  A type theorem ([Express.app_reply_shape])
    shows that the status of every answer, for any request and state,
    agrees with its payload.  Scenario theorems and counterexamples are
    closed statements checked by [vm_compute]; a counterexample to a
    property of every schedule is an existential over a run of [astep],
    witnessed by an executable schedule ([Async.arun]).

    ** Modelling choices

    - JavaScript numbers that the handlers compare or add (scores, passing
      scores, amounts, counters) are [Z]: the values the code meets are
      small integers, far inside the 2^53 range where doubles are exact.
      The clock is an [N] (milliseconds since the epoch).  A JSON number
      in a request is an integer ([JNum]); a numeric string is read by
      [JsNumber.string_to_number] exactly as [m * 10^e], which agrees with
      the double JavaScript rounds it to whenever it is compared with an
      integer, for literals of at most 15 significant digits.
      [total_rewards_distributed] is a [prim]: a number ([NaN] included)
      or a string, as [+=] can make it.
    - A request body field the handler reads as a string is a [string];
      an absent title and the empty title are both [""] (both are falsy).
      An absent [questions] or [answers] array is [None].  A [questions]
      or [answers] value that is not an array (a string or a number) is
      outside the model: the code stores a string [questions] with 201
      (after which [GET /api/quizzes] throws), answers 400 to a number
      [answers] and scores a string [answers] character by character.
    - Submitted answers and stored correct answers are JSON values
      ([jsval]), compared with strict equality as the loop does.
    - [Date.now()] is the [clock] field of the server state; it does not
      move during one handler (the two reads in [POST /api/quizzes] see the
      same millisecond); [Tick] moves it forward between actions.  The
      clock is assumed monotone ([Tick] takes a positive step): a wall
      clock set back could repeat the id of a stored quiz and break the
      creation order of [Listing], which the model does not cover.
    - The player's [currentQuestion] is a [nat]: [previousQuestion]
      guards its decrement with [> 0] as the code does, and [goToQuestion]
      is only called with the index of a drawn dot, so the value never
      goes below 0 in the code either.
    - The scoring loop runs on fuel [length questions], one unit per
      iteration the loop's bound [i < quiz.questions.length] allows; more
      fuel gives the same score ([Scoring]), so the fuel never cuts the
      loop short.
    - Property lookups on the stores see own properties only: the
      inherited members of [Object.prototype] ([constructor],
      [__proto__], ...) are not modelled (see the findings).
    - [fetch] reaches the server directly and always answers: network
      failures and a server that is down are not modelled.  In [App] an
      action's handler runs to completion before the next action, and
      requests of other clients ([OtherClient]) come between actions; in
      [Async] a request reaches the server when it is sent and its
      response comes back at any later point, in any order with the
      others.
    - The DOM is modelled by what the templates print and which controls
      they enable; markup, styling and the browser's constraint
      validation beyond [required] and [min] ([form_valid]) are not.

    ** Not modelled

    - HTML markup and styling: class names, emoji, the layout and the
      percentage circle of the result screen carry no state and no
      control; each template is modelled by the values it prints and the
      controls it enables ([Frontend]).  The templates interpolate quiz
      titles, descriptions and options into [innerHTML] unescaped; the
      model reads them as text, so markup a client injects through a quiz
      is not modelled (see the findings).
    - URL processing beyond splitting the path at [/]: [fetch]'s
      resolution of dot segments and split of [?] and [#], and Express's
      [decodeURIComponent] of parameters and case-insensitive matching.
      The round-trip theorem is stated for the ids on which they are the
      identity ([Client.url_safe]), which every id the code generates is.
    - JavaScript value semantics beyond what the handlers meet: the
      double rounding of numeric literals of more than 15 significant
      digits or outside the range of doubles, white space outside ASCII,
      non-integer JSON numbers, objects other than arrays as request
      values (their ToPrimitive), and the inherited members of
      [Object.prototype] (see the findings); these would need a model of
      IEEE doubles and of the object model, which the handlers' integer
      comparisons and counters do not exercise.
    - Configuration and I/O of [server.js]: [dotenv.config()], [PORT],
      the [console] logging and the socket of [app.listen] (whose serving
      loop is [Lifecycle.server_step]); the CORS response headers, which
      no body or state depends on.
    - Network failures, concurrency inside one server handler (none: Node
      runs each synchronous handler to completion), a request that reaches
      the server later than it is sent (the responses, not the requests,
      are reordered in [Async]), the modal blocking of [alert], and
      reloading the page in the browser.
*)

From stdpp Require Export base gmap strings list.
From Stdlib Require Export ZArith.
From Stdlib Require Import DecimalString DecimalN Ascii.

Declare Scope js_scope.
Delimit Scope js_scope with js.

(** ** JSON values *)

(** The values a JSON request body carries, plus [undefined] for a field
    the object does not have.  Objects other than the records of [Model]
    are not needed by the code and are not modelled. *)
Inductive jsval :=
| JUndefined
| JNull
| JBool (b : bool)
| JNum (n : Z)
| JStr (s : string)
| JArr (l : list jsval).

(** JavaScript [===] on these values (no [NaN] among them).  Arrays are
    compared by identity, and two arrays parsed from JSON are distinct
    objects. *)
Definition strict_eq (x y : jsval) : bool :=
  match x, y with
  | JUndefined, JUndefined => true
  | JNull, JNull => true
  | JBool a, JBool b => Bool.eqb a b
  | JNum a, JNum b => Z.eqb a b
  | JStr a, JStr b => bool_decide (a = b)
  | _, _ => false
  end.

(** The values [===] compares by content. *)
Definition is_primitive (x : jsval) : bool :=
  match x with JArr _ => false | _ => true end.

Infix "===" := strict_eq (at level 70, no associativity) : js_scope.

Open Scope js_scope.

(** ** Conversions of the language *)

(** [String(n)] for a non-negative integer [n]. *)
Definition dec_string (n : N) : string :=
  NilEmpty.string_of_uint (N.to_uint n).

(** Digits back to the number, [None] on a non-digit character. *)
Definition dec_parse (s : string) : option N :=
  option_map N.of_uint (NilEmpty.uint_of_string s).

(** [String(z)] for an integer [z]. *)
Definition z_string (z : Z) : string :=
  if (z <? 0)%Z then String "-"%char (dec_string (Z.to_N (- z)))
  else dec_string (Z.to_N z).

(** ToString, as a template literal [`${x}`] or a property key [o[x]]
    applies it. *)
Fixpoint js_to_string (x : jsval) : string :=
  match x with
  | JUndefined => "undefined"
  | JNull => "null"
  | JBool true => "true"
  | JBool false => "false"
  | JNum n => z_string n
  | JStr s => s
  | JArr l =>
      (* [Array.prototype.join(",")], with [""] for null and undefined *)
      let fix elems (l : list jsval) : list string :=
        match l with
        | [] => []
        | (JUndefined | JNull) :: l' => "" :: elems l'
        | x :: l' => js_to_string x :: elems l'
        end in
      String.concat "," (elems l)
  end.

(** ToBoolean, as [!x] and [if (x)] apply it. *)
Definition truthy (x : jsval) : bool :=
  match x with
  | JUndefined | JNull => false
  | JBool b => b
  | JNum n => negb (Z.eqb n 0)
  | JStr s => negb (bool_decide (s = ""%string))
  | JArr _ => true
  end.

(** ** The handler monad

    An Express handler reads and writes the shared stores ([S]) and ends
    either by falling through to its final [res.json(..)] or by an early
    [return res.status(..).json(..)].  [exec S R A] is a computation that
    continues with an [A] ([inl]) or has already produced the response [R]
    ([inr]). *)
Definition exec (S R A : Type) : Type := S -> (A + R) * S.

#[export] Instance exec_ret {S R} : MRet (exec S R) :=
  fun A a s => (inl a, s).

#[export] Instance exec_bind {S R} : MBind (exec S R) :=
  fun A B f m s =>
    match m s with
    | (inl a, s') => f a s'
    | (inr r, s') => (inr r, s')
    end.

(** [return res.status(..).json(..)] *)
Definition early {S R A} (r : R) : exec S R A := fun s => (inr r, s).

(** [if (cond) return r;] *)
Definition exit_if {S R} (cond : bool) (r : R) : exec S R unit :=
  if cond then early r else mret tt.

Definition gets {S R A} (f : S -> A) : exec S R A := fun s => (inl (f s), s).

Definition modify {S R} (f : S -> S) : exec S R unit := fun s => (inl tt, f s).

(** Runs a handler whose final value is its response. *)
Definition run_exec {S R} (m : exec S R R) (s : S) : R * S :=
  match m s with
  | (inl r, s') => (r, s')
  | (inr r, s') => (r, s')
  end.

Notation "'return_' r" := (early r) (at level 10) : js_scope.

(** ** Shared lemmas *)

(** The decimal digits of [n] read back as [n]. *)
Lemma dec_parse_string n : dec_parse (dec_string n) = Some n.
Proof.
  unfold dec_parse, dec_string.
  rewrite NilEmpty.usu. simpl. by rewrite DecimalN.Unsigned.of_to.
Qed.

Lemma dec_string_inj n1 n2 : dec_string n1 = dec_string n2 -> n1 = n2.
Proof. intros H. apply (f_equal dec_parse) in H. rewrite !dec_parse_string in H. congruence. Qed.

Lemma string_app_assoc (a b c : string) : (a ++ b ++ c)%string = ((a ++ b) ++ c)%string.
Proof. induction a as [|x a IH]; [done|]. exact (f_equal (String x) IH). Qed.

Lemma string_app_nil_r (a : string) : (a ++ "")%string = a.
Proof. induction a as [|x a IH]; [done|]. exact (f_equal (String x) IH). Qed.

(** [String(n)] has at least one digit. *)
Lemma dec_string_nonempty n : dec_string n <> ""%string.
Proof.
  unfold dec_string. destruct (N.to_uint n) eqn:E; try discriminate.
  pose proof (DecimalN.Unsigned.of_to n) as R. rewrite E in R. simpl in R. subst n.
  discriminate E.
Qed.

Lemma strict_eq_spec x y : is_primitive x = true -> (x === y) = true <-> x = y.
Proof.
  intros Hp. destruct x, y; simpl in *; split; intros H; try discriminate; try congruence.
  - apply Bool.eqb_prop in H; congruence.
  - injection H as ->; apply Bool.eqb_reflx.
  - apply Z.eqb_eq in H; congruence.
  - injection H as ->; apply Z.eqb_refl.
  - apply bool_decide_eq_true in H; congruence.
  - injection H as ->; by apply bool_decide_eq_true.
Qed.

Lemma strict_eq_refl x : is_primitive x = true -> (x === x) = true.
Proof. intros Hp. by apply strict_eq_spec. Qed.

Section ExecLaws.
Context {S R : Type}.

Lemma exec_bind_ret {A B} (a : A) (f : A -> exec S R B) s :
  (mret a ≫= f) s = f a s.
Proof. reflexivity. Qed.

Lemma exec_bind_early {A B} (r : R) (f : A -> exec S R B) s :
  (early r ≫= f) s = (inr r, s).
Proof. reflexivity. Qed.

Lemma exec_bind_gets {A B} (g : S -> A) (f : A -> exec S R B) s :
  (gets g ≫= f) s = f (g s) s.
Proof. reflexivity. Qed.

Lemma exec_bind_modify {B} (g : S -> S) (f : unit -> exec S R B) s :
  (modify g ≫= f) s = f tt (g s).
Proof. reflexivity. Qed.

Lemma exec_bind_assoc {A B C} (m : exec S R A) (f : A -> exec S R B)
      (g : B -> exec S R C) s :
  ((m ≫= f) ≫= g) s = (m ≫= (fun a => f a ≫= g)) s.
Proof. unfold mbind, exec_bind. destruct (m s) as [[a|r] s']; reflexivity. Qed.

Lemma exit_if_true {B} (r : R) (f : unit -> exec S R B) s :
  (exit_if true r ≫= f) s = (inr r, s).
Proof. reflexivity. Qed.

Lemma exit_if_false {B} (r : R) (f : unit -> exec S R B) s :
  (exit_if false r ≫= f) s = f tt s.
Proof. reflexivity. Qed.

Lemma run_exec_early (r : R) (s : S) : run_exec (early r) s = (r, s).
Proof. reflexivity. Qed.

Lemma run_exec_ret (r : R) (s : S) : run_exec (mret r : exec S R R) s = (r, s).
Proof. reflexivity. Qed.

(** A handler that takes an early exit returns the state it exited in. *)
Lemma run_exec_bind_inr {A} (m : exec S R A) (f : A -> exec S R R) s r s' :
  m s = (inr r, s') -> run_exec (m ≫= f) s = (r, s').
Proof. intros H. unfold run_exec, mbind, exec_bind. by rewrite H. Qed.

Lemma run_exec_bind_inl {A} (m : exec S R A) (f : A -> exec S R R) s a s' :
  m s = (inl a, s') -> run_exec (m ≫= f) s = run_exec (f a) s'.
Proof. intros H. unfold run_exec, mbind, exec_bind. by rewrite H. Qed.
End ExecLaws.

Create HintDb quiz discriminated.
Create Rewrite HintDb quiz_rw.

#[export] Hint Rewrite @exec_bind_ret @exec_bind_early @exec_bind_gets
  @exec_bind_modify @exit_if_true @exit_if_false @run_exec_early
  @run_exec_ret : quiz_rw.

(** Case analysis on the boolean guards a handler tests, keeping the
    equation. *)
Ltac destruct_guard :=
  match goal with
  | |- context [if ?b then _ else _] =>
      lazymatch b with
      | context [if _ then _ else _] => fail
      | _ => let E := fresh "Hg" in destruct b eqn:E
      end
  end.

(** Unfolds the handler monad so that [simpl] runs a handler up to the
    first test on an unknown value. *)
Ltac exec_simpl :=
  unfold mbind, exec_bind, mret, exec_ret, gets, modify, exit_if, early; simpl.

(** [a[i] = v] on a JavaScript array: in range it replaces the element,
    past the end it extends the array (the holes read as [undefined]). *)
Definition js_array_set (l : list jsval) (i : nat) (v : jsval) : list jsval :=
  if decide (i < length l) then <[i := v]> l
  else l ++ replicate (i - length l) JUndefined ++ [v].
