(* ===== verification/JsNumber.v ===== *)
(** * ToNumber and the numeric comparisons of the handlers

    The handlers compare request values with numbers: [passing_score >
    questions.length] (server.js line 73), [score >= quiz.passing_score]
    (line 144) and [record.score < quiz.passing_score] (line 202).  A
    [passing_score] arrives from the JSON body and may be any JSON value,
    a string among them, which the comparison converts with ToNumber
    (ECMAScript's StringToNumber for a string): surrounding white space is
    dropped, the empty string is 0, and the rest must be a
    StringNumericLiteral: a decimal literal with an optional sign, digits,
    fraction and exponent, or [Infinity], or an unsigned [0x], [0o] or
    [0b] integer; anything else is [NaN], and every comparison with [NaN]
    is false.

    A finite value is kept exactly as [m * 10^e].  JavaScript rounds the
    literal to a double first; compared with an integer the two agree for
    every literal of at most 15 significant digits within the range of
    doubles (rounding moves such a value by less than its distance to any
    integer), which covers the values the handlers meet.  The white space
    is the ASCII one (tab, line feed, vertical tab, form feed, carriage
    return, space): the strings of the model are byte strings.

    The theorems show that the play route's verdict and the reward gate
    agree exactly when [passing_score] is not [NaN], that surrounding white
    space never changes the number, and that ToNumber inverts ToString on
    integers. *)

From S2P Require Import Prelude.
From Stdlib Require Import Ascii DecimalString DecimalN.

(** The result of ToNumber: [NaN], a finite [m * 10^e], or an infinity
    ([negative] for [-Infinity]). *)
Inductive number := NaN | Finite (m e : Z) | Infinity (negative : bool).

(** ** StringToNumber *)

(** StrWhiteSpaceChar, ASCII part. *)
Definition is_ws (c : ascii) : bool :=
  bool_decide (N_of_ascii c ∈ [9; 10; 11; 12; 13; 32]%N).

Definition is_digit (c : ascii) : bool :=
  (48 <=? N_of_ascii c)%N && (N_of_ascii c <=? 57)%N.

Fixpoint trim_start (s : string) : string :=
  match s with
  | String c s' => if is_ws c then trim_start s' else s
  | EmptyString => EmptyString
  end.

Fixpoint trim_end (s : string) : string :=
  match s with
  | String c s' =>
      let t := trim_end s' in
      if is_ws c && bool_decide (t = EmptyString) then EmptyString else String c t
  | EmptyString => EmptyString
  end.

(** [String.prototype.trim]: StringToNumber ignores both ends' white space. *)
Definition trim (s : string) : string := trim_end (trim_start s).

(** The longest prefix whose characters satisfy [p], and the rest. *)
Fixpoint span (p : ascii -> bool) (s : string) : string * string :=
  match s with
  | String c s' => if p c then let '(a, b) := span p s' in (String c a, b) else (EmptyString, s)
  | EmptyString => (EmptyString, EmptyString)
  end.

(** Every character of [s] satisfies [p]. *)
Fixpoint all_chars (p : ascii -> bool) (s : string) : bool :=
  match s with
  | String c s' => p c && all_chars p s'
  | EmptyString => true
  end.

(** The value of a digit in base 2, 8 or 16. *)
Definition radix_digit (base : Z) (c : ascii) : option Z :=
  let n := Z.of_N (N_of_ascii c) in
  let d := if (48 <=? n)%Z && (n <=? 57)%Z then Some (n - 48)%Z
           else if (97 <=? n)%Z && (n <=? 102)%Z then Some (n - 87)%Z
           else if (65 <=? n)%Z && (n <=? 70)%Z then Some (n - 55)%Z
           else None in
  match d with Some v => if (v <? base)%Z then Some v else None | None => None end.

Fixpoint radix_value (base : Z) (s : string) (acc : Z) : option Z :=
  match s with
  | EmptyString => Some acc
  | String c s' =>
      match radix_digit base c with
      | Some d => radix_value base s' (acc * base + d)%Z
      | None => None
      end
  end.

(** NonDecimalIntegerLiteral after its prefix: at least one digit. *)
Definition parse_radix (base : Z) (s : string) : number :=
  match s with
  | EmptyString => NaN
  | _ => match radix_value base s 0 with Some v => Finite v 0 | None => NaN end
  end.

(** DecimalDigits, [None] unless every character is a digit. *)
Definition digits_value (s : string) : option Z := option_map Z.of_N (dec_parse s).

(** The exponent's SignedInteger: an optional sign and at least one digit. *)
Definition parse_exponent (s : string) : option Z :=
  let '(neg, ds) :=
    match s with
    | String c s' =>
        if Ascii.eqb c "+" then (false, s') else if Ascii.eqb c "-" then (true, s') else (false, s)
    | EmptyString => (false, s)
    end in
  match ds with
  | EmptyString => None
  | _ => option_map (fun v => if neg then (- v)%Z else v) (digits_value ds)
  end.

(** StrUnsignedDecimalLiteral other than [Infinity]: [digits.digits],
    [.digits] or [digits], with at least one digit, then an optional
    exponent; the value as mantissa and power of ten. *)
Definition parse_unsigned (s : string) : option (Z * Z) :=
  let '(int, r1) := span is_digit s in
  let '(frac, r2) :=
    match r1 with
    | String c r => if Ascii.eqb c "." then span is_digit r else (EmptyString, r1)
    | EmptyString => (EmptyString, EmptyString)
    end in
  if bool_decide ((int ++ frac)%string = EmptyString) then None else
  e ← match r2 with
      | EmptyString => Some 0%Z
      | String c r => if Ascii.eqb c "e" || Ascii.eqb c "E" then parse_exponent r else None
      end;
  m ← digits_value (int ++ frac);
  Some (m, e - Z.of_nat (String.length frac))%Z.

(** StrDecimalLiteral: an optional sign, then [Infinity] or an unsigned
    decimal literal. *)
Definition parse_decimal (t : string) : number :=
  let '(neg, u) :=
    match t with
    | String c u => if Ascii.eqb c "+" then (false, u) else if Ascii.eqb c "-" then (true, u) else (false, t)
    | EmptyString => (false, t)
    end in
  if bool_decide (u = "Infinity"%string) then Infinity neg else
  match parse_unsigned u with
  | Some (m, e) => Finite (if neg then - m else m)%Z e
  | None => NaN
  end.

(** StringToNumber. *)
Definition string_to_number (s : string) : number :=
  let t := trim s in
  match t with
  | EmptyString => Finite 0 0
  | String c (String x r) =>
      if Ascii.eqb c "0" then
        if Ascii.eqb x "x" || Ascii.eqb x "X" then parse_radix 16 r
        else if Ascii.eqb x "o" || Ascii.eqb x "O" then parse_radix 8 r
        else if Ascii.eqb x "b" || Ascii.eqb x "B" then parse_radix 2 r
        else parse_decimal t
      else parse_decimal t
  | _ => parse_decimal t
  end.

(** ToNumber; an array converts through its string. *)
Definition to_number (x : jsval) : number :=
  match x with
  | JUndefined => NaN
  | JNull => Finite 0 0
  | JBool b => Finite (if b then 1 else 0) 0
  | JNum n => Finite n 0
  | JStr s => string_to_number s
  | JArr _ => string_to_number (js_to_string x)
  end.

(** ** Comparisons with an integer *)

(** How a number compares with the integer [n]; [None] for [NaN]. *)
Definition compare_int (x : number) (n : Z) : option comparison :=
  match x with
  | NaN => None
  | Infinity neg => Some (if neg then Lt else Gt)
  | Finite m e =>
      Some (if (0 <=? e)%Z then Z.compare (m * 10 ^ e) n else Z.compare m (n * 10 ^ (- e)))
  end.

(** [x > n], [n >= x] and [n < x] for a number [n]: every
    comparison with [NaN] is false. *)
Definition js_gt_num (x : jsval) (n : Z) : bool :=
  match compare_int (to_number x) n with Some Gt => true | _ => false end.
Definition num_ge_js (n : Z) (x : jsval) : bool :=
  match compare_int (to_number x) n with Some (Lt | Eq) => true | _ => false end.
Definition num_lt_js (n : Z) (x : jsval) : bool :=
  match compare_int (to_number x) n with Some Gt => true | _ => false end.

Definition is_nan (x : number) : bool := match x with NaN => true | _ => false end.

(** ** The [+] operator on a running total *)

(** A primitive value the handlers accumulate with [+=]: a number,
    [None] standing for [NaN] (the operands the routes receive are
    integers, so a numeric total is an integer or [NaN]), or a string. *)
Inductive prim := PNum (n : option Z) | PStr (s : string).

(** ToString of a primitive. *)
Definition prim_to_string (p : prim) : string :=
  match p with PNum (Some z) => z_string z | PNum None => "NaN" | PStr s => s end.

(** [a + b]: a string on either side (an array's ToPrimitive is its
    string) concatenates the ToStrings; otherwise ToNumber of both is
    added, [undefined] giving [NaN]. *)
Definition js_plus (a : prim) (b : jsval) : prim :=
  match a, b with
  | _, (JStr _ | JArr _) => PStr (prim_to_string a ++ js_to_string b)
  | PStr s, _ => PStr (s ++ js_to_string b)
  | PNum (Some n), JNum m => PNum (Some (n + m)%Z)
  | PNum (Some n), JNull => PNum (Some n)
  | PNum (Some n), JBool bb => PNum (Some (n + if bb then 1 else 0)%Z)
  | PNum _, _ => PNum None
  end.

(** ** Lemmas *)

Lemma compare_int_JNum m n : compare_int (to_number (JNum m)) n = Some (Z.compare m n).
Proof. simpl. by rewrite Z.mul_1_r. Qed.

Lemma js_gt_num_JNum m n : js_gt_num (JNum m) n = (n <? m)%Z.
Proof.
  unfold js_gt_num. rewrite compare_int_JNum.
  destruct (Z.compare_spec m n), (Z.ltb_spec n m); done || lia.
Qed.

Lemma num_ge_js_JNum n m : num_ge_js n (JNum m) = (m <=? n)%Z.
Proof.
  unfold num_ge_js. rewrite compare_int_JNum.
  destruct (Z.compare_spec m n), (Z.leb_spec m n); done || lia.
Qed.

Lemma num_lt_js_JNum n m : num_lt_js n (JNum m) = (n <? m)%Z.
Proof. unfold num_lt_js. rewrite <- js_gt_num_JNum. done. Qed.

#[export] Hint Rewrite js_gt_num_JNum num_ge_js_JNum num_lt_js_JNum : quiz_rw.

Lemma ws_not_digit c : is_digit c = true -> is_ws c = false.
Proof.
  unfold is_digit, is_ws. intros [H1 H2]%andb_prop. apply N.leb_le in H1, H2.
  apply bool_decide_eq_false. intros Hin.
  repeat (apply elem_of_cons in Hin as [Hc|Hin]; [rewrite Hc in H1, H2; lia|]).
  by apply elem_of_nil in Hin.
Qed.

Lemma trim_start_ws_app w s : all_chars is_ws w = true -> trim_start (w ++ s) = trim_start s.
Proof. induction w as [|c w IH]; simpl; [done|]. intros [-> Hw]%andb_prop. by apply IH. Qed.

Lemma trim_start_ws w : all_chars is_ws w = true -> trim_start w = EmptyString.
Proof. intros Hw. rewrite <- (string_app_nil_r w) at 1. by rewrite trim_start_ws_app. Qed.

Lemma trim_end_ws w : all_chars is_ws w = true -> trim_end w = EmptyString.
Proof. induction w as [|c w IH]; simpl; [done|]. intros [-> Hw]%andb_prop. by rewrite IH. Qed.

Lemma trim_end_ws_app s w : all_chars is_ws w = true -> trim_end (s ++ w) = trim_end s.
Proof.
  intros Hw. induction s as [|c s IH]; [exact (trim_end_ws w Hw)|]. simpl. by rewrite IH.
Qed.

Lemma trim_end_start_app s w :
  all_chars is_ws w = true -> trim_end (trim_start (s ++ w)) = trim_end (trim_start s).
Proof.
  intros Hw. induction s as [|c s IH]; simpl.
  - by rewrite trim_start_ws.
  - destruct (is_ws c) eqn:Hc; [done|].
    exact (trim_end_ws_app (String c s) w Hw).
Qed.

Lemma span_all p s : all_chars p s = true -> span p s = (s, EmptyString).
Proof. induction s as [|c s IH]; simpl; [done|]. intros [-> Hs]%andb_prop. by rewrite IH. Qed.

Lemma trim_end_digits s : all_chars is_digit s = true -> trim_end s = s.
Proof.
  induction s as [|c s IH]; simpl; [done|]. intros [Hc Hs]%andb_prop.
  by rewrite IH, ws_not_digit.
Qed.

Lemma digits_uint u : all_chars is_digit (NilEmpty.string_of_uint u) = true.
Proof. induction u; simpl; by rewrite ?IHu. Qed.

Lemma digits_nonempty_dec n : exists c t, dec_string n = String c t /\ is_digit c = true /\
                                          all_chars is_digit t = true.
Proof.
  pose proof (digits_uint (N.to_uint n)) as Hd. pose proof (dec_string_nonempty n) as Hn.
  unfold dec_string in *. destruct (NilEmpty.string_of_uint _) as [|c t]; [done|].
  apply andb_prop in Hd as [Hc Ht]. eauto.
Qed.

(** An unsigned decimal numeral [String(n)] reads back as [n]. *)
Lemma parse_unsigned_dec n :
  parse_unsigned (dec_string n) = Some (Z.of_N n, 0%Z).
Proof.
  unfold parse_unsigned. rewrite span_all by apply digits_uint. simpl.
  rewrite string_app_nil_r, bool_decide_false by apply dec_string_nonempty. simpl.
  unfold digits_value. rewrite dec_parse_string. simpl. by rewrite Z.sub_0_r.
Qed.

(** A digit is none of the characters the literal's grammar branches on. *)
Lemma digit_not c : is_digit c = true ->
  Ascii.eqb c "+" = false /\ Ascii.eqb c "-" = false /\ Ascii.eqb c "I" = false /\
  (Ascii.eqb c "x" || Ascii.eqb c "X") = false /\ (Ascii.eqb c "o" || Ascii.eqb c "O") = false /\
  (Ascii.eqb c "b" || Ascii.eqb c "B") = false.
Proof.
  intros Hc. assert (H : forall k, is_digit k = false -> Ascii.eqb c k = false).
  { intros k Hk. destruct (Ascii.eqb_spec c k); [subst; congruence|done]. }
  by rewrite !H.
Qed.

Lemma not_infinity c t : is_digit c = true -> bool_decide (String c t = "Infinity"%string) = false.
Proof.
  intros Hc. apply bool_decide_eq_false. intros [= -> _]. by compute in Hc.
Qed.

Lemma parse_decimal_digit c t : is_digit c = true ->
  parse_decimal (String c t) =
    match parse_unsigned (String c t) with Some (m, e) => Finite m e | None => NaN end.
Proof.
  intros Hc. destruct (digit_not c Hc) as (H1 & H2 & _).
  unfold parse_decimal. rewrite H1, H2. simpl. by rewrite not_infinity.
Qed.

Lemma parse_decimal_minus c t : is_digit c = true ->
  parse_decimal (String "-" (String c t)) =
    match parse_unsigned (String c t) with Some (m, e) => Finite (- m) e | None => NaN end.
Proof. intros Hc. unfold parse_decimal. simpl. by rewrite not_infinity. Qed.

(** A numeral of digits is read as a decimal literal: its first digit
    is no white space, and a leading [0] is not followed by a radix
    letter. *)
Lemma string_to_number_digits c t : is_digit c = true -> all_chars is_digit t = true ->
  string_to_number (String c t) = parse_decimal (String c t).
Proof.
  intros Hc Ht. unfold string_to_number, trim. simpl. rewrite (ws_not_digit c Hc).
  rewrite (trim_end_digits (String c t)) by (simpl; by rewrite Hc).
  destruct t as [|x r]; [done|]. simpl in Ht. apply andb_prop in Ht as [Hx _].
  destruct (digit_not x Hx) as (_ & _ & _ & -> & -> & ->). by destruct (Ascii.eqb c "0").
Qed.

Lemma string_to_number_minus c t : is_digit c = true -> all_chars is_digit t = true ->
  string_to_number (String "-" (String c t)) = parse_decimal (String "-" (String c t)).
Proof.
  intros Hc Ht.
  assert (Htrim : trim (String "-" (String c t)) = String "-" (String c t)).
  { unfold trim. change (trim_start (String "-" (String c t))) with (String "-" (String c t)).
    change (trim_end (String "-" (String c t))) with (String "-" (trim_end (String c t))).
    by rewrite trim_end_digits by (simpl; by rewrite Hc). }
  unfold string_to_number. by rewrite Htrim.
Qed.

(** ToNumber inverts ToString on integers: [Number(String(z))] is [z]. *)
Lemma to_number_z_string z : to_number (JStr (z_string z)) = Finite z 0.
Proof.
  unfold to_number, z_string. destruct (Z.ltb_spec z 0) as [Hz|Hz].
  - destruct (digits_nonempty_dec (Z.to_N (- z))) as (c & t & Hd & Hc & Ht). rewrite Hd.
    rewrite string_to_number_minus, parse_decimal_minus, <- Hd, parse_unsigned_dec by done.
    f_equal. lia.
  - destruct (digits_nonempty_dec (Z.to_N z)) as (c & t & Hd & Hc & Ht). rewrite Hd.
    rewrite string_to_number_digits, parse_decimal_digit, <- Hd, parse_unsigned_dec by done.
    f_equal. lia.
Qed.

(** The play route's verdict [score >= passing_score] and the reward
    gate's [score < passing_score] are complementary unless ToNumber of
    the passing score is [NaN], where both comparisons are false. *)
Lemma num_lt_ge_js n x :
  num_lt_js n x = negb (num_ge_js n x || is_nan (to_number x)).
Proof.
  unfold num_ge_js, num_lt_js. destruct (to_number x) as [|m e|[]]; simpl; try done.
  by case_match; [case_match|..].
Qed.

Lemma num_ge_js_nan n x : is_nan (to_number x) = true -> num_ge_js n x = false.
Proof. unfold num_ge_js. by destruct (to_number x). Qed.

(** White space around a numeric string never changes its number: for
    any runs [w1], [w2] of white space, ToNumber of [w1 + s + w2] is
    ToNumber of [s]. *)
Theorem string_to_number_trim w1 s w2 :
  all_chars is_ws w1 = true -> all_chars is_ws w2 = true ->
  string_to_number (w1 ++ s ++ w2) = string_to_number s.
Proof.
  intros H1 H2. unfold string_to_number, trim.
  by rewrite trim_start_ws_app, trim_end_start_app.
Qed.
