(* ===== verification/JsObject.v ===== *)
(** * JavaScript plain objects used as dictionaries

    [server.js] keeps its stores in object literals ([const quizzesStore =
    {}], line 15; [participantsStore], line 16), reads them with
    [store[key]], writes them with [store[key] = v] and lists them with
    [Object.values] (line 33).  An object is modelled by its own properties
    in creation order; [set] replaces a present property in place and
    appends a new one.  [values] follows the language's property order
    (OrdinaryOwnPropertyKeys): the keys that are array indices come first
    in ascending numeric order, the other keys follow in creation order.

    [to_map] forgets the order: the object refines a stdpp [gmap], and the
    lemmas of this file let the handlers' proofs reason with [gmap]
    lemmas. *)

From S2P Require Import Prelude.

(** A key is an array index when it is the canonical rendering of an
    integer below [2^32 - 1]. *)
Definition array_index (k : string) : option N :=
  match dec_parse k with
  | Some n =>
      if bool_decide (dec_string n = k) && (n <? 4294967295)%N
      then Some n else None
  | None => None
  end.

Module JsObject.

Record obj (V : Type) := Obj { props : list (string * V) }.
Arguments Obj {V} _.
Arguments props {V} _.

Section Ops.
Context {V : Type}.

(** [{}] *)
Definition empty : obj V := Obj [].

(** [o[k]], [None] for [undefined]. *)
Fixpoint assoc (l : list (string * V)) (k : string) : option V :=
  match l with
  | [] => None
  | (k', v) :: l' => if bool_decide (k' = k) then Some v else assoc l' k
  end.

Definition get (o : obj V) (k : string) : option V := assoc (props o) k.

(** [o[k] = v]: in place when [k] is a property, appended otherwise. *)
Fixpoint assoc_set (l : list (string * V)) (k : string) (v : V)
  : list (string * V) :=
  match l with
  | [] => [(k, v)]
  | (k', v') :: l' =>
      if bool_decide (k' = k) then (k', v) :: l'
      else (k', v') :: assoc_set l' k v
  end.

Definition set (o : obj V) (k : string) (v : V) : obj V :=
  Obj (assoc_set (props o) k v).

(** Insertion of an array-index property into a list sorted by
    index. *)
Fixpoint insert_index (n : N) (p : string * V)
         (l : list (N * (string * V))) : list (N * (string * V)) :=
  match l with
  | [] => [(n, p)]
  | (m, q) :: l' =>
      if (n <? m)%N then (n, p) :: (m, q) :: l'
      else (m, q) :: insert_index n p l'
  end.

(** The array-index properties in ascending order and the other
    properties in creation order. *)
Fixpoint split_keys (l : list (string * V))
  : list (N * (string * V)) * list (string * V) :=
  match l with
  | [] => ([], [])
  | p :: l' =>
      let '(idx, strs) := split_keys l' in
      match array_index p.1 with
      | Some n => (insert_index n p idx, strs)
      | None => (idx, p :: strs)
      end
  end.

Definition ordered_props (o : obj V) : list (string * V) :=
  let '(idx, strs) := split_keys (props o) in map snd idx ++ strs.

(** [Object.values(o)] *)
Definition values (o : obj V) : list V := map snd (ordered_props o).

(** [Object.keys(o)] *)
Definition keys (o : obj V) : list string := map fst (ordered_props o).

(** Well-formedness: a property name occurs once. *)
Definition wf (o : obj V) : Prop := NoDup (map fst (props o)).

(** The abstraction: the dictionary the object stands for. *)
Definition to_map (o : obj V) : gmap string V := list_to_map (props o).
End Ops.
End JsObject.

(** Reasoning about objects goes through the lemmas of [JsObjectFacts]. *)
#[global] Arguments JsObject.get {V} : simpl never.
#[global] Arguments JsObject.set {V} : simpl never.

Notation "o .[ k ]" := (JsObject.get o k) (at level 1, format "o .[ k ]") : js_scope.
Notation "o .[ k := v ]" := (JsObject.set o k v)
  (at level 1, format "o .[ k  :=  v ]") : js_scope.

Module JsObjectFacts.
Import JsObject.

Section Facts.
Context {V : Type}.
Implicit Types (o : obj V) (l : list (string * V)) (k : string) (v : V).

Lemma assoc_set_eq l k v : assoc (assoc_set l k v) k = Some v.
Proof.
  induction l as [|[k' v'] l IH]; simpl; [by rewrite bool_decide_true|].
  case_bool_decide; simpl; [by rewrite bool_decide_true|].
  by rewrite bool_decide_false.
Qed.

Lemma assoc_set_ne l k k' v :
  k <> k' -> assoc (assoc_set l k v) k' = assoc l k'.
Proof.
  intros Hne. induction l as [|[k0 v0] l IH]; simpl.
  - by rewrite bool_decide_false.
  - case_bool_decide; simpl; subst.
    + by rewrite !bool_decide_false.
    + by rewrite IH.
Qed.

Lemma get_set_eq o k v : o.[k := v].[k] = Some v.
Proof. apply assoc_set_eq. Qed.

Lemma get_set_ne o k k' v : k <> k' -> o.[k := v].[k'] = o.[k'].
Proof. apply assoc_set_ne. Qed.

Lemma get_set o k k' v :
  o.[k := v].[k'] = if decide (k = k') then Some v else o.[k'].
Proof.
  case_decide; subst; [apply get_set_eq|by apply get_set_ne].
Qed.

Lemma get_empty k : (empty : obj V).[k] = None.
Proof. reflexivity. Qed.

Lemma assoc_set_keys_in l k v :
  k ∈ l.*1 -> (assoc_set l k v).*1 = l.*1.
Proof.
  induction l as [|[k' v'] l IH]; simpl; [by intros ?%not_elem_of_nil|].
  intros Hin. case_bool_decide; simpl; [by subst|].
  f_equal. apply IH. set_solver.
Qed.

Lemma assoc_set_keys_notin l k v :
  k ∉ l.*1 -> (assoc_set l k v).*1 = l.*1 ++ [k].
Proof.
  induction l as [|[k' v'] l IH]; simpl; [done|].
  intros Hin. rewrite bool_decide_false by set_solver.
  simpl. f_equal. apply IH. set_solver.
Qed.

Lemma assoc_None l k : assoc l k = None <-> k ∉ l.*1.
Proof.
  induction l as [|[k' v'] l IH]; simpl; [split; [set_solver|done]|].
  case_bool_decide; subst; [split; [done|set_solver]|].
  rewrite IH. set_solver.
Qed.

Lemma get_Some_in o k v : o.[k] = Some v -> k ∈ (props o).*1.
Proof.
  unfold get. intros Hk. destruct (decide (k ∈ (props o).*1)) as [|Hn]; [done|].
  apply assoc_None in Hn. congruence.
Qed.

(** Writing an existing property keeps the number of properties; writing
    a new one adds one. *)
Lemma length_set_in o k v w : o.[k] = Some w -> length (props (o.[k := v])) = length (props o).
Proof.
  intros Hk%get_Some_in. unfold set; simpl.
  rewrite <- (length_fmap fst (assoc_set _ _ _)), <- (length_fmap fst (props o)).
  by rewrite assoc_set_keys_in.
Qed.

Lemma length_set_notin o k v : o.[k] = None -> length (props (o.[k := v])) = S (length (props o)).
Proof.
  intros Hk%assoc_None. unfold set; simpl.
  rewrite <- (length_fmap fst (assoc_set _ _ _)), <- (length_fmap fst (props o)).
  rewrite assoc_set_keys_notin by done. rewrite length_app. simpl. lia.
Qed.

(** [o[k] = v] keeps the object's property names distinct. *)
Lemma wf_set o k v : wf o -> wf (o.[k := v]).
Proof.
  unfold wf, set; simpl. intros Hnd.
  destruct (decide (k ∈ (props o).*1)) as [Hin|Hin].
  - by rewrite assoc_set_keys_in.
  - rewrite assoc_set_keys_notin by done.
    apply NoDup_app. split; [done|]. split; [set_solver|apply NoDup_singleton].
Qed.

Lemma wf_empty : wf (empty : obj V).
Proof. constructor. Qed.

Lemma lookup_to_map o k : to_map o !! k = o.[k].
Proof.
  destruct o as [l]. unfold to_map, get; simpl.
  induction l as [|[k' v'] l IH]; simpl; [apply lookup_empty|].
  rewrite lookup_insert. case_bool_decide; case_decide; congruence.
Qed.

(** Refinement: writing a property of the object is inserting into the
    dictionary it stands for. *)
Lemma to_map_set o k v : to_map (o.[k := v]) = <[k := v]> (to_map o).
Proof.
  apply map_eq. intros k'. rewrite lookup_to_map, lookup_insert, get_set.
  case_decide; [done|]. symmetry. apply lookup_to_map.
Qed.

Lemma to_map_empty : to_map (empty : obj V) = ∅.
Proof. reflexivity. Qed.

(** Writing a property twice keeps the second value, in place. *)
Lemma set_set o k v w : o.[k := v].[k := w] = o.[k := w].
Proof.
  destruct o as [l]. unfold set; simpl. f_equal.
  induction l as [|[k' v'] l IH]; simpl; [by rewrite bool_decide_true|].
  case_bool_decide; simpl; [by rewrite bool_decide_true|].
  rewrite bool_decide_false by done. by rewrite IH.
Qed.

(** Writing back the value a property holds changes nothing. *)
Lemma set_get_id o k v : o.[k] = Some v -> o.[k := v] = o.
Proof.
  destruct o as [l]. unfold get, set; simpl. intros H. f_equal.
  induction l as [|[k' v'] l IH]; simpl in *; [done|].
  case_bool_decide; [congruence|]. by rewrite IH.
Qed.
End Facts.
End JsObjectFacts.

#[export] Hint Rewrite @JsObjectFacts.get_set_eq @JsObjectFacts.lookup_to_map
  @JsObjectFacts.to_map_set : quiz_rw.
#[export] Hint Resolve JsObjectFacts.wf_set JsObjectFacts.wf_empty : quiz.
