(* ===== verification/Model.v ===== *)
(** * The data of [server.js]

    The objects the backend stores and sends: a question and a quiz as
    [POST /api/quizzes] builds them (lines 78-88), the participation record
    of [POST /api/quizzes/:quizId/play] (lines 128-135), the statistics
    object (lines 17-22), the nine requests the routes accept with the body
    fields each destructures, the JSON bodies they answer with, and the
    server state: the three stores and the clock [Date.now()]. *)

From S2P Require Import Prelude JsNumber JsObject Keys.

(** A question as the client sends it; the server never validates it, so
    [correct_answer] is whatever JSON value the body holds ([undefined]
    when absent). *)
Module Question.
Record t := mk {
  question_text : jsval;
  options : jsval;
  correct_answer : jsval
}.

(** [{ question_text: q.question_text, options: q.options,
       correct_answer: hide ? undefined : q.correct_answer }] *)
Definition view (hide : bool) (q : t) : t :=
  mk (question_text q) (options q)
     (if hide then JUndefined else correct_answer q).
End Question.

(** [newQuiz], lines 78-88. *)
Module Quiz.
Record t := mk {
  quiz_id : string;
  title : jsval;
  description : jsval;
  questions : list Question.t;
  reward_pool : jsval;
  passing_score : jsval;
  creator : jsval;
  is_active : bool;
  created_at : N
}.

(** [quiz.is_active = !quiz.is_active] (line 186). *)
Definition toggle (q : t) : t :=
  mk (quiz_id q) (title q) (description q) (questions q) (reward_pool q)
     (passing_score q) (creator q) (negb (is_active q)) (created_at q).

(** [{ ...quiz, questions: quiz.questions.map(..) }] (lines 33-41 and
    52-59): the correct answers are hidden while the quiz is active. *)
Definition safe_view (q : t) : t :=
  mk (quiz_id q) (title q) (description q)
     (map (Question.view (is_active q)) (questions q))
     (reward_pool q) (passing_score q) (creator q) (is_active q) (created_at q).
End Quiz.

(** The participation [record], lines 128-135. *)
Module Attempt.
Record t := mk {
  address : jsval;
  score : Z;
  quiz_id : string;
  timestamp : N;
  rewarded : bool;
  answers : list jsval
}.

(** [record.rewarded = true] (line 206). *)
Definition mark_rewarded (r : t) : t :=
  mk (address r) (score r) (quiz_id r) (timestamp r) true (answers r).
End Attempt.

(** [statsStore], lines 17-22. *)
Module Stats.
Record t := mk {
  total_participants : Z;
  total_rewards_distributed : prim;
  highest_score : Z;
  total_quizzes : Z
}.

Definition init : t := mk 0 (PNum (Some 0%Z)) 0 0.

(** [statsStore.total_quizzes += 1] (line 91). *)
Definition add_quiz (s : t) : t :=
  mk (total_participants s) (total_rewards_distributed s) (highest_score s)
     (total_quizzes s + 1).

(** [statsStore.total_participants += 1] (line 138). *)
Definition add_participant (s : t) : t :=
  mk (total_participants s + 1) (total_rewards_distributed s)
     (highest_score s) (total_quizzes s).

(** [if (score > statsStore.highest_score) statsStore.highest_score = score]
    (lines 140-142). *)
Definition record_score (score : Z) (s : t) : t :=
  if (highest_score s <? score)%Z
  then mk (total_participants s) (total_rewards_distributed s) score (total_quizzes s)
  else s.

(** [statsStore.total_rewards_distributed += rewardAmount] (line 207). *)
Definition add_reward (amount : jsval) (s : t) : t :=
  mk (total_participants s) (js_plus (total_rewards_distributed s) amount)
     (highest_score s) (total_quizzes s).
End Stats.

(** The routes of [server.js] with the parameters and body fields each one
    reads.  Path parameters are strings; body fields are JSON values. *)
Inductive request :=
| GetHealth                                   (** GET /api/health *)
| GetQuizzes                                  (** GET /api/quizzes *)
| GetQuiz (quizId : string)                   (** GET /api/quizzes/:quizId *)
| PostQuiz (title description : jsval) (questions : option (list Question.t))
           (reward_pool passing_score adminAddress : jsval)
                                              (** POST /api/quizzes *)
| PostPlay (quizId : string) (participant : jsval) (answers : option (list jsval))
                                              (** POST /api/quizzes/:quizId/play *)
| GetParticipant (address quizId : string)    (** GET /api/participants/:address/quiz/:quizId *)
| GetStats                                    (** GET /api/stats *)
| PatchStatus (quizId : string)               (** PATCH /api/quizzes/:quizId/status *)
| PostDistribute (participant quizId rewardAmount : jsval)
                                              (** POST /api/rewards/distribute *).

(** The JSON bodies the routes send. *)
Inductive body :=
| BError (error : string)
| BHealth (status message : string)
| BQuizzes (quizzes : list Quiz.t) (total : Z)
| BQuiz (quiz : Quiz.t)
| BCreated (quizId message : string)
| BScore (score total_questions : Z) (passed reward_eligible : bool) (message : string)
| BRecord (record : Attempt.t)
| BStats (stats : Stats.t)
| BStatus (quiz_id : string) (is_active : bool)
| BReward (message : string) (participant amount : jsval)
| BNoRoute (** Express's default page for a path no route matches *).

Record response := Response { status : Z; payload : body }.

(** [res.json(b)] *)
Definition ok (b : body) : response := Response 200 b.
(** [res.status(code).json({ error: msg })] *)
Definition fail (code : Z) (msg : string) : response := Response code (BError msg).
(** The error middleware (lines 213-216): an exception thrown by a handler
    is answered with 500. *)
Definition internal_error : response := fail 500 "Internal server error".

(** The process-wide state the handlers share. *)
Record server := Server {
  quizzesStore : JsObject.obj Quiz.t;
  participantsStore : JsObject.obj Attempt.t;
  statsStore : Stats.t;
  clock : N          (** what [Date.now()] returns *)
}.

(** The state at start-up (lines 15-22). *)
Definition server_init (now : N) : server :=
  Server JsObject.empty JsObject.empty Stats.init now.

Definition set_quizzes (o : JsObject.obj Quiz.t) (s : server) : server :=
  Server o (participantsStore s) (statsStore s) (clock s).
Definition set_participants (o : JsObject.obj Attempt.t) (s : server) : server :=
  Server (quizzesStore s) o (statsStore s) (clock s).
Definition set_stats (st : Stats.t) (s : server) : server :=
  Server (quizzesStore s) (participantsStore s) st (clock s).

Abbreviation handler := (exec server response).
