(* ===== verification/Scoring.v ===== *)
(** * The scoring loop of [POST /api/quizzes/:quizId/play]

    [server.js] lines 121-126:
    {[
      let score = 0;
      for (let i = 0; i < quiz.questions.length; i++) {
        if (answers[i] === quiz.questions[i].correct_answer) { score += 1; }
      }
    ]}
    [for_score] runs the loop from index [i] with [fuel] iterations left;
    [score_answers] starts it with as many iterations as the loop header
    allows.  [count_correct] is the specification: the number of positions
    where the answer is strictly equal to the correct one.  The theorems
    show that the fuel never runs out before the loop condition fails, that
    the loop computes the specification, and its bounds. *)

From S2P Require Import Prelude JsNumber Model.

(** [answers[i]], [undefined] past the end. *)
Definition answer_at (answers : list jsval) (i : nat) : jsval :=
  default JUndefined (answers !! i).

Fixpoint for_score (answers : list jsval) (questions : list Question.t)
         (fuel i : nat) (score : Z) : Z :=
  match fuel with
  | O => score
  | S fuel' =>
      match questions !! i with                 (* i < quiz.questions.length *)
      | None => score
      | Some q =>
          let score' := if answer_at answers i === Question.correct_answer q
                        then (score + 1)%Z else score in
          for_score answers questions fuel' (S i) score'
      end
  end.

Definition score_answers (answers : list jsval) (questions : list Question.t) : Z :=
  for_score answers questions (length questions) 0 0%Z.

(** The specification: how many answers are strictly equal to the correct
    answer of their question. *)
Definition count_correct (answers : list jsval) (questions : list Question.t) : nat :=
  length (filter (fun p : jsval * Question.t => (p.1 === Question.correct_answer p.2) = true)
                 (zip answers questions)).

(** ** Lemmas *)

Lemma for_score_past_end answers questions fuel i score :
  length questions <= i -> for_score answers questions fuel i score = score.
Proof.
  intros Hi. destruct fuel; simpl; [done|].
  by rewrite lookup_ge_None_2 by lia.
Qed.

(** The loop body adds one exactly when the answer at [i] is correct. *)
Lemma for_score_step answers questions fuel i score q :
  questions !! i = Some q ->
  for_score answers questions (S fuel) i score =
  for_score answers questions fuel (S i)
    (if answer_at answers i === Question.correct_answer q then score + 1 else score)%Z.
Proof. intros Hq. simpl. by rewrite Hq. Qed.

(** The loop adds its count to the score it starts from, and only depends
    on the fuel through [length questions - i]. *)
Lemma for_score_shift answers questions fuel i score :
  length questions - i <= fuel ->
  for_score answers questions fuel i score =
  (score + for_score answers questions fuel i 0)%Z.
Proof.
  revert i score. induction fuel as [|fuel IH]; intros i score Hf; simpl.
  - lia.
  - destruct (questions !! i) as [q|]; [|lia].
    destruct (answer_at answers i === _).
    + rewrite (IH (S i) (score + 1)%Z), (IH (S i) (0 + 1)%Z) by lia. lia.
    + rewrite (IH (S i) score) by lia. lia.
Qed.

Lemma count_correct_cons a q answers questions :
  count_correct (a :: answers) (q :: questions) =
  ((if a === Question.correct_answer q then 1 else 0) + count_correct answers questions)%nat.
Proof.
  unfold count_correct. simpl. rewrite filter_cons. simpl.
  by destruct (a === Question.correct_answer q).
Qed.

Lemma count_correct_le answers questions :
  (count_correct answers questions <= length questions)%nat.
Proof.
  unfold count_correct.
  etransitivity; [apply length_filter|]. rewrite length_zip. lia.
Qed.

Lemma for_score_count answers questions fuel i :
  length answers = length questions -> length questions - i <= fuel ->
  for_score answers questions fuel i 0 =
  Z.of_nat (count_correct (drop i answers) (drop i questions)).
Proof.
  intros Hlen. revert i. induction fuel as [|fuel IH]; intros i Hf.
  - rewrite !drop_ge by lia. reflexivity.
  - destruct (questions !! i) as [q|] eqn:Hq.
    + assert (is_Some (answers !! i)) as [a Ha]
        by (apply lookup_lt_is_Some_2; apply lookup_lt_Some in Hq; lia).
      rewrite for_score_step with (q := q) by done.
      rewrite for_score_shift by lia. rewrite IH by lia.
      rewrite (drop_S answers a i), (drop_S questions q i) by done.
      rewrite count_correct_cons. unfold answer_at. rewrite Ha. simpl.
      destruct (a === Question.correct_answer q); lia.
    + apply lookup_ge_None in Hq.
      rewrite for_score_past_end, !drop_ge by lia. reflexivity.
Qed.

(** [C3] Equivalence: once the handler has checked that there are as many
    answers as questions, the scoring loop computes the number of answers
    strictly equal ([===]) to their question's [correct_answer]. *)
Theorem score_answers_correct answers questions :
  length answers = length questions ->
  score_answers answers questions = Z.of_nat (count_correct answers questions).
Proof.
  intros Hlen. unfold score_answers. rewrite for_score_count by lia.
  by rewrite !drop_0.
Qed.

Example score_answers_correct_witness :
  length [JNum 1; JNum 0] = length [Question.mk (JStr "Q1") JNull (JNum 1);
                                     Question.mk (JStr "Q2") JNull (JNum 1)] /\
  score_answers [JNum 1; JNum 0] [Question.mk (JStr "Q1") JNull (JNum 1);
                                   Question.mk (JStr "Q2") JNull (JNum 1)] = 1%Z.
Proof.
  split; [reflexivity|].
  rewrite score_answers_correct by reflexivity. reflexivity.
Defined.

(** [C4] Termination and bounds: the loop stops on its own condition
    [i < quiz.questions.length] (any further fuel changes nothing) and its
    score lies between 0 and the number of questions. *)
Theorem score_answers_bounds answers questions extra :
  for_score answers questions (length questions + extra) 0 0%Z = score_answers answers questions /\
  (0 <= score_answers answers questions <= Z.of_nat (length questions))%Z.
Proof.
  enough (forall (fuel i : nat) (s : Z), length questions - i <= fuel ->
            (s <= for_score answers questions fuel i s
               <= s + Z.of_nat (length questions - i))%Z /\
            forall k, for_score answers questions (fuel + k) i s =
                      for_score answers questions fuel i s) as Hgen.
  { destruct (Hgen (length questions) 0 0%Z) as [[Hlo Hhi] Hk]; [lia|].
    unfold score_answers. rewrite Hk. split; [done|]. lia. }
  induction fuel as [|fuel IH]; intros i s Hf; simpl.
  - split; [lia|]. intros k. by rewrite for_score_past_end by lia.
  - destruct (questions !! i) as [q|] eqn:Hq; [|split; [lia|done]].
    apply lookup_lt_Some in Hq.
    destruct (IH (S i) (if answer_at answers i === Question.correct_answer q
                        then s + 1 else s)%Z) as [[Hlo Hhi] Hk]; [lia|].
    split; [destruct (_ === _); lia|]. intros k. by rewrite Hk.
Qed.
