(* ===== verification/Server.v ===== *)
(** * The routes of [server.js]

    One handler per route, in the handler monad of [Prelude]: each
    [return res.status(..).json(..)] of the source is an [early] exit (or
    [exit_if] for an [if (..) return ..]), each mutation of a store is a
    [modify], each read of a store a [gets], in the order of the code.
    [handle] dispatches a request to its route and runs the handler on the
    server state, giving the response and the new state.

    The theorems state, for each route, what [handle] answers and how it
    changes the state on each branch of the code: the play route records
    at most one attempt per (participant, quiz) and scores it by the
    specification of [Scoring]; the creation route enforces [passing_score
    <= questions.length] and stores an active quiz under the clock's id,
    so that two creations in one millisecond share an id and the second
    replaces the first; the reward route pays once, only to a recorded
    attempt that is not below the passing score, and it pays exactly the
    attempts the play route reported as passed, save on a [NaN] passing
    score; a toggle flips [is_active] alone and a second one restores the
    state; the public view hides correct answers exactly while a quiz is
    active; a request that fails leaves the state as it was.  Each theorem
    with hypotheses has a witness at a concrete server. *)

From S2P Require Import Prelude JsNumber JsObject Keys Model Scoring.

(** [GET /api/health], lines 27-29. *)
Definition get_health : handler response :=
  mret (ok (BHealth "ok" "Quiz platform backend is running")).

(** [GET /api/quizzes], lines 32-43. *)
Definition get_quizzes : handler response :=
  store ← gets quizzesStore;
  let quizzes := map Quiz.safe_view (JsObject.values store) in
  mret (ok (BQuizzes quizzes (Z.of_nat (length quizzes)))).

(** [GET /api/quizzes/:quizId], lines 46-62. *)
Definition get_quiz (quizId : string) : handler response :=
  store ← gets quizzesStore;
  match store.[quizId] with
  | None => return_ (fail 404 "Quiz not found")
  | Some quiz => mret (ok (BQuiz (Quiz.safe_view quiz)))
  end.

(** [POST /api/quizzes], lines 65-94. *)
Definition create_quiz (title description : jsval) (questions : option (list Question.t))
           (reward_pool passing_score adminAddress : jsval) : handler response :=
  exit_if (negb (truthy title)) (fail 400 "Invalid quiz data");;
  match questions with
  | None => return_ (fail 400 "Invalid quiz data")
  | Some qs =>
      exit_if (bool_decide (length qs = 0)) (fail 400 "Invalid quiz data");;
      exit_if (js_gt_num passing_score (Z.of_nat (length qs)))
              (fail 400 "Passing score exceeds question count");;
      now ← gets clock;
      let quizId := quiz_id_of now in
      let newQuiz := Quiz.mk quizId title description qs reward_pool passing_score
                             adminAddress true now in
      modify (fun s => set_quizzes ((quizzesStore s).[quizId := newQuiz]) s);;
      modify (fun s => set_stats (Stats.add_quiz (statsStore s)) s);;
      mret (Response 201 (BCreated quizId "Quiz created successfully"))
  end.

(** The outcome message of line 151. *)
Definition pass_message (passed : bool) : string :=
  if passed then "Congratulations! You passed!" else "You did not pass this quiz".

(** [POST /api/quizzes/:quizId/play], lines 97-153. *)
Definition play_quiz (quizId : string) (participant : jsval)
           (answers : option (list jsval)) : handler response :=
  store ← gets quizzesStore;
  match store.[quizId] with
  | None => return_ (fail 404 "Quiz not found")
  | Some quiz =>
      exit_if (negb (Quiz.is_active quiz)) (fail 400 "Quiz is not active");;
      match answers with
      | None => return_ internal_error       (* [answers.length] throws *)
      | Some ans =>
          exit_if (negb (bool_decide (length ans = length (Quiz.questions quiz))))
                  (fail 400 "Number of answers must match questions");;
          let participantKey := participant_key (js_to_string participant) quizId in
          records ← gets participantsStore;
          exit_if (bool_decide (is_Some (records.[participantKey])))
                  (fail 400 "You have already played this quiz");;
          let score := score_answers ans (Quiz.questions quiz) in
          now ← gets clock;
          let record := Attempt.mk participant score quizId now false ans in
          modify (fun s => set_participants
                             ((participantsStore s).[participantKey := record]) s);;
          modify (fun s => set_stats (Stats.add_participant (statsStore s)) s);;
          modify (fun s => set_stats (Stats.record_score score (statsStore s)) s);;
          let passed := num_ge_js score (Quiz.passing_score quiz) in
          mret (ok (BScore score (Z.of_nat (length (Quiz.questions quiz)))
                           passed passed (pass_message passed)))
      end
  end.

(** [GET /api/participants/:address/quiz/:quizId], lines 156-172: a pair
    that has not played gets a zero record, never a 404. *)
Definition get_participant (address quizId : string) : handler response :=
  let participantKey := participant_key address quizId in
  records ← gets participantsStore;
  match records.[participantKey] with
  | None => return_ (ok (BRecord (Attempt.mk (JStr address) 0 quizId 0 false [])))
  | Some record => mret (ok (BRecord record))
  end.

(** [GET /api/stats], lines 175-177. *)
Definition get_stats : handler response :=
  st ← gets statsStore;
  mret (ok (BStats st)).

(** [PATCH /api/quizzes/:quizId/status], lines 180-188. *)
Definition toggle_status (quizId : string) : handler response :=
  store ← gets quizzesStore;
  match store.[quizId] with
  | None => return_ (fail 404 "Quiz not found")
  | Some quiz =>
      modify (fun s => set_quizzes ((quizzesStore s).[quizId := Quiz.toggle quiz]) s);;
      mret (ok (BStatus quizId (Quiz.is_active (Quiz.toggle quiz))))
  end.

(** [POST /api/rewards/distribute], lines 191-210. *)
Definition distribute_reward (participant quizId rewardAmount : jsval)
  : handler response :=
  let participantKey := participant_key (js_to_string participant) (js_to_string quizId) in
  records ← gets participantsStore;
  store ← gets quizzesStore;
  match records.[participantKey], store.[js_to_string quizId] with
  | Some record, Some quiz =>
      exit_if (num_lt_js (Attempt.score record) (Quiz.passing_score quiz)
               || Attempt.rewarded record)
              (fail 400 "Cannot distribute reward");;
      modify (fun s => set_participants
                         ((participantsStore s).[participantKey := Attempt.mark_rewarded record]) s);;
      modify (fun s => set_stats (Stats.add_reward rewardAmount (statsStore s)) s);;
      mret (ok (BReward "Reward distributed successfully" participant rewardAmount))
  | _, _ => return_ (fail 404 "Record or quiz not found")
  end.

(** The router: which handler serves a request. *)
Definition route (req : request) : handler response :=
  match req with
  | GetHealth => get_health
  | GetQuizzes => get_quizzes
  | GetQuiz quizId => get_quiz quizId
  | PostQuiz title description questions reward_pool passing_score adminAddress =>
      create_quiz title description questions reward_pool passing_score adminAddress
  | PostPlay quizId participant answers => play_quiz quizId participant answers
  | GetParticipant address quizId => get_participant address quizId
  | GetStats => get_stats
  | PatchStatus quizId => toggle_status quizId
  | PostDistribute participant quizId rewardAmount =>
      distribute_reward participant quizId rewardAmount
  end.

Definition handle (req : request) (s : server) : response * server :=
  run_exec (route req) s.

(** ** A concrete server for the witnesses *)

Definition demo_question : Question.t := Question.mk (JStr "2+2?") JNull (JNum 1).

Definition demo_quiz (active : bool) : Quiz.t :=
  Quiz.mk "1000" (JStr "Arithmetic") (JStr "sums") [demo_question; demo_question]
          (JNum 100) (JNum 1) (JStr "admin") active 1000.

Definition demo_record (rewarded : bool) : Attempt.t :=
  Attempt.mk (JStr "alice") 2 "1000" 1001 rewarded [JNum 1; JNum 1].

(** One active quiz, played by ["alice"], not yet rewarded. *)
Definition demo_server : server :=
  Server (JsObject.Obj [("1000", demo_quiz true)])
         (JsObject.Obj [("alice-1000", demo_record false)])
         (Stats.mk 1 (PNum (Some 0%Z)) 2 1) 1002.

Import JsObjectFacts.
Local Open Scope Z_scope.

(** Unfolds a route down to the first test on the state. *)
Ltac run_route :=
  unfold handle, run_exec, route,
    get_health, get_quizzes, get_quiz, create_quiz, play_quiz,
    get_participant, get_stats, toggle_status, distribute_reward;
  exec_simpl.

(** ** Run equations

    Each route evaluated through the handler monad: the response and the
    new state on each branch, the scoring loop replaced by its
    specification.  The properties below are read off these equations. *)

Lemma handle_play s quizId p ans :
  handle (PostPlay quizId p ans) s =
  match (quizzesStore s).[quizId] with
  | None => (fail 404 "Quiz not found", s)
  | Some quiz =>
      if negb (Quiz.is_active quiz) then (fail 400 "Quiz is not active", s) else
      match ans with
      | None => (internal_error, s)
      | Some l =>
          if negb (bool_decide (length l = length (Quiz.questions quiz)))
          then (fail 400 "Number of answers must match questions", s) else
          let key := participant_key (js_to_string p) quizId in
          if bool_decide (is_Some ((participantsStore s).[key]))
          then (fail 400 "You have already played this quiz", s) else
          let score := Z.of_nat (count_correct l (Quiz.questions quiz)) in
          let passed := num_ge_js score (Quiz.passing_score quiz) in
          (ok (BScore score (Z.of_nat (length (Quiz.questions quiz))) passed passed
                      (pass_message passed)),
           Server (quizzesStore s)
                  ((participantsStore s).[key := Attempt.mk p score quizId (clock s) false l])
                  (Stats.record_score score (Stats.add_participant (statsStore s)))
                  (clock s))
      end
  end.
Proof.
  run_route. destruct ((quizzesStore s).[quizId]) as [quiz|]; simpl; [|done].
  destruct (Quiz.is_active quiz); simpl; [|done].
  destruct ans as [l|]; simpl; [|done].
  case_bool_decide as Hl; simpl; [|done].
  case_bool_decide; simpl; [done|].
  unfold score_answers. rewrite for_score_count, !drop_0 by lia. done.
Qed.

Lemma handle_create s title description questions reward_pool passing_score admin :
  handle (PostQuiz title description questions reward_pool passing_score admin) s =
  if negb (truthy title) then (fail 400 "Invalid quiz data", s) else
  match questions with
  | None => (fail 400 "Invalid quiz data", s)
  | Some qs =>
      if bool_decide (length qs = 0%nat) then (fail 400 "Invalid quiz data", s) else
      if js_gt_num passing_score (Z.of_nat (length qs))
      then (fail 400 "Passing score exceeds question count", s) else
      let quizId := quiz_id_of (clock s) in
      (Response 201 (BCreated quizId "Quiz created successfully"),
       Server ((quizzesStore s).[quizId := Quiz.mk quizId title description qs reward_pool
                                             passing_score admin true (clock s)])
              (participantsStore s) (Stats.add_quiz (statsStore s)) (clock s))
  end.
Proof.
  run_route. destruct (truthy title); simpl; [|done].
  destruct questions as [qs|]; simpl; [|done].
  case_bool_decide; simpl; [done|]. by destruct (js_gt_num _ _).
Qed.

Lemma handle_distribute s p q amount :
  handle (PostDistribute p q amount) s =
  let key := participant_key (js_to_string p) (js_to_string q) in
  match (participantsStore s).[key], (quizzesStore s).[js_to_string q] with
  | Some record, Some quiz =>
      if num_lt_js (Attempt.score record) (Quiz.passing_score quiz) || Attempt.rewarded record
      then (fail 400 "Cannot distribute reward", s)
      else (ok (BReward "Reward distributed successfully" p amount),
            Server (quizzesStore s)
                   ((participantsStore s).[key := Attempt.mark_rewarded record])
                   (Stats.add_reward amount (statsStore s)) (clock s))
  | _, _ => (fail 404 "Record or quiz not found", s)
  end.
Proof.
  run_route.
  destruct ((participantsStore s).[_]), ((quizzesStore s).[js_to_string q]); simpl; try done.
  by destruct (_ || _).
Qed.

Lemma handle_toggle s quizId :
  handle (PatchStatus quizId) s =
  match (quizzesStore s).[quizId] with
  | None => (fail 404 "Quiz not found", s)
  | Some quiz =>
      (ok (BStatus quizId (negb (Quiz.is_active quiz))),
       set_quizzes ((quizzesStore s).[quizId := Quiz.toggle quiz]) s)
  end.
Proof. run_route. by destruct ((quizzesStore s).[quizId]). Qed.

Lemma handle_get_quiz s quizId :
  handle (GetQuiz quizId) s =
  match (quizzesStore s).[quizId] with
  | None => (fail 404 "Quiz not found", s)
  | Some quiz => (ok (BQuiz (Quiz.safe_view quiz)), s)
  end.
Proof. run_route. by destruct ((quizzesStore s).[quizId]). Qed.

Lemma handle_get_quizzes s :
  handle GetQuizzes s =
  (ok (BQuizzes (map Quiz.safe_view (JsObject.values (quizzesStore s)))
                (Z.of_nat (length (JsObject.values (quizzesStore s))))), s).
Proof. run_route. by rewrite length_map. Qed.

(** ** Play *)

Section Play.
Context (s : server) (quizId : string) (p : jsval).

Local Abbreviation key := (participant_key (js_to_string p) quizId).

(** [C1] At most one attempt per (participant, quiz): once a record
    exists under the pair's key, a play request for the pair never
    succeeds and changes nothing, neither the first record nor the
    statistics. *)
Theorem play_at_most_once ans r :
  (participantsStore s).[key] = Some r ->
  (handle (PostPlay quizId p ans) s).2 = s /\
  status (handle (PostPlay quizId p ans) s).1 <> 200.
Proof.
  intros Hr. rewrite handle_play.
  destruct ((quizzesStore s).[quizId]) as [quiz|]; [|done].
  destruct (Quiz.is_active quiz); [|done]. destruct ans as [l|]; [|done]. simpl.
  case_bool_decide; [|done]. by rewrite Hr, bool_decide_true.
Qed.

(** [C2] A first play of an active quiz with one answer per question
    records the attempt (score by the specification, the clock's time,
    not rewarded), counts one more participant, raises the highest score
    if exceeded and answers with the score and [passed = score >=
    passing_score]. *)
Theorem play_records_attempt ans quiz :
  (quizzesStore s).[quizId] = Some quiz ->
  Quiz.is_active quiz = true ->
  length ans = length (Quiz.questions quiz) ->
  (participantsStore s).[key] = None ->
  let score := Z.of_nat (count_correct ans (Quiz.questions quiz)) in
  let passed := num_ge_js score (Quiz.passing_score quiz) in
  handle (PostPlay quizId p (Some ans)) s =
    (ok (BScore score (Z.of_nat (length (Quiz.questions quiz))) passed passed
                (pass_message passed)),
     Server (quizzesStore s)
            ((participantsStore s).[key := Attempt.mk p score quizId (clock s) false ans])
            (Stats.record_score score (Stats.add_participant (statsStore s)))
            (clock s)).
Proof.
  intros Hq Ha Hl Hr. rewrite handle_play, Hq, Ha. simpl.
  by rewrite bool_decide_true, Hr by done.
Qed.

(** [C14] The checks of the play route in the order of the code, first
    failure wins: unknown quiz (404), inactive quiz (400), missing
    answers (the [TypeError] of [answers.length], 500), wrong number of
    answers (400); none of them changes the state. *)
Theorem play_guard_order ans :
  match (quizzesStore s).[quizId] with
  | None => handle (PostPlay quizId p ans) s = (fail 404 "Quiz not found", s)
  | Some quiz =>
      if negb (Quiz.is_active quiz)
      then handle (PostPlay quizId p ans) s = (fail 400 "Quiz is not active", s)
      else match ans with
           | None => handle (PostPlay quizId p ans) s = (internal_error, s)
           | Some l =>
               length l <> length (Quiz.questions quiz) ->
               handle (PostPlay quizId p ans) s =
                 (fail 400 "Number of answers must match questions", s)
           end
  end.
Proof.
  rewrite !handle_play. destruct ((quizzesStore s).[quizId]) as [quiz|]; [|done].
  destruct (Quiz.is_active quiz); [|done]. destruct ans as [l|]; [|done].
  intros Hl. simpl. by rewrite bool_decide_false.
Qed.
(** [C27] The play route's verdict decides the reward: after a
    successful play of a quiz, a reward request for the same participant
    and quiz id is paid exactly when the play reported [passed], or when
    ToNumber of the quiz's [passing_score] is [NaN] (absent, or a string
    that is no numeric literal), where the play always reports a failure:
    the gate [!(score < passing_score)] (line 202) is the negation of the
    verdict [score >= passing_score] (line 144) except on [NaN]. *)
Theorem play_verdict_decides_reward quiz ans sc tot passed eligible msg s1 amount :
  (quizzesStore s).[quizId] = Some quiz ->
  handle (PostPlay quizId p ans) s = (ok (BScore sc tot passed eligible msg), s1) ->
  (is_nan (to_number (Quiz.passing_score quiz)) = true -> passed = false) /\
  (handle (PostDistribute p (JStr quizId) amount) s1).1 =
    if passed || is_nan (to_number (Quiz.passing_score quiz))
    then ok (BReward "Reward distributed successfully" p amount)
    else fail 400 "Cannot distribute reward".
Proof.
  intros Hq. rewrite handle_play, Hq.
  destruct (Quiz.is_active quiz); [|done]. destruct ans as [l|]; [|done]. simpl.
  case_bool_decide; [|done]. case_bool_decide; [done|]. intros [= _ _ <- _ _ <-].
  split; [apply num_ge_js_nan|].
  rewrite handle_distribute. simpl. rewrite get_set_eq, Hq. simpl.
  rewrite num_lt_ge_js, Bool.orb_false_r. by destruct (_ || _).
Qed.
End Play.

(** ** Quiz creation *)

Section Create.
Context (s : server) (title description reward_pool passing_score admin : jsval).

(** [C12] Creation validates its input: a falsy title, a missing or
    empty question list, or a passing score above the number of
    questions is answered 400 and stores nothing, leaving
    [total_quizzes] unchanged. *)
Theorem create_quiz_rejects questions :
  (truthy title = false \/ questions = None \/ questions = Some [] \/
   exists qs, questions = Some qs /\
              js_gt_num passing_score (Z.of_nat (length qs)) = true) ->
  status (handle (PostQuiz title description questions reward_pool passing_score admin) s).1 = 400 /\
  (handle (PostQuiz title description questions reward_pool passing_score admin) s).2 = s.
Proof.
  intros Hbad. rewrite handle_create.
  destruct (truthy title) eqn:Ht; [|done]. simpl.
  destruct Hbad as [?|[->|[->|(qs & -> & Hgt)]]]; try done.
  by case_bool_decide; [|rewrite Hgt].
Qed.

(** [C13] A valid creation stores an active quiz with the submitted
    fields under the id [Date.now().toString()], counts it in
    [total_quizzes] and answers 201 with that id. *)
Theorem create_quiz_stores qs :
  truthy title = true -> qs <> [] ->
  js_gt_num passing_score (Z.of_nat (length qs)) = false ->
  let quizId := quiz_id_of (clock s) in
  handle (PostQuiz title description (Some qs) reward_pool passing_score admin) s =
    (Response 201 (BCreated quizId "Quiz created successfully"),
     Server ((quizzesStore s).[quizId := Quiz.mk quizId title description qs reward_pool
                                           passing_score admin true (clock s)])
            (participantsStore s) (Stats.add_quiz (statsStore s)) (clock s)).
Proof.
  intros Ht Hne Hgt. rewrite handle_create, Ht. simpl.
  rewrite bool_decide_false by (intros ?%nil_length_inv; done). by rewrite Hgt.
Qed.
(** [C30] The quiz id is the creation time in milliseconds
    ([Date.now().toString()], line 77), so two valid creations with no
    clock tick between them get the same id: both are answered 201 with
    that id, the second quiz replaces the first under it, the store holds
    no more quizzes than after the first creation, and [total_quizzes]
    counts both. *)
Theorem same_millisecond_overwrite qs1 r1 s1 title2 description2 qs2 reward_pool2
    passing_score2 admin2 :
  handle (PostQuiz title description (Some qs1) reward_pool passing_score admin) s = (r1, s1) ->
  status r1 = 201 ->
  truthy title2 = true -> qs2 <> [] ->
  js_gt_num passing_score2 (Z.of_nat (length qs2)) = false ->
  let quizId := quiz_id_of (clock s) in
  exists s2,
    r1 = Response 201 (BCreated quizId "Quiz created successfully") /\
    handle (PostQuiz title2 description2 (Some qs2) reward_pool2 passing_score2 admin2) s1 =
      (Response 201 (BCreated quizId "Quiz created successfully"), s2) /\
    (quizzesStore s2).[quizId] =
      Some (Quiz.mk quizId title2 description2 qs2 reward_pool2 passing_score2 admin2 true
                    (clock s)) /\
    length (JsObject.props (quizzesStore s2)) = length (JsObject.props (quizzesStore s1)) /\
    Stats.total_quizzes (statsStore s2) = Stats.total_quizzes (statsStore s) + 2.
Proof.
  rewrite handle_create. destruct (truthy title); [|by intros [= <- _]]. simpl.
  case_bool_decide; [by intros [= <- _]|]. destruct (js_gt_num _ _); [by intros [= <- _]|].
  intros [= <- <-] _ Ht Hne Hgt. rewrite handle_create, Ht. simpl.
  rewrite bool_decide_false by (intros ?%nil_length_inv; done). rewrite Hgt.
  eexists. do 2 (split; [reflexivity|]). cbn [quizzesStore statsStore].
  split; [apply get_set_eq|]. split; [eapply length_set_in, get_set_eq|].
  cbn [Stats.add_quiz Stats.total_quizzes]. lia.
Qed.
End Create.

(** ** Reward distribution *)

Section Reward.
Context (s : server) (p q : jsval).

Local Abbreviation key := (participant_key (js_to_string p) (js_to_string q)).

(** [C10] Reward gate: a reward is paid (200) only for a recorded attempt
    of an existing quiz that is not yet rewarded and whose score is not
    below the passing score; it then marks the attempt rewarded and adds
    the amount to [total_rewards_distributed] with JavaScript's [+]. *)
Theorem distribute_reward_gate amount r s' :
  handle (PostDistribute p q amount) s = (r, s') -> status r = 200 ->
  exists record quiz,
    (participantsStore s).[key] = Some record /\
    (quizzesStore s).[js_to_string q] = Some quiz /\
    Attempt.rewarded record = false /\
    num_lt_js (Attempt.score record) (Quiz.passing_score quiz) = false /\
    (participantsStore s').[key] = Some (Attempt.mark_rewarded record) /\
    Stats.total_rewards_distributed (statsStore s') =
      js_plus (Stats.total_rewards_distributed (statsStore s)) amount.
Proof.
  rewrite handle_distribute. simpl.
  destruct ((participantsStore s).[key]) as [record|]; [|by intros [= <- <-]].
  destruct ((quizzesStore s).[js_to_string q]) as [quiz|]; [|by intros [= <- <-]].
  destruct (num_lt_js _ _ || _) eqn:Hg; intros [= <- <-]; [done|].
  apply Bool.orb_false_iff in Hg as [Hlt Hrw]. intros _.
  exists record, quiz. simpl. rewrite get_set_eq. auto 10.
Qed.

(** [C11] One-time reward: after a successful distribution to a pair,
    any further distribution to the same pair is refused with 400 and
    changes nothing, so the distributed total grows by one amount only. *)
Theorem distribute_reward_once a1 a2 r1 s1 :
  handle (PostDistribute p q a1) s = (r1, s1) -> status r1 = 200 ->
  handle (PostDistribute p q a2) s1 = (fail 400 "Cannot distribute reward", s1).
Proof.
  rewrite handle_distribute. simpl.
  destruct ((participantsStore s).[key]) as [record|]; [|by intros [= <- <-]].
  destruct ((quizzesStore s).[js_to_string q]) as [quiz|] eqn:Hq; [|by intros [= <- <-]].
  destruct (num_lt_js _ _ || _); intros [= <- <-]; [done|]. intros _.
  rewrite handle_distribute. simpl. rewrite get_set_eq, Hq. simpl.
  by rewrite Bool.orb_true_r.
Qed.
End Reward.

(** ** Status toggle and the public view *)

Section Toggle.
Context (s : server) (quizId : string).

(** [C17] A toggle of a stored quiz flips its [is_active] flag: the
    route answers 200 with the id and the negated flag, stores the quiz
    with only that flag changed, leaves the other quizzes, the attempts,
    the statistics and the clock as they were, and a second toggle
    restores the server exactly. *)
Theorem toggle_status_flips quiz :
  (quizzesStore s).[quizId] = Some quiz ->
  exists s1,
    handle (PatchStatus quizId) s = (ok (BStatus quizId (negb (Quiz.is_active quiz))), s1) /\
    (quizzesStore s1).[quizId] =
      Some (Quiz.mk (Quiz.quiz_id quiz) (Quiz.title quiz) (Quiz.description quiz)
              (Quiz.questions quiz) (Quiz.reward_pool quiz) (Quiz.passing_score quiz)
              (Quiz.creator quiz) (negb (Quiz.is_active quiz)) (Quiz.created_at quiz)) /\
    (forall k, k <> quizId -> (quizzesStore s1).[k] = (quizzesStore s).[k]) /\
    participantsStore s1 = participantsStore s /\ statsStore s1 = statsStore s /\
    clock s1 = clock s /\
    (handle (PatchStatus quizId) s1).2 = s.
Proof.
  intros Hq. rewrite handle_toggle, Hq. eexists. split; [reflexivity|]. simpl.
  rewrite get_set_eq. split; [done|]. split; [intros k Hk; by apply get_set_ne|].
  do 3 (split; [done|]).
  rewrite handle_toggle. simpl. rewrite get_set_eq. simpl.
  rewrite set_set. unfold Quiz.toggle. simpl. rewrite Bool.negb_involutive.
  destruct quiz. simpl. rewrite set_get_id by done. by destruct s.
Qed.

(** [C18] The public view of a quiz hides every correct answer while the
    quiz is active and shows the stored ones once it is inactive; the
    question texts and options are kept. *)
Theorem get_quiz_redaction quiz :
  (quizzesStore s).[quizId] = Some quiz ->
  exists v,
    handle (GetQuiz quizId) s = (ok (BQuiz v), s) /\
    map Question.question_text (Quiz.questions v) =
      map Question.question_text (Quiz.questions quiz) /\
    map Question.correct_answer (Quiz.questions v) =
      if Quiz.is_active quiz
      then replicate (length (Quiz.questions quiz)) JUndefined
      else map Question.correct_answer (Quiz.questions quiz).
Proof.
  intros Hq. rewrite handle_get_quiz, Hq.
  eexists. split; [reflexivity|]. simpl. rewrite !map_map. split.
  - by apply map_ext.
  - destruct (Quiz.is_active quiz); simpl.
    + induction (Quiz.questions quiz) as [|x l IH]; simpl; [done|].
      by rewrite IH.
    + by apply map_ext.
Qed.
End Toggle.

(** ** Errors *)

(** [C15] A request that is not answered with a success status (200 or
    201) leaves the whole server state unchanged: every check of every
    route happens before its first mutation. *)
Theorem failed_request_no_change req s r s' :
  handle req s = (r, s') -> status r <> 200 -> status r <> 201 -> s' = s.
Proof.
  destruct req; run_route; repeat (case_match; simpl); intros;
    unfold mret, exec_ret in *; simplify_eq/=; done.
Qed.

(** ** Witnesses *)

Lemma play_at_most_once_witness :
  (participantsStore demo_server).[participant_key "alice" "1000"] = Some (demo_record false) /\
  (handle (PostPlay "1000" (JStr "alice") (Some [JNum 1; JNum 1])) demo_server).2 = demo_server /\
  status (handle (PostPlay "1000" (JStr "alice") (Some [JNum 1; JNum 1])) demo_server).1 <> 200.
Proof.
  split; [reflexivity|].
  apply (play_at_most_once demo_server "1000" (JStr "alice") _ (demo_record false)).
  reflexivity.
Defined.

Lemma play_records_attempt_witness :
  (participantsStore demo_server).[participant_key "bob" "1000"] = None /\
  (handle (PostPlay "1000" (JStr "bob") (Some [JNum 1; JNum 0])) demo_server).1 =
    ok (BScore 1 2 true true "Congratulations! You passed!").
Proof.
  split; [reflexivity|].
  rewrite (play_records_attempt demo_server "1000" (JStr "bob") [JNum 1; JNum 0]
             (demo_quiz true)); reflexivity.
Defined.

Lemma play_guard_order_witness :
  handle (PostPlay "1000" (JStr "bob") (Some [JNum 1])) demo_server =
    (fail 400 "Number of answers must match questions", demo_server).
Proof.
  apply (play_guard_order demo_server "1000" (JStr "bob") (Some [JNum 1])). simpl. lia.
Defined.

Lemma create_quiz_rejects_witness :
  status (handle (PostQuiz (JStr "T") JNull (Some [demo_question]) JNull (JNum 2) JNull)
                 demo_server).1 = 400.
Proof.
  apply (create_quiz_rejects demo_server (JStr "T") JNull JNull (JNum 2) JNull).
  right. right. right. exists [demo_question]. split; reflexivity.
Defined.

Lemma create_quiz_stores_witness :
  status (handle (PostQuiz (JStr "T") JNull (Some [demo_question]) JNull (JNum 1) JNull)
                 demo_server).1 = 201.
Proof.
  rewrite (create_quiz_stores demo_server (JStr "T") JNull JNull (JNum 1) JNull);
    [reflexivity|reflexivity|discriminate|reflexivity].
Defined.

Lemma distribute_reward_gate_witness :
  exists record quiz,
    (participantsStore demo_server).[participant_key "alice" "1000"] = Some record /\
    (quizzesStore demo_server).["1000"] = Some quiz /\
    Attempt.rewarded record = false /\
    num_lt_js (Attempt.score record) (Quiz.passing_score quiz) = false /\
    (participantsStore (handle (PostDistribute (JStr "alice") (JStr "1000") (JNum 5)) demo_server).2)
      .[participant_key "alice" "1000"] = Some (Attempt.mark_rewarded record) /\
    Stats.total_rewards_distributed
      (statsStore (handle (PostDistribute (JStr "alice") (JStr "1000") (JNum 5)) demo_server).2) =
      js_plus (Stats.total_rewards_distributed (statsStore demo_server)) (JNum 5).
Proof.
  apply (distribute_reward_gate demo_server (JStr "alice") (JStr "1000") (JNum 5)
           (handle (PostDistribute (JStr "alice") (JStr "1000") (JNum 5)) demo_server).1).
  - by rewrite <- surjective_pairing.
  - reflexivity.
Defined.

Lemma distribute_reward_once_witness :
  handle (PostDistribute (JStr "alice") (JStr "1000") (JNum 7))
         (handle (PostDistribute (JStr "alice") (JStr "1000") (JNum 5)) demo_server).2 =
    (fail 400 "Cannot distribute reward",
     (handle (PostDistribute (JStr "alice") (JStr "1000") (JNum 5)) demo_server).2).
Proof.
  apply (distribute_reward_once demo_server (JStr "alice") (JStr "1000") (JNum 5) (JNum 7)
           (handle (PostDistribute (JStr "alice") (JStr "1000") (JNum 5)) demo_server).1).
  - by rewrite <- surjective_pairing.
  - reflexivity.
Defined.

Lemma play_verdict_decides_reward_witness :
  (handle (PostDistribute (JStr "bob") (JStr "1000") (JNum 5))
          (handle (PostPlay "1000" (JStr "bob") (Some [JNum 0; JNum 0])) demo_server).2).1 =
    fail 400 "Cannot distribute reward".
Proof.
  destruct (play_verdict_decides_reward demo_server "1000" (JStr "bob") (demo_quiz true)
              (Some [JNum 0; JNum 0]) 0 2 false false (pass_message false)
              (handle (PostPlay "1000" (JStr "bob") (Some [JNum 0; JNum 0])) demo_server).2
              (JNum 5) eq_refl) as [_ H].
  - vm_compute. reflexivity.
  - rewrite H. reflexivity.
Defined.

Lemma same_millisecond_overwrite_witness :
  exists s2,
    handle (PostQuiz (JStr "B") (JStr "b") (Some [demo_question]) (JNum 5) (JNum 1) (JStr "admin"))
           (handle (PostQuiz (JStr "A") (JStr "a") (Some [demo_question]) (JNum 5) (JNum 1)
                             (JStr "admin")) (server_init 7)).2 =
      (Response 201 (BCreated "7" "Quiz created successfully"), s2) /\
    length (JsObject.props (quizzesStore s2)) = 1%nat.
Proof.
  edestruct (same_millisecond_overwrite (server_init 7) (JStr "A") (JStr "a") (JNum 5) (JNum 1)
               (JStr "admin") [demo_question]
               (handle (PostQuiz (JStr "A") (JStr "a") (Some [demo_question]) (JNum 5) (JNum 1)
                                 (JStr "admin")) (server_init 7)).1
               (handle (PostQuiz (JStr "A") (JStr "a") (Some [demo_question]) (JNum 5) (JNum 1)
                                 (JStr "admin")) (server_init 7)).2 (JStr "B") (JStr "b") [demo_question] (JNum 5)
               (JNum 1) (JStr "admin")) as (s2 & _ & H2 & _ & H3 & _);
    [rewrite <- surjective_pairing; reflexivity|reflexivity|reflexivity|done|reflexivity|].
  exists s2. split; [exact H2|]. rewrite H3. reflexivity.
Defined.

Lemma toggle_status_flips_witness :
  exists s1,
    handle (PatchStatus "1000") demo_server = (ok (BStatus "1000" false), s1) /\
    (handle (PatchStatus "1000") s1).2 = demo_server.
Proof.
  destruct (toggle_status_flips demo_server "1000" _ eq_refl) as (s1 & H1 & _ & _ & _ & _ & _ & H2).
  exists s1. split; [exact H1|exact H2].
Defined.

Lemma get_quiz_redaction_witness :
  exists v,
    handle (GetQuiz "1000") demo_server = (ok (BQuiz v), demo_server) /\
    map Question.question_text (Quiz.questions v) = [JStr "2+2?"; JStr "2+2?"] /\
    map Question.correct_answer (Quiz.questions v) = [JUndefined; JUndefined].
Proof.
  apply (get_quiz_redaction demo_server "1000" (demo_quiz true)). reflexivity.
Defined.

Lemma failed_request_no_change_witness :
  (handle (GetQuiz "999") demo_server).2 = demo_server.
Proof.
  apply (failed_request_no_change (GetQuiz "999") demo_server
           (handle (GetQuiz "999") demo_server).1).
  - by rewrite <- surjective_pairing.
  - discriminate.
  - discriminate.
Defined.
