(* ===== verification/Lifecycle.v ===== *)
(** * The attempt lifecycle and the invariants of the server

    The specification's core is the lifecycle of an attempt: a
    (participant, quiz) pair is not played, then played once (its record
    stored with the score), then rewarded once.  [phase_of] reads this
    phase off [participantsStore]; [advance] is the abstract lifecycle.
    Every request refines it: it leaves the phase of every key as it is or
    advances the phase of the one key it names.

    [server_step] runs the server as a process: any request of any client
    or the clock moving.  [server_inv] holds on every reachable state: the
    stores keep their property names distinct, [total_participants]
    counts the records, [total_quizzes] is at least the number of quizzes
    (more after a same-millisecond overwrite), each quiz is stored under
    its own id, a [Date.now().toString()], each record sits under the
    key of its own participant and quiz, names a stored quiz and has a
    score between 0 and [highest_score], which is 0 or the score of a
    record. *)

From S2P Require Import Prelude JsNumber JsObject Keys Model Scoring Server.
Import JsObjectFacts.
Local Open Scope Z_scope.

Inductive phase := NotPlayed | Played | Rewarded.

#[export] Instance phase_eq_dec : EqDecision phase.
Proof. solve_decision. Defined.

(** The phase of a participation key in a server state. *)
Definition phase_of (s : server) (key : string) : phase :=
  match (participantsStore s).[key] with
  | None => NotPlayed
  | Some r => if Attempt.rewarded r then Rewarded else Played
  end.

(** The abstract lifecycle: play once, then reward once. *)
Inductive advance : phase -> phase -> Prop :=
| advance_play : advance NotPlayed Played
| advance_reward : advance Played Rewarded.

(** The participation key a request names, as its handler builds it. *)
Definition request_key (req : request) : option string :=
  match req with
  | PostPlay quizId participant _ => Some (participant_key (js_to_string participant) quizId)
  | PostDistribute participant quizId _ =>
      Some (participant_key (js_to_string participant) (js_to_string quizId))
  | _ => None
  end.

(** [Date.now()] moving on between requests. *)
Definition tick (dt : N) (s : server) : server :=
  Server (quizzesStore s) (participantsStore s) (statsStore s) (clock s + dt).

Inductive server_step : server -> server -> Prop :=
| step_request req s : server_step s (handle req s).2
| step_tick dt s : (0 < dt)%N -> server_step s (tick dt s).

(** The states of a server started at some time. *)
Inductive server_reachable : server -> Prop :=
| sreach_init now : server_reachable (server_init now)
| sreach_step s s' : server_reachable s -> server_step s s' -> server_reachable s'.

(** The requests whose handlers write the stores. *)
Definition writes (req : request) : bool :=
  match req with
  | PostQuiz _ _ _ _ _ _ | PostPlay _ _ _ | PatchStatus _ | PostDistribute _ _ _ => true
  | _ => false
  end.

(** Each record sits under its own key, names a stored quiz and has a
    score between 0 and the highest score. *)
Definition records_ok (s : server) : Prop :=
  forall k r, (participantsStore s).[k] = Some r ->
    k = participant_key (js_to_string (Attempt.address r)) (Attempt.quiz_id r) /\
    is_Some ((quizzesStore s).[Attempt.quiz_id r]) /\
    0 <= Attempt.score r <= Stats.highest_score (statsStore s).

(** Each quiz is stored under its own id, a [Date.now().toString()]. *)
Definition quizzes_ok (s : server) : Prop :=
  forall k q, (quizzesStore s).[k] = Some q -> Quiz.quiz_id q = k /\ exists now, k = quiz_id_of now.

(** The highest score is 0 or the score of a record. *)
Definition highest_attained (s : server) : Prop :=
  Stats.highest_score (statsStore s) = 0 \/
  exists k r, (participantsStore s).[k] = Some r /\
              Attempt.score r = Stats.highest_score (statsStore s).

Record server_inv (s : server) : Prop := {
  inv_quizzes_wf : JsObject.wf (quizzesStore s);
  inv_records_wf : JsObject.wf (participantsStore s);
  inv_participants : Stats.total_participants (statsStore s) =
                     Z.of_nat (length (JsObject.props (participantsStore s)));
  inv_quizzes : Z.of_nat (length (JsObject.props (quizzesStore s))) <=
                Stats.total_quizzes (statsStore s);
  inv_records : records_ok s;
  inv_highest : highest_attained s;
  inv_quiz_ids : quizzes_ok s
}.

(** [total_rewards_distributed] is still a number: [+=] has only ever
    added numbers to it. *)
Definition total_numeric (s : server) : bool :=
  match Stats.total_rewards_distributed (statsStore s) with PNum (Some _) => true | _ => false end.

(** ** Lemmas *)

Lemma handle_read_only req s : writes req = false -> (handle req s).2 = s.
Proof.
  destruct req; intros; try done; run_route;
    match goal with |- context [match ?x with Some _ => _ | None => _ end] => by destruct x end.
Qed.

Lemma phase_of_same s s' k :
  participantsStore s' = participantsStore s -> phase_of s' k = phase_of s k.
Proof. unfold phase_of. by intros ->. Qed.

Lemma phase_of_set s s' k key r :
  participantsStore s' = (participantsStore s).[key := r] ->
  phase_of s' k = if decide (key = k) then (if Attempt.rewarded r then Rewarded else Played)
                  else phase_of s k.
Proof. unfold phase_of. intros ->. rewrite get_set. by case_decide. Qed.

(** A record is never removed: once played, a key stays played or
    rewarded. *)
Lemma phase_played_step s s' k :
  server_step s s' -> phase_of s k <> NotPlayed -> phase_of s' k <> NotPlayed.
Proof.
  destruct 1 as [req s|dt s _]; [|done].
  destruct (writes req) eqn:Hw; [|by rewrite handle_read_only].
  intros Hk. destruct req; try done.
  - erewrite phase_of_same; [exact Hk|]. rewrite handle_create. by repeat case_match.
  - rewrite handle_play. destruct ((quizzesStore s).[quizId]) as [quiz|]; [|done].
    destruct (Quiz.is_active quiz); [|done]. destruct answers as [l|]; [|done].
    case_bool_decide; [|done]. simpl. case_bool_decide; [done|]. simpl.
    erewrite phase_of_set by reflexivity. by case_decide.
  - erewrite phase_of_same; [exact Hk|]. rewrite handle_toggle. by repeat case_match.
  - rewrite handle_distribute. simpl.
    destruct ((participantsStore s).[_]) as [r|]; [|done].
    destruct ((quizzesStore s).[_]) as [quiz|]; [|done].
    destruct (_ || _); [done|]. simpl.
    erewrite phase_of_set by reflexivity. by case_decide.
Qed.

Lemma phase_played_steps s s' k :
  rtc server_step s s' -> phase_of s k <> NotPlayed -> phase_of s' k <> NotPlayed.
Proof. induction 1; eauto using phase_played_step. Qed.

(** [C5] Refinement of the attempt lifecycle: a request leaves the phase
    of every participation key as it is, except that it may advance the
    phase of the one key it names along the abstract lifecycle (a play
    takes a pair from not played to played, a reward from played to
    rewarded); no request removes a record, plays a pair twice or
    rewards it twice. *)
Theorem handle_refines_lifecycle req s k :
  let s' := (handle req s).2 in
  phase_of s' k = phase_of s k \/
  (request_key req = Some k /\ advance (phase_of s k) (phase_of s' k)).
Proof.
  intros s'. subst s'. destruct (writes req) eqn:Hw;
    [|left; by rewrite handle_read_only].
  destruct req; try done.
  - left. rewrite handle_create. apply phase_of_same. by repeat case_match.
  - rewrite handle_play. destruct ((quizzesStore s).[quizId]) as [quiz|]; [|by left].
    destruct (Quiz.is_active quiz); [|by left]. destruct answers as [l|]; [|by left].
    case_bool_decide; [|by left]. simpl.
    case_bool_decide as Hfresh; [by left|]. simpl.
    erewrite phase_of_set by reflexivity. case_decide as Hk; [|by left].
    right. subst k. split; [done|]. unfold phase_of.
    destruct ((participantsStore s).[_]); [by destruct Hfresh|]. constructor.
  - left. rewrite handle_toggle. apply phase_of_same. by repeat case_match.
  - rewrite handle_distribute. simpl.
    destruct ((participantsStore s).[_]) as [r|] eqn:Hr; [|by left].
    destruct ((quizzesStore s).[_]) as [quiz|]; [|by left].
    destruct (num_lt_js _ _ || Attempt.rewarded r) eqn:Hgate; [by left|]. simpl.
    erewrite phase_of_set by reflexivity. case_decide as Hk; [|by left].
    right. subst k. split; [done|]. unfold phase_of. rewrite Hr.
    apply Bool.orb_false_iff in Hgate as [_ ->]. constructor.
Qed.

Lemma record_score_highest sc st :
  Stats.highest_score (Stats.record_score sc st) = Z.max (Stats.highest_score st) sc.
Proof. unfold Stats.record_score. case_match; simpl; lia. Qed.

Lemma record_score_totals sc st :
  Stats.total_participants (Stats.record_score sc st) = Stats.total_participants st /\
  Stats.total_quizzes (Stats.record_score sc st) = Stats.total_quizzes st.
Proof. unfold Stats.record_score. by case_match. Qed.

Lemma inv_init now : server_inv (server_init now).
Proof.
  constructor; simpl; try constructor; try done.
Qed.

Lemma inv_create s t d qs rp ps a :
  server_inv s -> server_inv (handle (PostQuiz t d qs rp ps a) s).2.
Proof.
  intros [Hwq Hwr Hp Hq Hrec Hhi Hids]. rewrite handle_create.
  destruct (negb (truthy t)); [done|]. destruct qs as [qs|]; [|done].
  do 2 (case_match; [done|]). simpl.
  constructor; cbn [quizzesStore participantsStore statsStore];
    [by apply wf_set|done|done| | |done|].
  - destruct ((quizzesStore s).[quiz_id_of (clock s)]) eqn:Hid;
      [erewrite length_set_in by done|rewrite length_set_notin by done];
      unfold Stats.add_quiz; cbn [Stats.total_quizzes]; lia.
  - intros k r Hk. cbn [quizzesStore participantsStore statsStore] in *.
    destruct (Hrec k r Hk) as (Hkey & Hquiz & Hscore).
    split; [done|]. split; [|exact Hscore].
    rewrite get_set. by destruct (decide _).
  - intros k q Hk. cbn [quizzesStore] in Hk. rewrite get_set in Hk.
    destruct (decide _) as [<-|]; [injection Hk as <-; by eauto|by apply Hids].
Qed.

Lemma inv_toggle s quizId : server_inv s -> server_inv (handle (PatchStatus quizId) s).2.
Proof.
  intros [Hwq Hwr Hp Hq Hrec Hhi Hids]. rewrite handle_toggle.
  destruct ((quizzesStore s).[quizId]) as [quiz|] eqn:Hid; [|done]. unfold set_quizzes. simpl.
  constructor; cbn [quizzesStore participantsStore statsStore];
    [by apply wf_set|done|done| | |done|].
  - by erewrite length_set_in.
  - intros k r Hk. cbn [quizzesStore participantsStore statsStore] in *.
    destruct (Hrec k r Hk) as (Hkey & Hquiz & Hscore).
    split; [done|]. split; [|exact Hscore].
    rewrite get_set. by destruct (decide _).
  - intros k q' Hk. cbn [quizzesStore] in Hk. rewrite get_set in Hk.
    destruct (decide _) as [<-|]; [injection Hk as <-|by apply Hids].
    apply (Hids quizId quiz Hid).
Qed.

Lemma inv_play s quizId p ans :
  server_inv s -> server_inv (handle (PostPlay quizId p ans) s).2.
Proof.
  intros [Hwq Hwr Hp Hq Hrec Hhi Hids]. rewrite handle_play.
  destruct ((quizzesStore s).[quizId]) as [quiz|] eqn:Hquiz; [|done].
  destruct (Quiz.is_active quiz); [|done]. destruct ans as [l|]; [|done].
  case_bool_decide; [|done]. simpl. case_bool_decide as Hfresh; [done|]. simpl.
  set (key := participant_key (js_to_string p) quizId) in *.
  set (sc := Z.of_nat (count_correct l (Quiz.questions quiz))).
  assert (Hnone : (participantsStore s).[key] = None) by (destruct (_.[key]); naive_solver).
  pose proof (record_score_totals sc (Stats.add_participant (statsStore s))) as [Htp Htq].
  pose proof (record_score_highest sc (Stats.add_participant (statsStore s))) as Hh.
  cbn [Stats.highest_score Stats.add_participant] in Hh.
  constructor; cbn [quizzesStore participantsStore statsStore];
    [done|by apply wf_set| | | | |exact Hids].
  - rewrite Htp, length_set_notin by done. cbn. lia.
  - rewrite Htq. done.
  - intros k r Hk. cbn [quizzesStore participantsStore statsStore] in *. rewrite Hh.
    rewrite get_set in Hk. destruct (decide (key = k)) as [<-|Hne].
    + injection Hk as <-. simpl. split; [done|]. split; [by eexists|lia].
    + destruct (Hrec k r Hk) as (Hkey & Hq' & Hscore). do 2 (split; [done|]). lia.
  - unfold highest_attained. cbn [participantsStore statsStore]. rewrite Hh.
    destruct (Z.le_gt_cases sc (Stats.highest_score (statsStore s))) as [Hle|Hgt].
    + rewrite Z.max_l by done. destruct Hhi as [H0|(k & r & Hk & Hr)]; [by left|right].
      exists k, r. rewrite get_set_ne by congruence. done.
    + rewrite Z.max_r by lia. right. exists key. eexists. by rewrite get_set_eq.
Qed.

Lemma inv_distribute s p q amount :
  server_inv s -> server_inv (handle (PostDistribute p q amount) s).2.
Proof.
  intros [Hwq Hwr Hp Hq Hrec Hhi Hids]. rewrite handle_distribute. simpl.
  set (key := participant_key (js_to_string p) (js_to_string q)).
  destruct ((participantsStore s).[key]) as [r0|] eqn:Hr0; [|done].
  destruct ((quizzesStore s).[js_to_string q]) as [quiz|]; [|done].
  destruct (_ || _); [done|]. simpl.
  constructor; cbn [quizzesStore participantsStore statsStore];
    [done|by apply wf_set| |done| | |exact Hids].
  - by erewrite length_set_in.
  - intros k r Hk. cbn [quizzesStore participantsStore statsStore] in *.
    rewrite get_set in Hk. destruct (decide (key = k)) as [<-|Hne].
    + injection Hk as <-. apply (Hrec key r0 Hr0).
    + by apply Hrec.
  - unfold highest_attained. cbn [participantsStore statsStore].
    destruct Hhi as [H0|(k & r & Hk & Hr)]; [by left|right].
    destruct (decide (key = k)) as [<-|Hne].
    + exists key, (Attempt.mark_rewarded r0). rewrite get_set_eq. split; [done|].
      rewrite Hr0 in Hk. by injection Hk as <-.
    + exists k, r. by rewrite get_set_ne.
Qed.

Lemma inv_step s s' : server_step s s' -> server_inv s -> server_inv s'.
Proof.
  destruct 1 as [req s|dt s _]; intros Hinv.
  - destruct (writes req) eqn:Hw; [|by rewrite handle_read_only].
    destruct req; try done; auto using inv_create, inv_play, inv_toggle, inv_distribute.
  - destruct Hinv. by constructor.
Qed.

(** [C6] Invariant of the server: on every state a server started at
    any time reaches through any requests and clock ticks, the stores
    keep their property names distinct, [total_participants] is the
    number of records, [total_quizzes] is at least the number of stored
    quizzes, every quiz is stored under its own id (a
    [Date.now().toString()]), every record is stored under the key of its
    own participant and quiz, names a stored quiz and has a score between 0 and
    [highest_score], and [highest_score] is 0 or the score of a record. *)
Theorem server_reachable_inv s : server_reachable s -> server_inv s.
Proof. induction 1; [apply inv_init|by eapply inv_step]. Qed.

Lemma server_reachable_inv_witness :
  server_inv (handle (PostPlay "1000" (JStr "alice") (Some [JNum 1]))
                     (handle (PostQuiz (JStr "T") (JStr "d") (Some [demo_question]) (JNum 10)
                                       (JNum 1) (JStr "admin")) (server_init 1000)).2).2.
Proof.
  apply server_reachable_inv.
  eapply sreach_step; [|apply step_request].
  eapply sreach_step; [apply sreach_init|apply step_request].
Defined.

Lemma record_score_rewards sc st :
  Stats.total_rewards_distributed (Stats.record_score sc st) = Stats.total_rewards_distributed st.
Proof. unfold Stats.record_score. by case_match. Qed.

(** A request either leaves the reward total as it is or applies one
    [+= rewardAmount] to it. *)
Lemma total_step s s' : server_step s s' ->
  Stats.total_rewards_distributed (statsStore s') = Stats.total_rewards_distributed (statsStore s) \/
  exists a, Stats.total_rewards_distributed (statsStore s') =
            js_plus (Stats.total_rewards_distributed (statsStore s)) a.
Proof.
  destruct 1 as [req s|dt s _]; [|by left].
  destruct (writes req) eqn:Hw; [|left; by rewrite handle_read_only].
  destruct req; try done.
  - left. rewrite handle_create. by repeat case_match.
  - left. rewrite handle_play.
    destruct ((quizzesStore s).[quizId]) as [quiz|]; [|done]. destruct (Quiz.is_active quiz); [|done].
    destruct answers as [l|]; [|done]. case_bool_decide; [|done]. simpl.
    case_bool_decide; [done|]. simpl. by rewrite record_score_rewards.
  - left. rewrite handle_toggle. by repeat case_match.
  - rewrite handle_distribute. simpl. repeat case_match; simpl; eauto.
Qed.

(** [+] gives a number only from a number and a non-string operand. *)
Lemma js_plus_numeric a b n : js_plus a b = PNum (Some n) -> exists m, a = PNum (Some m).
Proof. destruct a as [[m|]|sa], b; simpl; try done; eauto. Qed.

Lemma total_numeric_back s s' :
  server_step s s' -> total_numeric s' = true -> total_numeric s = true.
Proof.
  unfold total_numeric. intros Hst.
  destruct (total_step s s' Hst) as [->|[a ->]]; [done|].
  destruct (js_plus _ a) as [[n|]|] eqn:Hp; try done. intros _.
  by destruct (js_plus_numeric _ _ _ Hp) as [m ->].
Qed.

(** [C29] The reward counter never recovers: once [total_rewards_distributed]
    is not a number (a string [rewardAmount] made it a string by
    concatenation, or a missing one made it [NaN]), it is not a number on
    any state the server reaches afterwards, whatever the requests and
    the clock do. *)
Theorem total_never_numeric_again s s' :
  rtc server_step s s' -> total_numeric s = false -> total_numeric s' = false.
Proof.
  induction 1 as [|s1 s2 s3 H12 _ IH]; [done|]. intros H1. apply IH.
  destruct (total_numeric s2) eqn:H2; [|done].
  by rewrite (total_numeric_back _ _ H12 H2) in H1.
Qed.

Lemma total_never_numeric_again_witness :
  total_numeric (handle (PostDistribute (JStr "alice") (JStr "1000") (JStr "5")) demo_server).2 = false /\
  total_numeric (handle (PostDistribute (JStr "alice") (JStr "1000") (JNum 10))
                        (handle (PostDistribute (JStr "alice") (JStr "1000") (JStr "5")) demo_server).2).2
    = false.
Proof.
  split; [vm_compute; reflexivity|].
  apply (total_never_numeric_again
           (handle (PostDistribute (JStr "alice") (JStr "1000") (JStr "5")) demo_server).2).
  - apply rtc_once, step_request.
  - vm_compute. reflexivity.
Defined.
