(* ===== verification/Listing.v ===== *)
(** * The order in which the server lists its quizzes

    [GET /api/quizzes] answers [Object.values(quizzesStore)]: array-index
    keys first in ascending order, then the others in creation order
    ([JsObject.ordered_props]).  The keys are [Date.now().toString()],
    array indices only for clock values below [2^32 - 1].  On every
    reachable server the keys, in creation order, are the renderings of
    strictly increasing clock values, so both rules give the same order:
    the list is sorted by id, oldest first, whatever the clock was when the
    server started.  The dashboard's "Recent Quizzes", the first ten of the
    list, are therefore the ten oldest. *)

From Stdlib Require Import Sorting.Sorted.
From S2P Require Import Prelude JsNumber JsObject Keys Model Scoring Server Lifecycle.
Import JsObjectFacts.

(** The ids of the quizzes in the order [GET /api/quizzes] lists them. *)
Definition listed_ids (s : server) : list string :=
  map Quiz.quiz_id (JsObject.values (quizzesStore s)).

(** The keys of the store are the ids of strictly increasing clock
    values, none after the clock, and each quiz is stored under its own
    id. *)
Definition listing_inv (s : server) : Prop :=
  exists ns, StronglySorted N.lt ns /\
    (JsObject.props (quizzesStore s)).*1 = map quiz_id_of ns /\
    Forall (fun n => (n <= clock s)%N) ns /\
    Forall (fun kq => Quiz.quiz_id kq.2 = kq.1) (JsObject.props (quizzesStore s)).

(** ** Lemmas *)

Lemma array_index_quiz_id n :
  array_index (quiz_id_of n) = if (n <? 4294967295)%N then Some n else None.
Proof.
  unfold array_index, quiz_id_of. rewrite dec_parse_string, bool_decide_true by done.
  done.
Qed.

(** On keys of increasing clock values, the language's property order is
    the creation order. *)
Lemma split_keys_sorted {V} (l : list (string * V)) ns :
  l.*1 = map quiz_id_of ns -> StronglySorted N.lt ns ->
  map snd (JsObject.split_keys l).1 ++ (JsObject.split_keys l).2 = l /\
  Forall (fun x => x.1 ∈ ns /\ (x.1 < 4294967295)%N) (JsObject.split_keys l).1.
Proof.
  revert ns. induction l as [|[k v] l IH]; intros ns Hk Hs; simpl; [done|].
  destruct ns as [|n ns]; [done|]. simpl in Hk. injection Hk as -> Hk.
  apply StronglySorted_inv in Hs as [Hs Hlt].
  destruct (IH ns Hk Hs) as [Hl Hidx].
  destruct (JsObject.split_keys l) as [idx strs]. simpl in *.
  rewrite array_index_quiz_id. destruct (n <? 4294967295)%N eqn:Hn.
  - assert (Hins : JsObject.insert_index n (quiz_id_of n, v) idx = (n, (quiz_id_of n, v)) :: idx).
    { destruct idx as [|[m q] idx]; [done|]. simpl.
      apply Forall_cons in Hidx as [[Hm _] _].
      rewrite Forall_forall in Hlt. apply Hlt in Hm. by rewrite (proj2 (N.ltb_lt n m)). }
    rewrite Hins. simpl. split; [by rewrite Hl|]. constructor; [|eapply Forall_impl; [done|set_solver]].
    split; [set_solver|]. by apply N.ltb_lt.
  - destruct idx as [|[m q] idx]; simpl.
    + split; [by rewrite <- Hl|done].
    + exfalso. apply Forall_cons in Hidx as [[Hm Hm'] _]. simpl in *.
      rewrite Forall_forall in Hlt. apply Hlt in Hm. apply N.ltb_ge in Hn. lia.
Qed.

Lemma ordered_props_sorted {V} (o : JsObject.obj V) ns :
  (JsObject.props o).*1 = map quiz_id_of ns -> StronglySorted N.lt ns ->
  JsObject.ordered_props o = JsObject.props o.
Proof.
  intros Hk Hs. unfold JsObject.ordered_props.
  destruct (split_keys_sorted _ _ Hk Hs) as [Hl _].
  destruct (JsObject.split_keys _). exact Hl.
Qed.

Lemma StronglySorted_snoc {A} (R : A -> A -> Prop) l x :
  StronglySorted R l -> Forall (fun y => R y x) l -> StronglySorted R (l ++ [x]).
Proof.
  induction l as [|y l IH]; simpl; intros Hs Hx.
  - repeat constructor.
  - apply StronglySorted_inv in Hs as [Hs Hy]. apply Forall_cons in Hx as [Hyx Hx].
    constructor; [by apply IH|]. apply Forall_app. split; [done|]. by constructor.
Qed.

Lemma Forall_assoc_set {V} (P : string * V -> Prop) l k v :
  Forall P l -> P (k, v) -> Forall P (JsObject.assoc_set l k v).
Proof.
  induction l as [|[k' v'] l IH]; simpl; intros Hl Hkv; [by constructor|].
  apply Forall_cons in Hl as [Hk' Hl]. case_bool_decide; subst; by constructor; auto.
Qed.

Lemma assoc_elem {V} (l : list (string * V)) k v :
  JsObject.assoc l k = Some v -> (k, v) ∈ l.
Proof.
  induction l as [|[k' v'] l IH]; simpl; [done|].
  case_bool_decide; [intros [= <-]; subst; by left|]. intros. right. by apply IH.
Qed.

Lemma map_values_keys {V} (f : V -> string) (l : list (string * V)) :
  Forall (fun kq => f kq.2 = kq.1) l -> map f (map snd l) = l.*1.
Proof. induction 1 as [|[k v] l Hk _ IH] using Forall_ind; simpl in *; [done|]. by rewrite Hk, IH. Qed.

Lemma listing_init now : listing_inv (server_init now).
Proof. exists []. repeat constructor. Qed.

Lemma listing_create s t d qs rp ps a :
  listing_inv s -> listing_inv (handle (PostQuiz t d qs rp ps a) s).2.
Proof.
  intros (ns & Hs & Hk & Hle & Hid). rewrite handle_create.
  destruct (negb (truthy t)); [by exists ns|]. destruct qs as [qs|]; [|by exists ns].
  do 2 (case_match; [by exists ns|]). cbn [snd quizzesStore clock].
  set (key := quiz_id_of (clock s)).
  assert (Hnew : Forall (fun kq => Quiz.quiz_id kq.2 = kq.1)
                   (JsObject.props (quizzesStore s).[key := Quiz.mk key t d qs rp ps a true (clock s)])).
  { by apply Forall_assoc_set. }
  destruct (decide (key ∈ (JsObject.props (quizzesStore s)).*1)) as [Hin|Hin].
  - exists ns. unfold JsObject.set. simpl. rewrite JsObjectFacts.assoc_set_keys_in by done.
    done.
  - exists (ns ++ [clock s]). unfold JsObject.set in *. simpl in *.
    rewrite JsObjectFacts.assoc_set_keys_notin by done. rewrite Hk, map_app.
    assert (Hnot : clock s ∉ ns).
    { intros Hc. apply Hin. rewrite Hk. by apply list_elem_of_fmap_2. }
    split; [|split; [done|split; [|done]]].
    + apply StronglySorted_snoc; [done|]. apply Forall_forall. intros n Hn.
      rewrite Forall_forall in Hle. pose proof (Hle n Hn) as Hn'. simpl in Hn'.
      apply N.le_lteq in Hn' as [Hlt'|Heq]; [done|]. rewrite Heq in Hn. by destruct Hnot.
    + apply Forall_app. split; [done|]. by constructor.
Qed.

Lemma listing_toggle s quizId : listing_inv s -> listing_inv (handle (PatchStatus quizId) s).2.
Proof.
  intros (ns & Hs & Hk & Hle & Hid). rewrite handle_toggle.
  destruct ((quizzesStore s).[quizId]) as [quiz|] eqn:Hq; [|by exists ns].
  exists ns. unfold set_quizzes, JsObject.set. simpl.
  assert (Hin : (quizId, quiz) ∈ JsObject.props (quizzesStore s)) by by apply assoc_elem.
  rewrite JsObjectFacts.assoc_set_keys_in by (by apply (list_elem_of_fmap_2 fst) in Hin).
  do 3 (split; [done|]). apply Forall_assoc_set; [done|].
  rewrite Forall_forall in Hid. apply (Hid _ Hin).
Qed.

(** Plays and rewards leave the quiz store and the clock as they are. *)
Lemma play_distribute_quizzes req s :
  match req with PostPlay _ _ _ | PostDistribute _ _ _ => True | _ => False end ->
  quizzesStore (handle req s).2 = quizzesStore s /\ clock (handle req s).2 = clock s.
Proof.
  destruct req; intros []; [rewrite handle_play|rewrite handle_distribute; simpl].
  - destruct ((quizzesStore s).[quizId]) as [quiz|]; [|done].
    destruct (Quiz.is_active quiz); [|done]. destruct answers as [l|]; [|done].
    case_bool_decide; [|done]. simpl. by case_bool_decide.
  - destruct ((participantsStore s).[_]); [|done]. destruct ((quizzesStore s).[_]); [|done].
    by destruct (_ || _).
Qed.

Lemma listing_step s s' : server_step s s' -> listing_inv s -> listing_inv s'.
Proof.
  destruct 1 as [req s|dt s _]; intros Hinv.
  - destruct (writes req) eqn:Hw; [|by rewrite handle_read_only].
    destruct req; try done; [by apply listing_create| |by apply listing_toggle|].
    + unfold listing_inv. destruct (play_distribute_quizzes (PostPlay quizId participant answers) s I) as [-> ->].
      exact Hinv.
    + unfold listing_inv. destruct (play_distribute_quizzes (PostDistribute participant quizId rewardAmount) s I)
        as [-> ->].
      exact Hinv.
  - destruct Hinv as (ns & Hs & Hk & Hle & Hid). exists ns. do 2 (split; [done|]).
    split; [|done]. eapply Forall_impl; [exact Hle|]. simpl. lia.
Qed.

Lemma listing_reachable s : server_reachable s -> listing_inv s.
Proof. induction 1; [apply listing_init|by eapply listing_step]. Qed.

(** [C9] Listing order: on every reachable server, [GET /api/quizzes]
    lists the quizzes by increasing id, that is in the order of the clock
    values they were created at (oldest first), whether the ids are array
    indices (a clock below [2^32 - 1]) or not. *)
Theorem listed_ids_sorted s :
  server_reachable s -> exists ns, StronglySorted N.lt ns /\ listed_ids s = map quiz_id_of ns.
Proof.
  intros (ns & Hs & Hk & _ & Hid)%listing_reachable. exists ns. split; [done|].
  unfold listed_ids, JsObject.values. rewrite (ordered_props_sorted _ ns) by done.
  by rewrite map_values_keys.
Qed.

Lemma listed_ids_sorted_witness :
  exists ns, StronglySorted N.lt ns /\
    listed_ids (handle (PostQuiz (JStr "B") (JStr "d") (Some [demo_question]) (JNum 1) (JNum 1) (JStr "a"))
                       (tick 5 (handle (PostQuiz (JStr "A") (JStr "d") (Some [demo_question])
                                                 (JNum 1) (JNum 1) (JStr "a"))
                                       (server_init 4294967290)).2)).2 = map quiz_id_of ns.
Proof.
  apply listed_ids_sorted.
  eapply sreach_step; [|apply step_request].
  eapply sreach_step; [|apply step_tick; lia].
  eapply sreach_step; [apply sreach_init|apply step_request].
Defined.
