(* ===== verification/Scenarios.v ===== *)
(** * Concrete runs of the server

    Request sequences run through [handle] from a fresh server: the
    scenarios of the specification, and the runs that show where the code
    departs from it (a reward paid to an attempt that did not pass, a negative passing
    score or reward amount accepted, a lookup key shared by two pairs, a
    reward total turned into a string or [NaN] by [+=]).  The quiz lost to
    a second creation in the same millisecond is shown for every server in
    [Server.same_millisecond_overwrite]. *)

From S2P Require Import Prelude JsNumber JsObject Keys Model Scoring Server.

Local Open Scope Z_scope.

(** Runs requests in order, returning the responses and the final state. *)
Fixpoint run (reqs : list request) (s : server) : list response * server :=
  match reqs with
  | [] => ([], s)
  | req :: reqs' =>
      let '(r, s1) := handle req s in
      let '(rs, s2) := run reqs' s1 in
      (r :: rs, s2)
  end.

Definition q_a : Question.t := Question.mk (JStr "2+2?") JNull (JNum 1).
Definition q_b : Question.t := Question.mk (JStr "3+3?") JNull (JNum 2).

Definition create_two (passing : jsval) : request :=
  PostQuiz (JStr "Arithmetic") (JStr "sums") (Some [q_a; q_b]) (JNum 100) passing
           (JStr "admin").

(** The id of a quiz created at clock [1000]. *)
Definition id1000 : string := quiz_id_of 1000.

(** The specification's first scenario: a two-question quiz with
    passing score 1, one right answer: score 1, passed and eligible; a
    second play of the same participant is refused; a reward of 50 is paid
    once and [total_rewards_distributed] becomes 50; a second reward is
    refused. *)
Theorem scenario_play_and_reward :
  run [create_two (JNum 1);
       PostPlay id1000 (JStr "alice") (Some [JNum 1; JNum 0]);
       PostPlay id1000 (JStr "alice") (Some [JNum 1; JNum 2]);
       PostDistribute (JStr "alice") (JStr id1000) (JNum 50);
       PostDistribute (JStr "alice") (JStr id1000) (JNum 50)] (server_init 1000)
  = ([Response 201 (BCreated id1000 "Quiz created successfully");
      ok (BScore 1 2 true true "Congratulations! You passed!");
      fail 400 "You have already played this quiz";
      ok (BReward "Reward distributed successfully" (JStr "alice") (JNum 50));
      fail 400 "Cannot distribute reward"],
     Server (JsObject.Obj [(id1000, Quiz.mk id1000 (JStr "Arithmetic") (JStr "sums")
                                        [q_a; q_b] (JNum 100) (JNum 1) (JStr "admin") true 1000)])
            (JsObject.Obj [(participant_key "alice" id1000,
                            Attempt.mk (JStr "alice") 1 id1000 1000 true [JNum 1; JNum 0])])
            (Stats.mk 1 (PNum (Some 50)) 1 1) 1000).
Proof. vm_compute. reflexivity. Qed.

(** The specification's second and third scenarios: a passing score
    of 3 for two questions is refused and nothing is stored; the record of a
    pair that never played is the zero record, answered 200. *)
Theorem scenario_rejections :
  run [create_two (JNum 3); GetParticipant "bob" id1000; GetStats] (server_init 1000)
  = ([fail 400 "Passing score exceeds question count";
      ok (BRecord (Attempt.mk (JStr "bob") 0 id1000 0 false []));
      ok (BStats Stats.init)],
     server_init 1000).
Proof. vm_compute. reflexivity. Qed.

(** A quiz created without [passing_score]: [score >= undefined] is
    false, so the play answers "did not pass", yet [record.score <
    undefined] is false too, so the reward gate lets the reward through. *)
Theorem reward_without_passing :
  let '(rs, s) := run [PostQuiz (JStr "T") (JStr "d") (Some [q_a]) (JNum 10) JUndefined (JStr "admin");
                       PostPlay id1000 (JStr "eve") (Some [JNum 7]);
                       PostDistribute (JStr "eve") (JStr id1000) (JNum 10)] (server_init 1000) in
  rs = [Response 201 (BCreated id1000 "Quiz created successfully");
        ok (BScore 0 1 false false "You did not pass this quiz");
        ok (BReward "Reward distributed successfully" (JStr "eve") (JNum 10))] /\
  Stats.total_rewards_distributed (statsStore s) = PNum (Some 10).
Proof. vm_compute. split; reflexivity. Qed.

(** Creation checks only the upper bound of the passing score: a
    negative passing score is accepted (every attempt then passes), and a
    negative reward amount is accepted and lowers
    [total_rewards_distributed]. *)
Theorem negative_values_accepted :
  let '(rs, s) := run [create_two (JNum (-1));
                       PostPlay id1000 (JStr "zed") (Some [JNum 0; JNum 0]);
                       PostDistribute (JStr "zed") (JStr id1000) (JNum (-30))] (server_init 1000) in
  map status rs = [201; 200; 200] /\
  Stats.total_rewards_distributed (statsStore s) = PNum (Some (-30)).
Proof. vm_compute. split; reflexivity. Qed.

(** The lookup route builds its key from any two strings: a quiz id
    with a dash makes the pair ("ann", "1-1000") read the record of the pair
    ("ann-1", "1000"), quiz id and all. *)
Theorem participant_key_collision :
  let s := (run [PostQuiz (JStr "T") (JStr "d") (Some [q_a]) (JNum 10) (JNum 1) (JStr "admin");
                 PostPlay "1000" (JStr "ann-1") (Some [JNum 1])] (server_init 1000)).2 in
  (handle (GetParticipant "ann" "1-1000") s).1 =
    ok (BRecord (Attempt.mk (JStr "ann-1") 1 "1000" 1000 false [JNum 1])).
Proof. vm_compute. reflexivity. Qed.

(** A reward amount sent as a string turns [total_rewards_distributed]
    into a string: [0 + "5"] is ["05"], and a later numeric reward of 10
    appends ["10"]; [GET /api/stats] then reports ["0510"]. *)
Theorem string_reward_concatenates :
  let '(rs, s) := run [create_two (JNum 1);
                       PostPlay id1000 (JStr "amy") (Some [JNum 1; JNum 0]);
                       PostDistribute (JStr "amy") (JStr id1000) (JStr "5");
                       PostPlay id1000 (JStr "ben") (Some [JNum 1; JNum 0]);
                       PostDistribute (JStr "ben") (JStr id1000) (JNum 10)] (server_init 1000) in
  map status rs = [201; 200; 200; 200; 200] /\
  Stats.total_rewards_distributed (statsStore s) = PStr "0510".
Proof. vm_compute. split; reflexivity. Qed.

(** A reward request without [rewardAmount] makes the total [NaN]. *)
Theorem missing_reward_amount_nan :
  Stats.total_rewards_distributed
    (statsStore (run [create_two (JNum 1);
                      PostPlay id1000 (JStr "amy") (Some [JNum 1; JNum 0]);
                      PostDistribute (JStr "amy") (JStr id1000) JUndefined] (server_init 1000)).2)
  = PNum None.
Proof. vm_compute. reflexivity. Qed.
