(* ===== verification/Client.v ===== *)
(** * The fetch wrapper of the frontend ([src/frontend/js/api.js])

    [quizAPI] turns each call of the components into an HTTP request: a
    method, the URL [/api] followed by an endpoint built from the call's
    arguments, and a JSON body.  Express matches the URL's path against
    the route table of [server.js] ([express_route]) and runs the route
    ([Server.handle]); a path no route matches is answered 404.
    [apiCall] turns the response into [{ data, ok: true }] for a 2xx
    status and into [{ ok: false, response: { data: { error } } }] with
    the message [HTTP error! status: N] otherwise.

    The routing model splits the raw path at [/]; percent-decoding of
    parameters, the query and fragment split and dot segments are left
    out, and the round trip is stated for the ids on which they change
    nothing ([url_safe]: letters, digits, [-] and [_]).  The theorems show
    that Express routes every request [quizAPI] builds with such ids to
    the route the call means (a round trip),
    and what the caller sees of a response: the data of a success, and of
    an error only its status, never the server's message. *)

From S2P Require Import Prelude JsNumber JsObject Keys Model Server.
From Stdlib Require Import Ascii.

#[local] Arguments String.append : simpl nomatch.

Inductive http_method := GET | POST | PATCH.

(** The JSON bodies [quizAPI] sends ([JSON.stringify] of its argument). *)
Inductive json_body :=
| NoBody
| CreateBody (title description : jsval) (questions : list Question.t)
             (reward_pool passing_score adminAddress : jsval)
| PlayBody (participant : jsval) (answers : list jsval)
| DistributeBody (participant quizId rewardAmount : jsval).

Record fetch_request := Fetch { url : string; method : http_method; fetch_body : json_body }.

(** [const API_BASE_URL = '/api'] *)
Definition API_BASE_URL : string := "/api".

(** ** Express's side: from a URL to a route *)

(** The path split at each ['/']. *)
Fixpoint split_path_go (s : string) (seg : string) : list string :=
  match s with
  | EmptyString => [seg]
  | String c s' =>
      if Ascii.eqb c "/"%char then seg :: split_path_go s' ""
      else split_path_go s' (seg ++ String c EmptyString)
  end.

Definition split_path (s : string) : list string := split_path_go s "".

(** Non-strict routing: one trailing slash is ignored. *)
Definition path_segments (url : string) : list string :=
  match split_path url with
  | "" :: segs =>
      match last segs with
      | Some "" => removelast segs
      | _ => segs
      end
  | segs => segs
  end.

(** The body fields a route destructures from [req.body]; a field the
    body does not have is [undefined]. *)
Definition field_participant (b : json_body) : jsval :=
  match b with
  | PlayBody p _ | DistributeBody p _ _ => p
  | _ => JUndefined
  end.

Definition field_answers (b : json_body) : option (list jsval) :=
  match b with PlayBody _ a => Some a | _ => None end.

Definition field_quizId (b : json_body) : jsval :=
  match b with DistributeBody _ q _ => q | _ => JUndefined end.

Definition field_rewardAmount (b : json_body) : jsval :=
  match b with DistributeBody _ _ a => a | _ => JUndefined end.

(** A parameter [:name] matches one non-empty segment.  The segment is
    taken as it stands: Express's [decodeURIComponent] of a parameter is
    not modelled, nor are the query ([?]) and fragment ([#]) split and
    the dot segments ([.], [..]) the URL parser of [fetch] removes; they
    are the identity on the [url_safe] strings of the round-trip theorem. *)
Definition param (seg : string) : option string :=
  if bool_decide (seg = "") then None else Some seg.

(** The route table of [server.js]: which route serves a method and a
    path, with its parameters and body fields; the body of another call
    reaches a route with the fields it does not have [undefined]. *)
Definition express_route (fr : fetch_request) : option request :=
  match method fr, path_segments (url fr) with
  | GET, ["api"; "health"] => Some GetHealth
  | GET, ["api"; "quizzes"] => Some GetQuizzes
  | GET, ["api"; "quizzes"; id] => GetQuiz <$> param id
  | POST, ["api"; "quizzes"] =>
      match fetch_body fr with
      | CreateBody t d qs rp ps a => Some (PostQuiz t d (Some qs) rp ps a)
      | _ => Some (PostQuiz JUndefined JUndefined None JUndefined JUndefined JUndefined)
      end
  | POST, ["api"; "quizzes"; id; "play"] =>
      (fun id => PostPlay id (field_participant (fetch_body fr)) (field_answers (fetch_body fr))) <$> param id
  | GET, ["api"; "participants"; a; "quiz"; id] =>
      a' ← param a; id' ← param id; Some (GetParticipant a' id')
  | GET, ["api"; "stats"] => Some GetStats
  | PATCH, ["api"; "quizzes"; id; "status"] => PatchStatus <$> param id
  | POST, ["api"; "rewards"; "distribute"] =>
      Some (PostDistribute (field_participant (fetch_body fr)) (field_quizId (fetch_body fr))
                           (field_rewardAmount (fetch_body fr)))
  | _, _ => None
  end.

(** The server as the browser reaches it. *)
Definition express (fr : fetch_request) (s : server) : response * server :=
  match express_route fr with
  | Some req => handle req s
  | None => (Response 404 BNoRoute, s)
  end.

(** ** The client's side *)

(** What [apiCall] resolves to. *)
Inductive api_result :=
| ApiOk (data : body)                (** [{ data, ok: true }] *)
| ApiErr (message : string)          (** [{ error, ok: false, response: { data: { error: error.message } } }] *).

(** [response.ok]: a status in 200-299. *)
Definition response_ok (code : Z) : bool := (200 <=? code)%Z && (code <? 300)%Z.

(** [apiCall(endpoint, options)], lines 4-27. *)
Definition apiCall (endpoint : string) (m : http_method) (b : json_body) (s : server)
  : api_result * server :=
  let url := (API_BASE_URL ++ endpoint)%string in
  let '(response, s') := express (Fetch url m b) s in
  if response_ok (status response) then (ApiOk (payload response), s')
  else (ApiErr ("HTTP error! status: " ++ z_string (status response))%string, s').

(** [quizAPI], lines 30-63: the endpoint, method and body of each call. *)
Module quizAPI.
Definition getQuizzes : fetch_request :=
  Fetch "/quizzes" GET NoBody.
Definition getQuiz (quizId : string) : fetch_request :=
  Fetch ("/quizzes/" ++ quizId) GET NoBody.
Definition createQuiz (title description : jsval) (questions : list Question.t)
           (reward_pool passing_score adminAddress : jsval) : fetch_request :=
  Fetch "/quizzes" POST
        (CreateBody title description questions reward_pool passing_score adminAddress).
Definition playQuiz (quizId participant : string) (answers : list jsval) : fetch_request :=
  Fetch ("/quizzes/" ++ quizId ++ "/play") POST (PlayBody (JStr participant) answers).
Definition getParticipantScore (address quizId : string) : fetch_request :=
  Fetch ("/participants/" ++ address ++ "/quiz/" ++ quizId) GET NoBody.
Definition getStats : fetch_request :=
  Fetch "/stats" GET NoBody.
Definition toggleQuizStatus (quizId : string) : fetch_request :=
  Fetch ("/quizzes/" ++ quizId ++ "/status") PATCH NoBody.
Definition distributeReward (participant quizId : string) (rewardAmount : jsval) : fetch_request :=
  Fetch "/rewards/distribute" POST
        (DistributeBody (JStr participant) (JStr quizId) rewardAmount).
End quizAPI.

(** Performs a [quizAPI] call: [apiCall] on its endpoint. *)
Definition call (c : fetch_request) (s : server) : api_result * server :=
  apiCall (url c) (method c) (fetch_body c) s.

Fixpoint has_slash (s : string) : bool :=
  match s with
  | EmptyString => false
  | String c s' => Ascii.eqb c "/"%char || has_slash s'
  end.

(** The characters a path parameter carries unchanged from the
    template string [`${API_BASE_URL}/quizzes/${quizId}`] to
    [req.params]: ASCII letters, digits, [-] and [_] (RFC 3986's
    unreserved characters without [.] and [~]).  A string of them has no
    [/], [?], [#] or [%], and no dot segment. *)
Definition url_safe_char (c : ascii) : bool :=
  let n := N_of_ascii c in
  ((48 <=? n) && (n <=? 57) || (65 <=? n) && (n <=? 90) || (97 <=? n) && (n <=? 122) ||
   (n =? 45) || (n =? 95))%N.

Definition url_safe (s : string) : bool := all_chars url_safe_char s.

(** ** Lemmas *)

Lemma url_safe_no_slash s : url_safe s = true -> has_slash s = false.
Proof.
  induction s as [|c s IH]; [done|]. simpl. intros [Hc Hs]%andb_prop.
  rewrite IH by done. destruct (Ascii.eqb_spec c "/"%char) as [->|]; [done|done].
Qed.

Lemma quiz_id_url_safe now : url_safe (quiz_id_of now) = true.
Proof. unfold quiz_id_of, dec_string. induction (N.to_uint now); simpl; auto. Qed.

Lemma split_path_go_noslash s seg :
  has_slash s = false -> split_path_go s seg = [(seg ++ s)%string].
Proof.
  revert seg. induction s as [|c s IH]; intros seg; simpl.
  - by rewrite string_app_nil_r.
  - intros [Hc Hs]%Bool.orb_false_iff. rewrite Hc, IH by done.
    by rewrite <- string_app_assoc.
Qed.

Lemma split_path_go_app s1 s2 seg :
  has_slash s1 = false ->
  split_path_go (s1 ++ String "/"%char s2) seg = (seg ++ s1)%string :: split_path_go s2 "".
Proof.
  revert seg. induction s1 as [|c s1 IH]; intros seg; simpl.
  - by rewrite string_app_nil_r.
  - intros [Hc Hs]%Bool.orb_false_iff. rewrite Hc, IH by done.
    by rewrite <- string_app_assoc.
Qed.

Lemma quiz_id_no_slash now : has_slash (quiz_id_of now) = false.
Proof. unfold quiz_id_of, dec_string. induction (N.to_uint now); simpl; auto. Qed.

Lemma quiz_id_nonempty now : quiz_id_of now <> ""%string.
Proof. apply dec_string_nonempty. Qed.

Ltac decode_route :=
  intros; unfold express_route, path_segments, split_path, param; simpl;
  repeat first
    [ rewrite split_path_go_app by done
    | rewrite split_path_go_noslash by done
    | progress simpl ];
  repeat match goal with
         | |- context [bool_decide (?x = ""%string)] => rewrite (bool_decide_false (x = ""%string)) by done
         | H : ?x <> ""%string |- context [match ?x with _ => _ end] =>
             destruct x; [done|]; simpl
         end;
  reflexivity.

(** The request of a [quizAPI] call as Express sees it. *)
Definition routed (c : fetch_request) : option request :=
  express_route (Fetch (API_BASE_URL ++ url c) (method c) (fetch_body c)).

Section Routes.
Context (quizId address participant : string) (answers : list jsval).
Hypotheses (Hq : has_slash quizId = false) (Hq0 : quizId <> ""%string).

Lemma route_getQuizzes : routed quizAPI.getQuizzes = Some GetQuizzes.
Proof. reflexivity. Qed.

Lemma route_getQuiz : routed (quizAPI.getQuiz quizId) = Some (GetQuiz quizId).
Proof. unfold routed. decode_route. Qed.

Lemma route_createQuiz title description questions reward_pool passing_score admin :
  routed (quizAPI.createQuiz title description questions reward_pool passing_score admin) =
  Some (PostQuiz title description (Some questions) reward_pool passing_score admin).
Proof. reflexivity. Qed.

Lemma route_playQuiz :
  routed (quizAPI.playQuiz quizId participant answers) =
  Some (PostPlay quizId (JStr participant) (Some answers)).
Proof. unfold routed. decode_route. Qed.

Lemma route_getParticipantScore :
  has_slash address = false -> address <> ""%string ->
  routed (quizAPI.getParticipantScore address quizId) = Some (GetParticipant address quizId).
Proof. unfold routed. decode_route. Qed.

Lemma route_getStats : routed quizAPI.getStats = Some GetStats.
Proof. reflexivity. Qed.

Lemma route_toggleQuizStatus : routed (quizAPI.toggleQuizStatus quizId) = Some (PatchStatus quizId).
Proof. unfold routed. decode_route. Qed.

Lemma route_distributeReward amount :
  routed (quizAPI.distributeReward participant quizId amount) =
  Some (PostDistribute (JStr participant) (JStr quizId) amount).
Proof. reflexivity. Qed.
End Routes.

(** A call Express routes runs the route and shapes its response. *)
Lemma call_routed c req s :
  routed c = Some req ->
  call c s = let '(r, s') := handle req s in
             (if response_ok (status r) then ApiOk (payload r)
              else ApiErr ("HTTP error! status: " ++ z_string (status r))%string, s').
Proof.
  unfold call, apiCall, express, routed. intros H. simpl in *. rewrite H.
  destruct (handle req s). by destruct (response_ok _).
Qed.

(** [C19] Round trip through the URL: for a non-empty quiz id and a
    non-empty address made of letters, digits, [-] and [_] (every id the
    server creates, every address [generateRandomAddress] makes), Express
    routes each request [quizAPI] builds to the route the call means,
    with the call's arguments as the route's parameters and body fields;
    on such strings [fetch] and Express change nothing in the path. *)
Theorem quizAPI_route_roundtrip quizId address participant answers
        title description questions reward_pool passing_score admin amount :
  url_safe quizId = true -> quizId <> ""%string ->
  url_safe address = true -> address <> ""%string ->
  routed quizAPI.getQuizzes = Some GetQuizzes /\
  routed (quizAPI.getQuiz quizId) = Some (GetQuiz quizId) /\
  routed (quizAPI.createQuiz title description questions reward_pool passing_score admin) =
    Some (PostQuiz title description (Some questions) reward_pool passing_score admin) /\
  routed (quizAPI.playQuiz quizId participant answers) =
    Some (PostPlay quizId (JStr participant) (Some answers)) /\
  routed (quizAPI.getParticipantScore address quizId) = Some (GetParticipant address quizId) /\
  routed quizAPI.getStats = Some GetStats /\
  routed (quizAPI.toggleQuizStatus quizId) = Some (PatchStatus quizId) /\
  routed (quizAPI.distributeReward participant quizId amount) =
    Some (PostDistribute (JStr participant) (JStr quizId) amount).
Proof.
  intros Hq%url_safe_no_slash Hq0 Ha%url_safe_no_slash Ha0. repeat split;
    auto using route_getQuizzes, route_getQuiz, route_createQuiz, route_playQuiz,
      route_getParticipantScore, route_getStats, route_toggleQuizStatus, route_distributeReward.
Qed.

Lemma quizAPI_route_roundtrip_witness :
  routed (quizAPI.getParticipantScore "user_k3x9" "1000") = Some (GetParticipant "user_k3x9" "1000").
Proof.
  exact (proj1 (proj2 (proj2 (proj2 (proj2
    (quizAPI_route_roundtrip "1000" "user_k3x9" "user_k3x9" [] JNull JNull [] JNull JNull JNull (JNum 0)
       ltac:(vm_compute; reflexivity) ltac:(discriminate)
       ltac:(vm_compute; reflexivity) ltac:(discriminate))))))).
Defined.

(** What the client sees of an error: a second play of the same
    participant is refused by the server with "You have already played
    this quiz", but [apiCall] replaces the body by the message [HTTP
    error! status: 400], which is all the player's alert can show. *)
Theorem client_error_hides_message :
  let q := Question.mk (JStr "2+2?") JNull (JNum 1) in
  let s0 := (handle (PostQuiz (JStr "T") (JStr "d") (Some [q]) (JNum 10) (JNum 1) (JStr "admin"))
                    (server_init 1000)).2 in
  let '(r1, s1) := call (quizAPI.playQuiz "1000" "alice" [JNum 1]) s0 in
  let '(r2, s2) := call (quizAPI.playQuiz "1000" "alice" [JNum 1]) s1 in
  r1 = ApiOk (BScore 1 1 true true "Congratulations! You passed!") /\
  (express (Fetch (API_BASE_URL ++ url (quizAPI.playQuiz "1000" "alice" [JNum 1]))
                  POST (PlayBody (JStr "alice") [JNum 1])) s1).1 =
    fail 400 "You have already played this quiz" /\
  r2 = ApiErr "HTTP error! status: 400" /\ s2 = s1.
Proof. vm_compute. repeat split. Qed.
