(* ===== verification/Frontend.v ===== *)
(** * The browser page of the frontend

    The frontend keeps its state in four objects: [app.state] ([app.js]
    lines 3-8) and the [state] fields of [QuizPlayer] and [QuizCreator]
    ([components.js] lines 79-85 and 276-291); the DOM holds what the user
    sees: the navigation tabs (visible or [display: none]) and the
    [mainContent] element, which each [render] replaces.  A [page] gathers
    them with the alerts shown so far and, since every [fetch] reaches it,
    the server state.

    [mainContent] is modelled by the [screen] it shows: each constructor is
    one template of [components.js], with the values the template prints
    and, for each control, whether it is enabled and what its [onclick]
    does.  The HTML markup and styling are not modelled. *)

From S2P Require Import Prelude JsNumber Model.

(** A card of the quiz list (lines 36-65). *)
Record card := Card {
  card_quiz_id : string;
  card_title : jsval;
  card_active : bool;          (** [status ${statusClass}] *)
  card_play_enabled : bool;    (** [${!quiz.is_active ? 'disabled' : ''}] *)
  card_button_text : string
}.

(** The question screen of the player (lines 157-189). *)
Record player_view := PlayerView {
  pv_title : jsval;
  pv_number : nat;                    (** [currentQuestion + 1] *)
  pv_total : nat;                     (** [quiz.questions.length] *)
  pv_question_text : jsval;
  pv_options : list (jsval * bool);   (** option text, [checked] *)
  pv_dots : list (bool * bool);       (** [active], [answered] *)
  pv_prev_enabled : bool;             (** Previous, disabled on question 0 *)
  pv_on_last : bool;                  (** Submit instead of Next *)
  pv_submit_enabled : bool            (** Submit, disabled while an answer is null *)
}.

(** The result screen of the player (lines 204-229). *)
Record result_view := ResultView {
  rv_passed : bool;
  rv_message : string;
  rv_total : Z;
  rv_score : Z;
  rv_passing : jsval;
  rv_reward_eligible : bool
}.

(** A drafted question of the creator ([currentQuestion], lines 284-288). *)
Record draft := Draft {
  draft_text : string;
  draft_options : list string;
  draft_correct : nat
}.

(** The creation form (lines 357-469). *)
Record creator_view := CreatorView {
  cv_title : string;
  cv_description : string;
  cv_questions : list draft;          (** Questions Added, each with Remove *)
  cv_draft : draft;
  cv_add_enabled : bool;              (** disabled while the question text is blank *)
  cv_submit_enabled : bool;           (** disabled while loading or without questions *)
  cv_loading : bool
}.

(** The dashboard (lines 594-679). *)
Record dashboard_view := DashboardView {
  dv_stats : Stats.t;
  dv_active : nat;
  dv_inactive : nat;
  dv_rows : list card                 (** the first ten quizzes *)
}.

Inductive screen :=
| SLoading (message : string)
| SError (message : string)
| SEmptyList                          (** lines 18-25 *)
| SQuizList (cards : list card)
| SPlayer (v : player_view)
| SResult (v : result_view)
| SCreator (v : creator_view)
| SCreated                            (** lines 297-303 *)
| SDashboard (v : dashboard_view).

(** [app.state], lines 3-8. *)
Record app_state := AppState {
  currentPage : string;
  selectedQuizId : option string;
  userAddress : string;
  isAdmin : bool
}.

(** [QuizPlayer.state], lines 79-85. *)
Record player_state := PlayerState {
  ps_quiz : option Quiz.t;
  ps_answers : list jsval;
  ps_currentQuestion : nat;
  ps_submitted : bool;
  ps_result : option body
}.

(** [QuizCreator.state.formData], lines 277-283. *)
Record form_data := FormData {
  fd_title : string;
  fd_description : string;
  fd_reward_pool : string;
  fd_passing_score : string;
  fd_questions : list draft
}.

(** [QuizCreator.state], lines 276-291. *)
Record creator_state := CreatorState {
  cs_formData : form_data;
  cs_currentQuestion : draft;
  cs_success : bool;
  cs_loading : bool
}.

(** Timers set with [setTimeout] that have not fired yet. *)
Inductive timer := GoToQuizzesAfterCreate  (** lines 304-306 *).

Record page := Page {
  app : app_state;
  player : player_state;
  creator : creator_state;
  navVisible : bool;                  (** [navTabs.style.display] *)
  mainContent : screen;
  alerts : list string;               (** messages shown by [alert] *)
  timers : list timer;
  backend : server
}.

Definition blank_draft : draft := Draft "" [""; ""; ""; ""] 0.

Definition initial_form : form_data := FormData "" "" "" "" [].

(** The creator's state as [app.goToPage('create')] resets it
    ([app.js] lines 73-85); it is also the initial state. *)
Definition creator_reset : creator_state := CreatorState initial_form blank_draft false false.

Definition player_init : player_state := PlayerState None [] 0 false None.

(** Field updates of the page. *)
Definition set_main (sc : screen) (p : page) : page :=
  Page (app p) (player p) (creator p) (navVisible p) sc (alerts p) (timers p) (backend p).
Definition set_backend (s : server) (p : page) : page :=
  Page (app p) (player p) (creator p) (navVisible p) (mainContent p) (alerts p) (timers p) s.
Definition set_player (ps : player_state) (p : page) : page :=
  Page (app p) ps (creator p) (navVisible p) (mainContent p) (alerts p) (timers p) (backend p).
Definition set_creator (cs : creator_state) (p : page) : page :=
  Page (app p) (player p) cs (navVisible p) (mainContent p) (alerts p) (timers p) (backend p).
Definition set_app (a : app_state) (p : page) : page :=
  Page a (player p) (creator p) (navVisible p) (mainContent p) (alerts p) (timers p) (backend p).
Definition set_nav (v : bool) (p : page) : page :=
  Page (app p) (player p) (creator p) v (mainContent p) (alerts p) (timers p) (backend p).
Definition add_alert (msg : string) (p : page) : page :=
  Page (app p) (player p) (creator p) (navVisible p) (mainContent p) (alerts p ++ [msg])
       (timers p) (backend p).
Definition add_timer (t : timer) (p : page) : page :=
  Page (app p) (player p) (creator p) (navVisible p) (mainContent p) (alerts p)
       (timers p ++ [t]) (backend p).
