(* ===== verification/Player.v ===== *)
(** * The quiz list and the quiz player ([components.js] lines 1-272)

    [QuizList.render] fetches the quizzes and shows a card per quiz with a
    play button enabled exactly for active quizzes.  [QuizPlayer] loads a
    quiz, shows one question at a time with its options, a dot per
    question and Previous/Next/Submit buttons, records the option the user
    picks, and submits the answers to the play route.

    Each method is a function on the [page]: it updates the component's
    state, calls the server through [Client.call] and replaces
    [mainContent] as the method's [innerHTML] assignment does.  An
    exception of a method ([question.options.forEach] on a question
    without options, for instance) is caught by the [try] of [render] and
    [submitQuiz]; thrown from a navigation method it leaves [mainContent]
    as it was.

    The theorems show that navigation keeps the current question inside
    the quiz and the answer array as long as the quiz, that rendering
    never throws on a well-formed quiz, and that a submission from an
    enabled Submit button sends one non-null answer per question, which
    the play route scores. *)

From S2P Require Import Prelude JsNumber JsObject Keys Model Scoring Server Client Frontend.

(** [quizzesHTML] card of one quiz, lines 32-64. *)
Definition quiz_card (quiz : Quiz.t) : card :=
  Card (Quiz.quiz_id quiz) (Quiz.title quiz) (Quiz.is_active quiz) (Quiz.is_active quiz)
       (if Quiz.is_active quiz then "Take Quiz" else "Not Available").

Module QuizList.
(** What [render] does once [await quizAPI.getQuizzes()] resumes,
    lines 10-73. *)
Definition loaded (response : api_result) (p : page) : page :=
  match response with
  | ApiErr _ => set_main (SError "Failed to load quizzes") p
  | ApiOk data =>
      let quizzes := match data with BQuizzes qs _ => qs | _ => [] end in
      match quizzes with
      | [] => set_main SEmptyList p
      | _ => set_main (SQuizList (map quiz_card quizzes)) p
      end
  end.

(** [QuizList.render(userAddress)], lines 3-74. *)
Definition render (p : page) : page :=
  let p := set_main (SLoading "Loading quizzes...") p in
  let '(response, s') := call quizAPI.getQuizzes (backend p) in
  loaded response (set_backend s' p).
End QuizList.

Module QuizPlayer.
(** [renderResult()], lines 192-230.  The result is the body of the play
    route; the percentage circle ([Math.round] of a floating-point
    quotient) is display only and not modelled. *)
Definition renderResult (ps : player_state) : option screen :=
  match ps_quiz ps, ps_result ps with
  | Some quiz, Some (BScore score total passed eligible message) =>
      Some (SResult (ResultView passed message total score (Quiz.passing_score quiz) eligible))
  | _, _ => None
  end.

(** [renderQuiz(userAddress)], lines 112-190; [None] when it throws. *)
Definition renderQuiz (ps : player_state) : option screen :=
  if ps_submitted ps && bool_decide (is_Some (ps_result ps)) then renderResult ps
  else
    match ps_quiz ps with
    | None => None
    | Some quiz =>
        let cur := ps_currentQuestion ps in
        let n := length (Quiz.questions quiz) in
        match Quiz.questions quiz !! cur with
        | None => None
        | Some question =>
            match Question.options question with
            | JArr opts =>
                let options :=
                  imap (fun index option =>
                          (option, answer_at (ps_answers ps) cur === JNum (Z.of_nat index))) opts in
                let dots :=
                  imap (fun index _ =>
                          (bool_decide (index = cur),
                           negb (answer_at (ps_answers ps) index === JNull)))
                       (Quiz.questions quiz) in
                Some (SPlayer (PlayerView (Quiz.title quiz) (S cur) n
                                 (Question.question_text question) options dots
                                 (negb (bool_decide (cur = 0)))
                                 (bool_decide (Z.of_nat cur = Z.of_nat n - 1)%Z)
                                 (forallb (fun a => negb (a === JNull)) (ps_answers ps))))
            | _ => None
            end
        end
    end.

(** Re-rendering from a navigation method: an exception leaves the screen
    as it was. *)
Definition rerender (p : page) : page :=
  match renderQuiz (player p) with
  | Some sc => set_main sc p
  | None => p
  end.

(** What [render] does once [await quizAPI.getQuiz(quizId)] resumes,
    lines 92-109. *)
Definition loaded (response : api_result) (p : page) : page :=
  match response with
  | ApiErr _ => set_main (SError "Quiz not found") p
  | ApiOk (BQuiz quiz) =>
      let ps := PlayerState (Some quiz) (replicate (length (Quiz.questions quiz)) JNull)
                            0 false None in
      let p := set_player ps p in
      match renderQuiz ps with
      | Some sc => set_main sc p
      | None => set_main (SError "Failed to load quiz") p
      end
  | ApiOk _ => set_main (SError "Failed to load quiz") p
  end.

(** [render(quizId, userAddress)], lines 87-110. *)
Definition render (quizId : string) (p : page) : page :=
  let p := set_main (SLoading "Loading quiz...") p in
  let '(response, s') := call (quizAPI.getQuiz quizId) (backend p) in
  loaded response (set_backend s' p).

Definition with_current (cur : nat) (ps : player_state) : player_state :=
  PlayerState (ps_quiz ps) (ps_answers ps) cur (ps_submitted ps) (ps_result ps).

(** The radio button's [onchange], line 133:
    [QuizPlayer.state.answers[question] = index], without re-rendering. *)
Definition chooseOption (question index : nat) (p : page) : page :=
  let ps := player p in
  set_player (PlayerState (ps_quiz ps) (js_array_set (ps_answers ps) question (JNum (Z.of_nat index)))
                          (ps_currentQuestion ps) (ps_submitted ps) (ps_result ps)) p.

(** [goToQuestion(index)], lines 232-235. *)
Definition goToQuestion (index : nat) (p : page) : page :=
  rerender (set_player (with_current index (player p)) p).

(** [previousQuestion()], lines 237-242. *)
Definition previousQuestion (p : page) : page :=
  let cur := ps_currentQuestion (player p) in
  if bool_decide (0 < cur) then rerender (set_player (with_current (cur - 1) (player p)) p)
  else p.

(** [nextQuestion()], lines 244-249. *)
Definition nextQuestion (p : page) : page :=
  match ps_quiz (player p) with
  | None => p                                     (* [this.state.quiz.questions] throws *)
  | Some quiz =>
      let cur := ps_currentQuestion (player p) in
      if bool_decide (Z.of_nat cur < Z.of_nat (length (Quiz.questions quiz)) - 1)%Z
      then rerender (set_player (with_current (S cur) (player p)) p)
      else p
  end.

(** What [submitQuiz] does once [await quizAPI.playQuiz(..)] resumes,
    lines 259-270: it reads [this.state] as it is then. *)
Definition submitted (response : api_result) (p : page) : page :=
  let ps := player p in
  match response with
  | ApiErr message => add_alert ("Error submitting quiz: " ++ message) p
  | ApiOk data =>
      let ps' := PlayerState (ps_quiz ps) (ps_answers ps) (ps_currentQuestion ps) true (Some data) in
      let p := set_player ps' p in
      match renderResult ps' with
      | Some sc => set_main sc p
      | None => add_alert "Error submitting quiz" p
      end
  end.

(** [submitQuiz(userAddress)], lines 251-271. *)
Definition submitQuiz (userAddress : string) (p : page) : page :=
  let ps := player p in
  match ps_quiz ps with
  | None => add_alert "Error submitting quiz" p
  | Some quiz =>
      let '(response, s') :=
        call (quizAPI.playQuiz (Quiz.quiz_id quiz) userAddress (ps_answers ps)) (backend p) in
      submitted response (set_backend s' p)
  end.
End QuizPlayer.

#[global] Arguments QuizPlayer.rerender : simpl never.
#[global] Arguments QuizList.loaded _ _ /.
#[global] Arguments QuizPlayer.loaded _ _ /.
#[global] Arguments QuizPlayer.submitted _ _ /.

(** The player's invariant: once a quiz is loaded, the answers array has
    one entry per question and the current question is one of them (or 0
    for a quiz without questions). *)
Definition player_wf (ps : player_state) : Prop :=
  match ps_quiz ps with
  | None => True
  | Some quiz =>
      length (ps_answers ps) = length (Quiz.questions quiz) /\
      (ps_currentQuestion ps < length (Quiz.questions quiz) \/ ps_currentQuestion ps = 0)
  end.

#[export] Instance player_wf_dec ps : Decision (player_wf ps).
Proof. unfold player_wf. destruct (ps_quiz ps); apply _. Defined.

(** An index the player's dots and radio buttons can carry. *)
Definition in_quiz (ps : player_state) (i : nat) : Prop :=
  match ps_quiz ps with
  | None => True
  | Some quiz => i < length (Quiz.questions quiz)
  end.

(** Every question of the quiz has an array of options. *)
Definition displayable (quiz : Quiz.t) : bool :=
  forallb (fun q => match Question.options q with JArr _ => true | _ => false end)
          (Quiz.questions quiz).

(** ** Concrete pages for the witnesses *)

Definition demo_options : jsval := JArr [JStr "2"; JStr "4"].

Definition demo_questions : list Question.t :=
  [Question.mk (JStr "2+2?") demo_options (JNum 1);
   Question.mk (JStr "1+1?") demo_options (JNum 0)].

(** A server holding one quiz with the given questions, created at 1000. *)
Definition demo_backend (qs : list Question.t) : server :=
  (handle (PostQuiz (JStr "Sums") (JStr "practice") (Some qs) (JNum 10) (JNum 1) (JStr "admin"))
          (server_init 1000)).2.

Definition demo_stored (qs : list Question.t) : Quiz.t :=
  Quiz.mk "1000" (JStr "Sums") (JStr "practice") qs (JNum 10) (JNum 1) (JStr "admin") true 1000.

Definition demo_page (qs : list Question.t) : page :=
  Page (AppState "quizzes" None "bob" false) player_init creator_reset true SEmptyList [] []
       (demo_backend qs).

(** The player after loading quiz 1000. *)
Definition demo_loaded (qs : list Question.t) : page := QuizPlayer.render "1000" (demo_page qs).

(** Both questions answered, on the second one. *)
Definition demo_answered : page :=
  QuizPlayer.nextQuestion
    (QuizPlayer.chooseOption 1 0 (QuizPlayer.chooseOption 0 1 (demo_loaded demo_questions))).

(** ** Lemmas *)

Lemma rerender_player p : player (QuizPlayer.rerender p) = player p.
Proof. unfold QuizPlayer.rerender. by destruct (QuizPlayer.renderQuiz _). Qed.

Lemma js_array_set_length l i v : i < length l -> length (js_array_set l i v) = length l.
Proof. intros Hi. unfold js_array_set. rewrite decide_True by done. apply length_insert. Qed.

Lemma forallb_not_null (l : list jsval) :
  forallb (fun a => negb (a === JNull)) l = true -> Forall (fun a => a <> JNull) l.
Proof.
  induction l as [|a l IH]; simpl; [constructor|].
  intros [Ha Hl]%andb_prop. constructor; [|by apply IH].
  intros ->. discriminate.
Qed.

Lemma renderQuiz_submit_enabled ps v :
  QuizPlayer.renderQuiz ps = Some (SPlayer v) ->
  pv_submit_enabled v = forallb (fun a => negb (a === JNull)) (ps_answers ps).
Proof.
  unfold QuizPlayer.renderQuiz, QuizPlayer.renderResult.
  destruct (ps_submitted ps && _).
  - by repeat case_match.
  - destruct (ps_quiz ps); [|done].
    destruct (_ !! _); [|done]. destruct (Question.options _); try done.
    by intros [= <-].
Qed.

(** [C23] Invariant of the player: choosing an option of a displayed
    question, going to a question by its dot, Previous, Next and Submit
    all keep the answers array as long as the quiz and the current
    question inside it. *)
Theorem player_steps_preserve_wf p u q i :
  player_wf (player p) -> in_quiz (player p) q -> in_quiz (player p) i ->
  player_wf (player (QuizPlayer.chooseOption q i p)) /\
  player_wf (player (QuizPlayer.goToQuestion i p)) /\
  player_wf (player (QuizPlayer.previousQuestion p)) /\
  player_wf (player (QuizPlayer.nextQuestion p)) /\
  player_wf (player (QuizPlayer.submitQuiz u p)).
Proof.
  destruct p as [a [oq ans cur sub res] c nav main al tm s]; unfold player_wf, in_quiz; simpl.
  intros Hwf Hq Hi. split; [|split; [|split; [|split]]].
  - destruct oq; [|done]. destruct Hwf.
    split; [by rewrite js_array_set_length by lia|done].
  - unfold QuizPlayer.goToQuestion. rewrite rerender_player. simpl.
    destruct oq; [|done]. destruct Hwf. split; [done|lia].
  - unfold QuizPlayer.previousQuestion. simpl. case_bool_decide; [|done].
    rewrite rerender_player. simpl. destruct oq; [|done]. destruct Hwf. split; [done|lia].
  - unfold QuizPlayer.nextQuestion. simpl. destruct oq; [|done]. case_bool_decide; [|done].
    rewrite rerender_player. simpl. destruct Hwf. split; [done|lia].
  - unfold QuizPlayer.submitQuiz, QuizPlayer.submitted. simpl. destruct oq; [|done].
    destruct (call _ s) as [[data|msg] s']; simpl; [|done].
    by destruct (QuizPlayer.renderResult _).
Qed.

(** [C24] Loading and displaying never throws on a well-formed quiz: a
    loaded, displayable quiz with a current question in range renders the
    question screen, with Previous enabled exactly off the first question
    and Submit offered exactly on the last one. *)
Theorem renderQuiz_total ps quiz :
  ps_quiz ps = Some quiz -> player_wf ps -> ps_submitted ps = false ->
  displayable quiz = true -> Quiz.questions quiz <> [] ->
  exists v, QuizPlayer.renderQuiz ps = Some (SPlayer v) /\
            pv_prev_enabled v = negb (bool_decide (ps_currentQuestion ps = 0)) /\
            pv_on_last v = bool_decide (S (ps_currentQuestion ps) = length (Quiz.questions quiz)).
Proof.
  unfold player_wf, displayable. intros Hq Hwf Hs Hd Hne. rewrite Hq in Hwf. destruct Hwf as [Hl Hc].
  unfold QuizPlayer.renderQuiz. rewrite Hs, Hq. simpl.
  assert (ps_currentQuestion ps < length (Quiz.questions quiz)) as Hlt.
  { destruct Hc as [Hc| Hc]; [done|]. rewrite Hc. destruct (Quiz.questions quiz); simpl; [done|lia]. }
  apply lookup_lt_is_Some_2 in Hlt as [question Hquestion]. rewrite Hquestion.
  apply forallb_forall with (x := question) in Hd; [|apply list_elem_of_In; by eapply list_elem_of_lookup_2].
  destruct (Question.options question) as [| | | | |opts]; try discriminate.
  eexists. split; [reflexivity|]. simpl. split; [done|].
  apply bool_decide_ext. lia.
Qed.

(** [C20] Submitting from the question screen: when the displayed Submit
    button is enabled, the player sends one non-null answer per question,
    so the play route never answers "Number of answers must match
    questions" to it; if the server still holds the quiz with as many
    questions, active and not yet played by the user, the result screen
    shows the server's score of the answers and its verdict. *)
Theorem submit_scores p userAddress quiz squiz v :
  ps_quiz (player p) = Some quiz -> player_wf (player p) ->
  QuizPlayer.renderQuiz (player p) = Some (SPlayer v) -> pv_submit_enabled v = true ->
  has_slash (Quiz.quiz_id quiz) = false -> Quiz.quiz_id quiz <> ""%string ->
  (quizzesStore (backend p)).[Quiz.quiz_id quiz] = Some squiz -> Quiz.is_active squiz = true ->
  length (Quiz.questions squiz) = length (Quiz.questions quiz) ->
  (participantsStore (backend p)).[participant_key userAddress (Quiz.quiz_id quiz)] = None ->
  let score := Z.of_nat (count_correct (ps_answers (player p)) (Quiz.questions squiz)) in
  let passed := num_ge_js score (Quiz.passing_score squiz) in
  Forall (fun a => a <> JNull) (ps_answers (player p)) /\
  mainContent (QuizPlayer.submitQuiz userAddress p) =
    SResult (ResultView passed (pass_message passed)
                        (Z.of_nat (length (Quiz.questions squiz))) score
                        (Quiz.passing_score quiz) passed).
Proof.
  intros Hq Hwf Hr Hen Hslash Hne Hsq Hact Hlen Hnone score passed.
  split; [apply forallb_not_null; by rewrite <- (renderQuiz_submit_enabled _ v)|].
  unfold player_wf in Hwf. rewrite Hq in Hwf. destruct Hwf as [Hl _].
  unfold QuizPlayer.submitQuiz, QuizPlayer.submitted. rewrite Hq.
  rewrite (call_routed _ _ _ (route_playQuiz _ _ _ Hslash Hne)).
  rewrite handle_play, Hsq, Hact. simpl.
  rewrite bool_decide_true by lia. simpl. rewrite Hnone. simpl. by rewrite Hq.
Qed.

Lemma player_steps_preserve_wf_witness :
  player_wf (player (QuizPlayer.nextQuestion (demo_loaded demo_questions))).
Proof.
  refine (proj1 (proj2 (proj2 (proj2
    (player_steps_preserve_wf (demo_loaded demo_questions) "bob" 0 1 _ _ _))))).
  - vm_compute. split; [reflexivity|left; lia].
  - vm_compute. lia.
  - vm_compute. lia.
Defined.

Lemma renderQuiz_total_witness :
  exists v, QuizPlayer.renderQuiz (player (demo_loaded demo_questions)) = Some (SPlayer v) /\
            pv_prev_enabled v = false /\ pv_on_last v = false.
Proof.
  refine (renderQuiz_total (player (demo_loaded demo_questions))
            (Quiz.safe_view (demo_stored demo_questions)) _ _ _ _ _).
  - reflexivity.
  - vm_compute. split; [reflexivity|left; lia].
  - reflexivity.
  - reflexivity.
  - discriminate.
Defined.

Lemma submit_scores_witness :
  Forall (fun a => a <> JNull) (ps_answers (player demo_answered)) /\
  mainContent (QuizPlayer.submitQuiz "bob" demo_answered) =
    SResult (ResultView true "Congratulations! You passed!" 2 2 (JNum 1) true).
Proof.
  refine (submit_scores demo_answered "bob" (Quiz.safe_view (demo_stored demo_questions))
            (demo_stored demo_questions) _ _ _ _ _ _ _ _ _ _ _).
  - reflexivity.
  - vm_compute. split; [reflexivity|left; lia].
  - reflexivity.
  - reflexivity.
  - reflexivity.
  - discriminate.
  - reflexivity.
  - reflexivity.
  - reflexivity.
  - reflexivity.
Defined.

(** The Submit button is computed when the question is rendered and
    choosing an option does not re-render: on a one-question quiz, after
    the user picks an answer every answer is set, yet the displayed Submit
    button stays disabled until the user navigates (for instance by
    clicking the question's dot). *)
Theorem stale_submit_button :
  let one := [Question.mk (JStr "2+2?") demo_options (JNum 1)] in
  let p := QuizPlayer.chooseOption 0 1 (demo_loaded one) in
  Forall (fun a => a <> JNull) (ps_answers (player p)) /\
  (exists v, mainContent p = SPlayer v /\ pv_on_last v = true /\ pv_submit_enabled v = false) /\
  (exists v, mainContent (QuizPlayer.goToQuestion 0 p) = SPlayer v /\
             pv_submit_enabled v = true).
Proof.
  vm_compute. split; [repeat constructor; discriminate|].
  split; eexists; repeat split.
Qed.
