(* ===== verification/Creator.v ===== *)
(** * The quiz creator and the dashboard ([components.js] lines 274-684)

    [QuizCreator] edits a form (title, description, reward pool, passing
    score, the questions added so far and a draft question with four
    options), adds the draft when its text and options are not blank,
    removes a question, and on submission checks the form, converts the
    numbers with [parseInt] and posts the quiz; on success it shows a
    confirmation and sets a timer that returns to the quiz list.
    [Dashboard.render] reads the statistics and the quiz list and shows
    the counters, the number of active and inactive quizzes and the first
    ten quizzes.

    The theorems show that a draft is added only when complete, that the
    creator's checks are at least as strict as the server's, so every
    quiz it posts is created, and that the dashboard's counts are those of
    the server. *)

From S2P Require Import Prelude JsNumber JsObject Keys Model Server Client Frontend Player.
From Stdlib Require Import Ascii.

(** ** String helpers of the language *)

Definition is_js_space (c : ascii) : bool :=
  match nat_of_ascii c with
  | 9 | 10 | 11 | 12 | 13 | 32 => true
  | _ => false
  end.

(** [!s.trim()]: the string has only white space. *)
Fixpoint is_blank (s : string) : bool :=
  match s with
  | EmptyString => true
  | String c s' => is_js_space c && is_blank s'
  end.

Fixpoint digits_prefix (s : string) (acc : option N) : option N :=
  match s with
  | EmptyString => acc
  | String c s' =>
      let d := (nat_of_ascii c - nat_of_ascii "0")%nat in
      if (nat_of_ascii "0" <=? nat_of_ascii c)%nat && (nat_of_ascii c <=? nat_of_ascii "9")%nat
      then digits_prefix s' (Some (10 * default 0 acc + N.of_nat d)%N)
      else acc
  end.

Fixpoint skip_spaces (s : string) : string :=
  match s with
  | String c s' => if is_js_space c then skip_spaces s' else s
  | EmptyString => EmptyString
  end.

(** [parseInt(s)] in base 10: leading white space, an optional sign, then
    the longest run of digits; [None] ([NaN]) without digits.  The
    hexadecimal prefix [0x] is not modelled (a number input never holds
    one). *)
Definition parse_int (s : string) : option Z :=
  match skip_spaces s with
  | String "-" s' => option_map (fun n => (- Z.of_N n)%Z) (digits_prefix s' None)
  | String "+" s' => option_map Z.of_N (digits_prefix s' None)
  | s' => option_map Z.of_N (digits_prefix s' None)
  end.

(** A number after [JSON.stringify]: [NaN] becomes [null]. *)
Definition json_number (n : option Z) : jsval :=
  match n with Some z => JNum z | None => JNull end.

(** A drafted question as [JSON.stringify] sends it. *)
Definition draft_json (d : draft) : Question.t :=
  Question.mk (JStr (draft_text d)) (JArr (map JStr (draft_options d)))
              (JNum (Z.of_nat (draft_correct d))).

Module QuizCreator.
Definition view (cs : creator_state) : creator_view :=
  CreatorView (fd_title (cs_formData cs)) (fd_description (cs_formData cs))
              (fd_questions (cs_formData cs)) (cs_currentQuestion cs)
              (negb (is_blank (draft_text (cs_currentQuestion cs))))
              (negb (cs_loading cs || bool_decide (length (fd_questions (cs_formData cs)) = 0)))
              (cs_loading cs).

(** [render(userAddress)], lines 293-470. *)
Definition render (p : page) : page :=
  if cs_success (creator p) then add_timer GoToQuizzesAfterCreate (set_main SCreated p)
  else set_main (SCreator (view (creator p))) p.

Definition set_form (fd : form_data) (cs : creator_state) : creator_state :=
  CreatorState fd (cs_currentQuestion cs) (cs_success cs) (cs_loading cs).

Definition set_draft (d : draft) (cs : creator_state) : creator_state :=
  CreatorState (cs_formData cs) d (cs_success cs) (cs_loading cs).

Definition set_loading (b : bool) (cs : creator_state) : creator_state :=
  CreatorState (cs_formData cs) (cs_currentQuestion cs) (cs_success cs) b.

Definition with_questions (qs : list draft) (fd : form_data) : form_data :=
  FormData (fd_title fd) (fd_description fd) (fd_reward_pool fd) (fd_passing_score fd) qs.

(** [addQuestion()], lines 472-488. *)
Definition addQuestion (p : page) : page :=
  let cs := creator p in
  let d := cs_currentQuestion cs in
  if is_blank (draft_text d) || existsb is_blank (draft_options d)
  then add_alert "Please fill all fields for this question" p
  else
    let fd := cs_formData cs in
    let cs' := set_draft blank_draft (set_form (with_questions (fd_questions fd ++ [d]) fd) cs) in
    render (set_creator cs' p).

(** [removeQuestion(index)], lines 490-493: [splice(index, 1)]. *)
Definition removeQuestion (index : nat) (p : page) : page :=
  let cs := creator p in
  let fd := cs_formData cs in
  render (set_creator (set_form (with_questions (delete index (fd_questions fd)) fd) cs) p).

(** What [handleSubmit] does once [await quizAPI.createQuiz(quizData)]
    resumes, lines 520-530. *)
Definition created (response : api_result) (p : page) : page :=
  match response with
  | ApiErr message =>
      render (set_creator (set_loading false (creator p))
                (add_alert ("Error creating quiz: " ++ message) p))
  | ApiOk _ =>
      render (set_creator (CreatorState (cs_formData (creator p)) (cs_currentQuestion (creator p))
                                        true (cs_loading (creator p))) p)
  end.

(** [handleSubmit(event, userAddress)], lines 495-537. *)
Definition handleSubmit (userAddress : string) (p : page) : page :=
  let fd := cs_formData (creator p) in
  if bool_decide (fd_title fd = "") || bool_decide (fd_description fd = "")
     || bool_decide (length (fd_questions fd) = 0)
  then add_alert "Please fill all required fields" p
  else if match parse_int (fd_passing_score fd) with
          | Some n => (Z.of_nat (length (fd_questions fd)) <? n)%Z
          | None => false
          end
  then add_alert "Passing score cannot exceed number of questions" p
  else
    let p := render (set_creator (set_loading true (creator p)) p) in
    let '(response, s') :=
      call (quizAPI.createQuiz (JStr (fd_title fd)) (JStr (fd_description fd))
                               (map draft_json (fd_questions fd))
                               (json_number (parse_int (fd_reward_pool fd)))
                               (json_number (parse_int (fd_passing_score fd)))
                               (JStr userAddress)) (backend p) in
    created response (set_backend s' p).
End QuizCreator.

Module Dashboard.
(** What [render] does once [await Promise.all([..])] resumes, lines
    553-683. *)
Definition loaded (statsRes quizzesRes : api_result) (p : page) : page :=
  match statsRes, quizzesRes with
  | ApiOk (BStats stats), ApiOk data =>
      let quizzes := match data with BQuizzes qs _ => qs | _ => [] end in
      let active := length (filter (fun q => Quiz.is_active q = true) quizzes) in
      set_main (SDashboard (DashboardView stats active (length quizzes - active)
                                          (map quiz_card (take 10 quizzes)))) p
  | _, _ => set_main (SError "Failed to load dashboard data") p
  end.

(** [render(userAddress)], lines 542-684.  The two requests of
    [Promise.all] only read the server, so their order does not matter. *)
Definition render (p : page) : page :=
  let p := set_main (SLoading "Loading dashboard...") p in
  let '(statsRes, s1) := call quizAPI.getStats (backend p) in
  let '(quizzesRes, s2) := call quizAPI.getQuizzes s1 in
  loaded statsRes quizzesRes (set_backend s2 p).
End Dashboard.

#[global] Arguments Dashboard.loaded _ _ _ /.
#[global] Arguments QuizCreator.created _ _ /.

(** A question the creator may add: neither its text nor an option is
    blank. *)
Definition complete (d : draft) : bool :=
  negb (is_blank (draft_text d)) && negb (existsb is_blank (draft_options d)).

(** The creator's invariant: every added question is complete. *)
Definition creator_wf (cs : creator_state) : Prop :=
  Forall (fun d => complete d = true) (fd_questions (cs_formData cs)).

(** A filled-in creation form, for the witnesses. *)
Definition demo_form : form_data :=
  FormData "Capitals" "geography" "50" "1"
           [Draft "Capital of France?" ["Paris"; "Rome"; "Oslo"; "Bern"] 0].

Definition demo_form_page : page :=
  Page (AppState "create" None "admin" true) player_init
       (CreatorState demo_form blank_draft false false) true
       (SCreator (QuizCreator.view (CreatorState demo_form blank_draft false false))) [] []
       (server_init 2000).

(** ** Lemmas *)

Lemma render_creator p : creator (QuizCreator.render p) = creator p.
Proof. unfold QuizCreator.render. by destruct (cs_success _). Qed.

Lemma render_backend p : backend (QuizCreator.render p) = backend p.
Proof. unfold QuizCreator.render. by destruct (cs_success _). Qed.

Lemma render_success p :
  cs_success (creator p) = true ->
  QuizCreator.render p = add_timer GoToQuizzesAfterCreate (set_main SCreated p).
Proof. unfold QuizCreator.render. by intros ->. Qed.

Lemma render_form p :
  cs_success (creator p) = false ->
  QuizCreator.render p = set_main (SCreator (QuizCreator.view (creator p))) p.
Proof. unfold QuizCreator.render. by intros ->. Qed.

Lemma call_getQuizzes s :
  call quizAPI.getQuizzes s =
  (ApiOk (BQuizzes (map Quiz.safe_view (JsObject.values (quizzesStore s)))
                   (Z.of_nat (length (JsObject.values (quizzesStore s))))), s).
Proof. rewrite (call_routed _ _ _ route_getQuizzes), handle_get_quizzes. reflexivity. Qed.

Lemma call_getStats s : call quizAPI.getStats s = (ApiOk (BStats (statsStore s)), s).
Proof. reflexivity. Qed.

(** [C26] Invariant of the creator: adding a question keeps only complete
    questions (an incomplete draft raises an alert and is not added),
    removing one keeps the rest, and submitting the form does not change
    the questions. *)
Theorem creator_steps_preserve_wf p u i :
  creator_wf (creator p) ->
  creator_wf (creator (QuizCreator.addQuestion p)) /\
  creator_wf (creator (QuizCreator.removeQuestion i p)) /\
  creator_wf (creator (QuizCreator.handleSubmit u p)).
Proof.
  unfold creator_wf. intros Hwf. split; [|split].
  - unfold QuizCreator.addQuestion.
    destruct (is_blank _ || existsb is_blank _) eqn:Hb; [done|].
    rewrite render_creator. simpl. apply Forall_app. split; [done|].
    apply Forall_singleton. unfold complete. apply Bool.orb_false_iff in Hb as [-> ->]. done.
  - unfold QuizCreator.removeQuestion. rewrite render_creator. simpl.
    by apply Forall_delete.
  - unfold QuizCreator.handleSubmit, QuizCreator.created.
    destruct (_ || _ || _); [done|].
    destruct (parse_int _) as [n|]; [destruct (_ <? n)%Z; [done|]|];
      destruct (call _ _) as [[data|msg] s']; rewrite !render_creator; simpl;
      by rewrite ?render_creator.
Qed.

(** [C25] The creator's checks are at least as strict as the server's:
    a form with a title, a description and at least one question whose
    passing score does not exceed the question count is created by the
    server (stored active under the clock's id with the drafted
    questions, the numbers converted by [parseInt], [NaN] sent as
    [null]), and the creator shows its confirmation and sets the timer
    back to the quiz list. *)
Theorem creator_submit_created p u :
  let fd := cs_formData (creator p) in
  cs_success (creator p) = false ->
  fd_title fd <> ""%string -> fd_description fd <> ""%string -> fd_questions fd <> [] ->
  match parse_int (fd_passing_score fd) with
  | Some n => (n <= Z.of_nat (length (fd_questions fd)))%Z
  | None => True
  end ->
  let s := backend p in
  let quizId := quiz_id_of (clock s) in
  let p' := QuizCreator.handleSubmit u p in
  mainContent p' = SCreated /\ timers p' = timers p ++ [GoToQuizzesAfterCreate] /\
  (quizzesStore (backend p')).[quizId] =
    Some (Quiz.mk quizId (JStr (fd_title fd)) (JStr (fd_description fd))
                  (map draft_json (fd_questions fd))
                  (json_number (parse_int (fd_reward_pool fd)))
                  (json_number (parse_int (fd_passing_score fd))) (JStr u) true (clock s)).
Proof.
  intros fd Hs Ht Hd Hq Hps s quizId p'. subst p'.
  unfold QuizCreator.handleSubmit, QuizCreator.created. fold fd.
  rewrite !bool_decide_false by (done || (intros ?%nil_length_inv; done)). simpl.
  assert (Hgt : js_gt_num (json_number (parse_int (fd_passing_score fd)))
                          (Z.of_nat (length (map draft_json (fd_questions fd)))) = false).
  { rewrite length_map. destruct (parse_int _); simpl json_number.
    - rewrite js_gt_num_JNum. apply Z.ltb_ge. lia.
    - transitivity (js_gt_num (JNum 0) (Z.of_nat (length (fd_questions fd)))); [done|].
      rewrite js_gt_num_JNum. apply Z.ltb_ge. lia. }
  assert (Hcheck : match parse_int (fd_passing_score fd) with
                   | Some n => (Z.of_nat (length (fd_questions fd)) <? n)%Z
                   | None => false
                   end = false).
  { destruct (parse_int _); [apply Z.ltb_ge; lia|done]. }
  rewrite Hcheck.
  rewrite (call_routed _ _ _ (route_createQuiz _ _ _ _ _ _)), handle_create. simpl.
  rewrite !bool_decide_false by (done || (rewrite length_map; intros ?%nil_length_inv; done)). simpl.
  rewrite render_backend. simpl. rewrite Hgt. simpl.
  rewrite render_form by (simpl; done). simpl.
  split; [done|]. split; [done|]. apply JsObjectFacts.get_set_eq.
Qed.

Lemma filter_active_safe_view (l : list Quiz.t) :
  length (filter (fun q => Quiz.is_active q = true) (map Quiz.safe_view l)) =
  length (filter (fun q => Quiz.is_active q = true) l).
Proof.
  induction l as [|q l IH]; simpl; [done|]. rewrite !filter_cons. simpl.
  case_decide; simpl; by rewrite IH.
Qed.

(** [C28] The dashboard shows the server's statistics object as it is,
    and splits the quizzes the server lists into active and inactive ones
    (their sum is the number of stored quizzes, not [total_quizzes]); it
    changes nothing on the server. *)
Theorem dashboard_counts p :
  let s := backend p in
  let quizzes := JsObject.values (quizzesStore s) in
  exists v,
    mainContent (Dashboard.render p) = SDashboard v /\
    dv_stats v = statsStore s /\
    dv_active v = length (filter (fun q => Quiz.is_active q = true) quizzes) /\
    (dv_active v + dv_inactive v)%nat = length quizzes /\
    backend (Dashboard.render p) = s.
Proof.
  intros s quizzes. unfold Dashboard.render, Dashboard.loaded.
  rewrite call_getStats, call_getQuizzes. simpl.
  eexists. split; [reflexivity|]. simpl.
  rewrite filter_active_safe_view, length_map.
  pose proof (length_filter (fun q => Quiz.is_active q = true) quizzes).
  subst s quizzes. repeat split; lia.
Qed.

Lemma creator_steps_preserve_wf_witness :
  creator_wf (creator (QuizCreator.addQuestion demo_form_page)) /\
  creator_wf (creator (QuizCreator.removeQuestion 0 demo_form_page)) /\
  creator_wf (creator (QuizCreator.handleSubmit "admin" demo_form_page)).
Proof.
  apply (creator_steps_preserve_wf demo_form_page "admin" 0).
  repeat constructor.
Defined.

Lemma creator_submit_created_witness :
  mainContent (QuizCreator.handleSubmit "admin" demo_form_page) = SCreated.
Proof.
  refine (proj1 (creator_submit_created demo_form_page "admin" _ _ _ _ _)).
  - reflexivity.
  - discriminate.
  - discriminate.
  - discriminate.
  - simpl. lia.
Defined.
