(* ===== verification/App.v ===== *)
(** * The application shell ([src/frontend/js/app.js]) and the UI

    [app] keeps the current page, the selected quiz, the user's address
    and the admin flag; [goToPage] renders the component of a page (the
    creation page only for an admin, who gets a fresh form),
    [handleQuizSelect] hides the navigation tabs and opens the player, and
    [goBackToQuizzes] would show the tabs again.  [updateUI] derives the
    header (admin button, creation tab, active tab) from [app.state]; as
    every change of [app.state] is followed by [updateUI], the header is a
    function of the state ([header]).  The user's address is
    ['user_' + Math.random().toString(36).substr(2, 9)] ([random_address]),
    displayed once as its first twenty characters and ['...']
    ([address_text]).

    [ui_step] is the page's transition relation: one user action on a
    control the current screen offers (a nav tab, the admin button, a quiz
    card's play button, an option, a dot, Previous, Next, Submit, Back to
    Quizzes, an input of the creation form, Add, Remove, Create, Cancel),
    the creator's timer firing, a request of another browser reaching the
    shared server, or the clock moving.  Each action runs its handler to
    completion: the fetches of a handler are not interleaved with other
    actions (the responses of [fetch] arrive in order).

    The theorems show that the navigation tabs, once hidden by the choice
    of a quiz, are never shown again (no control calls
    [goBackToQuizzes]); that the creation page is entered only in admin
    mode; and, by induction over the reachable pages ([ui_inv] holds at
    [init] and after every enabled action), that the creation form never
    creates a quiz (its Add button is drawn disabled for the blank draft
    and never redrawn) and that the Submit control is enabled only with
    every question answered; a generated address has no slash and no
    dash (so the participant route and key take it as one segment) and is
    shown whole. *)

From S2P Require Import Prelude JsNumber JsObject Keys Model Server Lifecycle Client Frontend Player Creator.

(** The header that [updateUI] (lines 38-54) draws. *)
Record header_view := HeaderView {
  admin_button_text : string;
  create_tab_hidden : bool;
  active_tab : string
}.

(** The pages of the nav tabs (the cases of [goToPage]'s switch). *)
Definition nav_tabs : list string := ["quizzes"; "dashboard"; "create"].

Module App.
Definition header (a : app_state) : header_view :=
  HeaderView (if isAdmin a then "Admin Mode" else "User Mode") (negb (isAdmin a)) (currentPage a).

Definition with_page (pg : string) (a : app_state) : app_state :=
  AppState pg (selectedQuizId a) (userAddress a) (isAdmin a).

(** [goToPage(page)], lines 56-94.  For a non-admin the creation page
    calls [this.goToPage('quizzes')], which sets the page again and renders
    the list. *)
Definition goToPage (pg : string) (p : page) : page :=
  let p := set_app (with_page pg (app p)) p in
  if bool_decide (pg = "quizzes") then QuizList.render p
  else if bool_decide (pg = "dashboard") then Dashboard.render p
  else if bool_decide (pg = "create") then
    if isAdmin (app p) then QuizCreator.render (set_creator creator_reset p)
    else QuizList.render (set_app (with_page "quizzes" (app p)) p)
  else QuizList.render p.

(** [handleQuizSelect(quizId)], lines 96-106. *)
Definition handleQuizSelect (quizId : string) (p : page) : page :=
  let a := app p in
  let p := set_app (AppState "play" (Some quizId) (userAddress a) (isAdmin a)) p in
  let p := set_nav false p in
  QuizPlayer.render quizId p.

(** [goBackToQuizzes()], lines 108-114. *)
Definition goBackToQuizzes (p : page) : page :=
  goToPage "quizzes" (set_nav true p).

(** The admin button's listener, lines 27-31. *)
Definition toggleAdmin (p : page) : page :=
  let a := app p in
  set_app (AppState (currentPage a) (selectedQuizId a) (userAddress a) (negb (isAdmin a))) p.

(** [init()], lines 10-14, with the address drawn by [Math.random] on
    line 6 and the server as it is when the page loads. *)
Definition init (address : string) (s : server) : page :=
  goToPage "quizzes"
    (Page (AppState "quizzes" None address false) player_init creator_reset true
          (SLoading "") [] [] s).
End App.

(** ** User actions and other events *)

Inductive ui_event :=
| ClickTab (pg : string)
| ToggleAdmin
| SelectQuiz (quizId : string)
| ChooseOption (question index : nat)
| ClickDot (index : nat)
| ClickPrevious
| ClickNext
| ClickSubmit
| BackToQuizzes
| EditTitle (v : string)
| EditDescription (v : string)
| EditRewardPool (v : string)
| EditPassingScore (v : string)
| EditQuestionText (v : string)
| EditOption (index : nat) (v : string)
| MarkCorrect (index : nat)
| AddQuestion
| RemoveQuestion (index : nat)
| SubmitForm
| CancelForm
| TimerFires
| OtherClient (req : request)
| Tick (dt : N).

(** The constraints the creation form's inputs declare ([required],
    [type="number"] with [min]), which the browser checks before it fires
    [onsubmit]: a number input that does not hold a number reads as
    empty. *)
Definition number_at_least (v : string) (m : Z) : bool :=
  match parse_int v with Some n => (m <=? n)%Z | None => false end.

Definition form_valid (fd : form_data) : bool :=
  negb (bool_decide (fd_title fd = "")) && negb (bool_decide (fd_description fd = ""))
  && number_at_least (fd_reward_pool fd) 0 && number_at_least (fd_passing_score fd) 1.

(** Whether the current screen offers the action. *)
Definition enabled (ev : ui_event) (p : page) : bool :=
  match ev, mainContent p with
  | ClickTab pg, _ =>
      navVisible p && bool_decide (pg ∈ nav_tabs)
      && (negb (bool_decide (pg = "create")) || isAdmin (app p))
  | ToggleAdmin, _ => true
  | SelectQuiz id, SQuizList cards =>
      existsb (fun c => bool_decide (card_quiz_id c = id) && card_play_enabled c) cards
  | ChooseOption q i, SPlayer v =>
      bool_decide (S q = pv_number v) && bool_decide (i < length (pv_options v))
  | ClickDot i, SPlayer v => bool_decide (i < length (pv_dots v))
  | ClickPrevious, SPlayer v => pv_prev_enabled v
  | ClickNext, SPlayer v => negb (pv_on_last v)
  | ClickSubmit, SPlayer v => pv_on_last v && pv_submit_enabled v
  | BackToQuizzes, SResult _ => true
  | (EditTitle _ | EditDescription _ | EditRewardPool _ | EditPassingScore _
     | EditQuestionText _ | CancelForm), SCreator _ => true
  | EditOption i _, SCreator v => bool_decide (i < length (draft_options (cv_draft v)))
  | MarkCorrect i, SCreator v => bool_decide (i < length (draft_options (cv_draft v)))
  | AddQuestion, SCreator v => cv_add_enabled v
  | RemoveQuestion i, SCreator v => bool_decide (i < length (cv_questions v))
  | SubmitForm, SCreator v => cv_submit_enabled v && form_valid (cs_formData (creator p))
  | TimerFires, _ => bool_decide (timers p <> [])
  | OtherClient _, _ => true
  | Tick dt, _ => bool_decide (0 < dt)%N
  | _, _ => false
  end.

Definition edit_form (f : form_data -> form_data) (p : page) : page :=
  let cs := creator p in
  set_creator (QuizCreator.set_form (f (cs_formData cs)) cs) p.

Definition edit_draft (f : draft -> draft) (p : page) : page :=
  let cs := creator p in
  set_creator (QuizCreator.set_draft (f (cs_currentQuestion cs)) cs) p.

(** What the action does: the handler its control names.  The inputs'
    [onchange] handlers (lines 341-413) write the form state without
    re-rendering. *)
Definition run_event (ev : ui_event) (p : page) : page :=
  let u := userAddress (app p) in
  match ev with
  | ClickTab pg => App.goToPage pg p
  | ToggleAdmin => App.toggleAdmin p
  | SelectQuiz id => App.handleQuizSelect id p
  | ChooseOption q i => QuizPlayer.chooseOption q i p
  | ClickDot i => QuizPlayer.goToQuestion i p
  | ClickPrevious => QuizPlayer.previousQuestion p
  | ClickNext => QuizPlayer.nextQuestion p
  | ClickSubmit => QuizPlayer.submitQuiz u p
  | BackToQuizzes => App.goToPage "quizzes" p
  | EditTitle v => edit_form (fun fd => FormData v (fd_description fd) (fd_reward_pool fd)
                                                 (fd_passing_score fd) (fd_questions fd)) p
  | EditDescription v => edit_form (fun fd => FormData (fd_title fd) v (fd_reward_pool fd)
                                                       (fd_passing_score fd) (fd_questions fd)) p
  | EditRewardPool v => edit_form (fun fd => FormData (fd_title fd) (fd_description fd) v
                                                      (fd_passing_score fd) (fd_questions fd)) p
  | EditPassingScore v => edit_form (fun fd => FormData (fd_title fd) (fd_description fd)
                                                        (fd_reward_pool fd) v (fd_questions fd)) p
  | EditQuestionText v => edit_draft (fun d => Draft v (draft_options d) (draft_correct d)) p
  | EditOption i v => edit_draft (fun d => Draft (draft_text d) (<[i := v]> (draft_options d))
                                                 (draft_correct d)) p
  | MarkCorrect i => edit_draft (fun d => Draft (draft_text d) (draft_options d) i) p
  | AddQuestion => QuizCreator.addQuestion p
  | RemoveQuestion i => QuizCreator.removeQuestion i p
  | SubmitForm => QuizCreator.handleSubmit u p
  | CancelForm => App.goToPage "quizzes" p
  | TimerFires =>
      match timers p with
      | GoToQuizzesAfterCreate :: rest =>
          App.goToPage "quizzes"
            (Page (app p) (player p) (creator p) (navVisible p) (mainContent p) (alerts p)
                  rest (backend p))
      | [] => p
      end
  | OtherClient req => set_backend (handle req (backend p)).2 p
  | Tick dt => set_backend (tick dt (backend p)) p
  end.

Inductive ui_step : page -> page -> Prop :=
| UiStep ev p : enabled ev p = true -> ui_step p (run_event ev p).

(** The pages a user reaches from a fresh load. *)
Inductive reachable : page -> Prop :=
| reach_init address now : reachable (App.init address (server_init now))
| reach_step p p' : reachable p -> ui_step p p' -> reachable p'.

(** Runs a sequence of actions, each on a control the screen then offers. *)
Fixpoint run_events (evs : list ui_event) (p : page) : option page :=
  match evs with
  | [] => Some p
  | ev :: evs => if enabled ev p then run_events evs (run_event ev p) else None
  end.

(** What a screen promises about the state behind it: the question
    screen belongs to the loaded quiz, its question number and dots are in
    range, and an enabled Submit means every answer was set; the creation
    form, as any page shows it, has Add and Create disabled and no
    question; the confirmation of a created quiz never shows. *)
Definition screen_ok (ps : player_state) (sc : screen) : Prop :=
  match sc with
  | SPlayer v =>
      exists quiz, ps_quiz ps = Some quiz /\
        0 < pv_number v <= length (Quiz.questions quiz) /\
        length (pv_dots v) = length (Quiz.questions quiz) /\
        (pv_submit_enabled v = true -> Forall (fun a => a <> JNull) (ps_answers ps))
  | SCreator v => cv_add_enabled v = false /\ cv_submit_enabled v = false /\ cv_questions v = []
  | SCreated => False
  | _ => True
  end.

(** The invariant of the reachable pages. *)
Definition ui_inv (p : page) : Prop :=
  player_wf (player p) /\ fd_questions (cs_formData (creator p)) = [] /\
  cs_success (creator p) = false /\ timers p = [] /\ screen_ok (player p) (mainContent p).

(** A screen of the list, the dashboard, an error or a loading message. *)
Definition plain (sc : screen) : bool :=
  match sc with
  | SLoading _ | SError _ | SEmptyList | SQuizList _ | SDashboard _ => true
  | _ => false
  end.

(** Sessions for the witnesses: a browser loads the page at time 1000;
    in the first another client creates a one-question quiz, which the user
    plays; in the second the user opens the creation form and fills in a
    question. *)
Definition demo_start : page := App.init "bob" (server_init 1000).

Definition play_session : list ui_event :=
  [OtherClient (PostQuiz (JStr "Sums") (JStr "practice")
                         (Some [Question.mk (JStr "2+2?") demo_options (JNum 1)])
                         (JNum 10) (JNum 1) (JStr "admin"));
   ClickTab "quizzes"; SelectQuiz "1000"; ChooseOption 0 1; ClickDot 0].

Definition create_session : list ui_event :=
  [ToggleAdmin; ClickTab "create"; EditQuestionText "2+2?"; EditOption 0 "4";
   EditOption 1 "5"; EditOption 2 "3"; EditOption 3 "22"; EditTitle "Sums";
   EditDescription "practice"; EditRewardPool "10"; EditPassingScore "1"].

Definition after (evs : list ui_event) : page := default demo_start (run_events evs demo_start).

(** The initial [app.state.userAddress] (line 6):
    ['user_' + Math.random().toString(36).substr(2, 9)], where [r] is the
    base-36 rendering of the random number, ["0"] or ["0."] followed by
    its base-36 digits. *)
Definition random_address (r : string) : string := ("user_" ++ String.substring 2 9 r)%string.

(** A base-36 digit of [Number.prototype.toString(36)]: [0-9] or [a-z]. *)
Definition is_b36 (c : Ascii.ascii) : bool :=
  is_digit c || ((97 <=? Ascii.N_of_ascii c)%N && (Ascii.N_of_ascii c <=? 122)%N).

(** The address display set by [setupEventListeners] (lines 33-35):
    [userAddress.substr(0, 20) + '...']. *)
Definition address_text (a : app_state) : string := (String.substring 0 20 (userAddress a) ++ "...")%string.

(** ** Lemmas *)

(** The shell of the page: what only [app.js] writes. *)
Definition shell (p : page) : app_state * bool := (app p, navVisible p).

Ltac shell_tac :=
  intros; unfold shell, QuizPlayer.goToQuestion, QuizPlayer.previousQuestion,
    QuizPlayer.nextQuestion, QuizPlayer.submitQuiz, QuizPlayer.chooseOption,
    QuizCreator.addQuestion, QuizCreator.removeQuestion, QuizCreator.handleSubmit,
    QuizCreator.created, QuizPlayer.submitted, edit_form, edit_draft;
  unfold QuizList.render, QuizList.loaded, Dashboard.render, Dashboard.loaded, QuizCreator.render,
    QuizPlayer.render, QuizPlayer.loaded, QuizPlayer.rerender;
  repeat (case_match; simpl in *); reflexivity.

Lemma shell_list p : shell (QuizList.render p) = shell p.
Proof. shell_tac. Qed.
Lemma shell_dashboard p : shell (Dashboard.render p) = shell p.
Proof. shell_tac. Qed.
Lemma shell_creator_render p : shell (QuizCreator.render p) = shell p.
Proof. shell_tac. Qed.
Lemma shell_player_render id p : shell (QuizPlayer.render id p) = shell p.
Proof. shell_tac. Qed.
Lemma shell_rerender p : shell (QuizPlayer.rerender p) = shell p.
Proof. shell_tac. Qed.

(** Every action of a component leaves the shell as it is. *)
Lemma shell_component ev p :
  match ev with
  | ClickTab _ | ToggleAdmin | SelectQuiz _ | BackToQuizzes | CancelForm | TimerFires => False
  | _ => True
  end -> shell (run_event ev p) = shell p.
Proof.
  destruct ev; intros []; simpl; shell_tac.
Qed.

Lemma shell_nav p p' : shell p' = shell p -> navVisible p' = navVisible p.
Proof. unfold shell. by intros [= _ ->]. Qed.

Lemma shell_app p p' : shell p' = shell p -> app p' = app p.
Proof. unfold shell. by intros [= -> _]. Qed.

Lemma nav_list p : navVisible (QuizList.render p) = navVisible p.
Proof. exact (shell_nav _ _ (shell_list p)). Qed.
Lemma nav_dashboard p : navVisible (Dashboard.render p) = navVisible p.
Proof. exact (shell_nav _ _ (shell_dashboard p)). Qed.
Lemma nav_creator_render p : navVisible (QuizCreator.render p) = navVisible p.
Proof. exact (shell_nav _ _ (shell_creator_render p)). Qed.
Lemma nav_player_render id p : navVisible (QuizPlayer.render id p) = navVisible p.
Proof. exact (shell_nav _ _ (shell_player_render id p)). Qed.

Lemma nav_goToPage pg p : navVisible (App.goToPage pg p) = navVisible p.
Proof.
  unfold App.goToPage. repeat case_match;
    rewrite ?nav_list, ?nav_dashboard, ?nav_creator_render; reflexivity.
Qed.

(** No action shows hidden tabs again; choosing a quiz hides them. *)
Lemma nav_run_event ev p :
  navVisible p = false -> navVisible (run_event ev p) = false.
Proof.
  intros Hnav. destruct ev; try (erewrite shell_nav by (apply shell_component; exact I); done);
    simpl; rewrite ?nav_goToPage; try done.
  - unfold App.handleQuizSelect. by rewrite nav_player_render.
  - destruct (timers p) as [|[] ?]; simpl; [done|]. by rewrite nav_goToPage.
Qed.

Lemma nav_select id p : navVisible (run_event (SelectQuiz id) p) = false.
Proof. simpl. unfold App.handleQuizSelect. by rewrite nav_player_render. Qed.

Lemma tabs_need_nav pg p : navVisible p = false -> enabled (ClickTab pg) p = false.
Proof. intros H. simpl. by rewrite H. Qed.

Lemma nav_steps p p' : rtc ui_step p p' -> navVisible p = false -> navVisible p' = false.
Proof. induction 1 as [|x y z [ev ? _] _ IH]; [done|]. intros. by apply IH, nav_run_event. Qed.

(** [C22] The navigation tabs never come back: once the user chooses a
    quiz, [handleQuizSelect] hides them, and no action of any later page
    (Back to Quizzes and Cancel call [app.goToPage], not
    [app.goBackToQuizzes]) shows them again, so no nav tab can be clicked
    for the rest of the session. *)
Theorem nav_hidden_forever p id p' :
  rtc ui_step (run_event (SelectQuiz id) p) p' ->
  navVisible p' = false /\ forall pg, enabled (ClickTab pg) p' = false.
Proof.
  intros Hsteps.
  assert (navVisible p' = false) as Hnav by (eapply nav_steps; [done|apply nav_select]).
  split; [done|]. intros pg. by apply tabs_need_nav.
Qed.

Lemma app_list p : app (QuizList.render p) = app p.
Proof. exact (shell_app _ _ (shell_list p)). Qed.

(** The creation page is guarded by the admin flag when it is
    entered: for an admin, [goToPage('create')] resets the creator's form
    and shows it, with the creation tab shown and active; for anyone else
    it is [goToPage('quizzes')], the header in user mode with the
    creation tab hidden. *)
Theorem goToPage_create p :
  let p' := App.goToPage "create" p in
  if isAdmin (app p)
  then p' = set_main (SCreator (QuizCreator.view creator_reset))
              (set_creator creator_reset (set_app (App.with_page "create" (app p)) p)) /\
       App.header (app p') = HeaderView "Admin Mode" false "create"
  else p' = App.goToPage "quizzes" p /\
       App.header (app p') = HeaderView "User Mode" true "quizzes".
Proof.
  unfold App.goToPage. simpl. destruct (isAdmin (app p)) eqn:Ha.
  - rewrite render_form by done. simpl. split; [reflexivity|]. unfold App.header. simpl. by rewrite Ha.
  - split; [reflexivity|]. rewrite app_list. unfold App.header. simpl. by rewrite Ha.
Qed.

(** The state that the list and the dashboard leave as it is. *)
Definition rest (p : page) : player_state * creator_state * list timer :=
  (player p, creator p, timers p).

Lemma list_rest p : rest (QuizList.render p) = rest p /\ plain (mainContent (QuizList.render p)) = true.
Proof. unfold QuizList.render, QuizList.loaded. by repeat case_match. Qed.

Lemma dashboard_rest p :
  rest (Dashboard.render p) = rest p /\ plain (mainContent (Dashboard.render p)) = true.
Proof. unfold Dashboard.render, Dashboard.loaded. by repeat case_match. Qed.

Lemma inv_plain p p' :
  ui_inv p -> rest p' = rest p /\ plain (mainContent p') = true -> ui_inv p'.
Proof.
  unfold ui_inv, rest. intros (? & ? & ? & ? & _) [[= -> -> ->] Hplain].
  do 4 (split; [done|]). by destruct (mainContent p').
Qed.

Lemma inv_goToPage pg p : ui_inv p -> ui_inv (App.goToPage pg p).
Proof.
  intros Hinv. unfold App.goToPage.
  repeat case_match; try (eapply inv_plain; [|apply list_rest || apply dashboard_rest]; done).
  rewrite render_form by done. destruct Hinv as (? & _ & _ & ? & _). by repeat split.
Qed.

Lemma renderQuiz_ok ps sc : QuizPlayer.renderQuiz ps = Some sc -> screen_ok ps sc.
Proof.
  unfold QuizPlayer.renderQuiz, QuizPlayer.renderResult.
  destruct (ps_submitted ps && _); [by repeat case_match; intros [= <-]|].
  destruct (ps_quiz ps) as [quiz|] eqn:Hq; [|done].
  destruct (_ !! _) as [question|] eqn:Hlook; [|done].
  destruct (Question.options _); try done. intros [= <-]. simpl.
  exists quiz. apply lookup_lt_Some in Hlook.
  rewrite length_imap. split; [done|]. split; [lia|]. split; [done|].
  apply forallb_not_null.
Qed.

Lemma inv_set_player ps sc p :
  ui_inv p -> player_wf ps -> screen_ok ps sc -> ui_inv (set_main sc (set_player ps p)).
Proof. by intros (_ & ? & ? & ? & _) ? ?. Qed.

Lemma inv_loading s m p : ui_inv p -> ui_inv (set_backend s (set_main (SLoading m) p)).
Proof. intros Hinv. by eapply inv_plain. Qed.

(** What [QuizPlayer.render] does once its quiz arrives keeps the
    invariant, on whatever page the response finds. *)
Lemma inv_quiz_loaded r p : ui_inv p -> ui_inv (QuizPlayer.loaded r p).
Proof.
  intros Hinv. unfold QuizPlayer.loaded.
  destruct r as [data|msg]; [|eapply inv_plain; [exact Hinv|done]].
  destruct data; try (eapply inv_plain; [exact Hinv|done]).
  destruct (QuizPlayer.renderQuiz _) as [sc|] eqn:Hr.
  - apply inv_set_player; [done| |by apply renderQuiz_ok].
    unfold player_wf. simpl. rewrite length_replicate. by split; [|right].
  - destruct Hinv as (_ & ? & ? & ? & _). split; [|done].
    unfold player_wf. simpl. rewrite length_replicate. by split; [|right].
Qed.

Lemma inv_player_render id p : ui_inv p -> ui_inv (QuizPlayer.render id p).
Proof.
  intros Hinv. unfold QuizPlayer.render.
  destruct (call _ _) as [r s']. by apply inv_quiz_loaded, inv_loading.
Qed.

Lemma inv_rerender p : ui_inv p -> ui_inv (QuizPlayer.rerender p).
Proof.
  unfold QuizPlayer.rerender. destruct (QuizPlayer.renderQuiz _) eqn:Hr; [|done].
  intros (? & ? & ? & ? & _). do 4 (split; [done|]). by apply renderQuiz_ok.
Qed.

(** Moving to question [cur] of the loaded quiz keeps the invariant. *)
Lemma inv_with_current cur p :
  ui_inv p -> in_quiz (player p) cur ->
  ui_inv (QuizPlayer.rerender (set_player (QuizPlayer.with_current cur (player p)) p)).
Proof.
  intros (Hwf & ? & ? & ? & Hsc) Hcur. apply inv_rerender.
  split; [|by repeat split].
  unfold player_wf, in_quiz in *. simpl. destruct (ps_quiz _); [|done].
  destruct Hwf. split; [done|by left].
Qed.

Lemma Forall_js_array_set (P : jsval -> Prop) l i v :
  i < length l -> Forall P l -> P v -> Forall P (js_array_set l i v).
Proof. intros Hi ? ?. unfold js_array_set. rewrite decide_True by done. by apply Forall_insert. Qed.

Lemma renderResult_result ps sc : QuizPlayer.renderResult ps = Some sc -> exists v, sc = SResult v.
Proof. unfold QuizPlayer.renderResult. repeat case_match; intros [= <-]; by eexists. Qed.

(** What [submitQuiz] does once the play response arrives keeps the
    invariant, whichever quiz the page holds by then. *)
Lemma inv_submitted r p : ui_inv p -> ui_inv (QuizPlayer.submitted r p).
Proof.
  intros Hinv. unfold QuizPlayer.submitted.
  destruct r as [data|msg]; [|exact Hinv].
  destruct Hinv as (Hwf & ? & ? & ? & Hsc).
  assert (player_wf (PlayerState (ps_quiz (player p)) (ps_answers (player p))
                                 (ps_currentQuestion (player p)) true (Some data))).
  { unfold player_wf in *. simpl. by destruct (ps_quiz (player p)). }
  destruct (QuizPlayer.renderResult _) as [sc|] eqn:Hr.
  - apply renderResult_result in Hr as [v ->]. by repeat split.
  - split; [done|]. do 3 (split; [done|]). simpl.
    destruct (mainContent p); try done.
Qed.

Lemma inv_backend s p : ui_inv p -> ui_inv (set_backend s p).
Proof. done. Qed.

Lemma inv_submit u p : ui_inv p -> ui_inv (QuizPlayer.submitQuiz u p).
Proof.
  intros Hinv. unfold QuizPlayer.submitQuiz.
  destruct (ps_quiz (player p)) as [quiz|]; [|exact Hinv].
  destruct (call _ _) as [r s']. by apply inv_submitted, inv_backend.
Qed.

Lemma inv_chooseOption q i p v :
  ui_inv p -> mainContent p = SPlayer v -> S q = pv_number v ->
  ui_inv (QuizPlayer.chooseOption q i p).
Proof.
  intros (Hwf & ? & ? & ? & Hsc) Hmain Hq. rewrite Hmain in Hsc.
  destruct Hsc as (quiz & Hquiz & Hnum & Hdots & Hsub).
  unfold player_wf in Hwf. rewrite Hquiz in Hwf. destruct Hwf as [Hlen Hcur].
  assert (q < length (ps_answers (player p))) by lia.
  split; [|do 3 (split; [done|])].
  - unfold player_wf. simpl. rewrite Hquiz, js_array_set_length by done. by split.
  - simpl. rewrite Hmain. exists quiz. do 3 (split; [done|]).
    intros Hen. apply Forall_js_array_set; [done|by apply Hsub|discriminate].
Qed.

Lemma screen_in_quiz p v i :
  ui_inv p -> mainContent p = SPlayer v -> i < length (pv_dots v) -> in_quiz (player p) i.
Proof.
  intros (_ & _ & _ & _ & Hsc) Hm Hi. rewrite Hm in Hsc.
  destruct Hsc as (quiz & Hq & _ & Hdots & _). unfold in_quiz. rewrite Hq. lia.
Qed.

Lemma inv_previous p : ui_inv p -> ui_inv (QuizPlayer.previousQuestion p).
Proof.
  intros Hinv. unfold QuizPlayer.previousQuestion. case_bool_decide; [|done].
  apply inv_with_current; [done|]. destruct Hinv as (Hwf & _).
  unfold player_wf, in_quiz in *. destruct (ps_quiz _); [|done]. lia.
Qed.

Lemma inv_next p : ui_inv p -> ui_inv (QuizPlayer.nextQuestion p).
Proof.
  intros Hinv. unfold QuizPlayer.nextQuestion.
  destruct (ps_quiz (player p)) as [quiz|] eqn:Hq; [|done]. case_bool_decide; [|done].
  apply inv_with_current; [done|]. unfold in_quiz. rewrite Hq. lia.
Qed.

(** Every action a screen offers keeps the invariant. *)
Lemma ui_inv_step ev p : ui_inv p -> enabled ev p = true -> ui_inv (run_event ev p).
Proof.
  intros Hinv Hen. pose proof Hinv as (_ & _ & _ & Htimers & Hsc).
  destruct ev; simpl in Hen |- *;
    try (by apply inv_goToPage); try exact Hinv; try (rewrite Htimers; exact Hinv);
    try (destruct (mainContent p) eqn:Hm; try done; simpl in Hsc).
  - unfold App.handleQuizSelect. by apply inv_player_render.
  - apply andb_prop in Hen as [?%bool_decide_eq_true _]. by eapply inv_chooseOption.
  - apply bool_decide_eq_true in Hen. apply inv_with_current; [done|].
    by eapply screen_in_quiz.
  - by apply inv_previous.
  - by apply inv_next.
  - by apply inv_submit.
  - destruct Hsc as (Hadd & _). congruence.
  - destruct Hsc as (_ & _ & Hq). rewrite Hq in Hen. apply bool_decide_eq_true in Hen.
    simpl in Hen. lia.
  - destruct Hsc as (_ & Hsub & _). rewrite Hsub in Hen. done.
Qed.

Lemma ui_inv_init address s : ui_inv (App.init address s).
Proof. apply inv_goToPage. by repeat split. Qed.

Lemma reachable_ui_inv p : reachable p -> ui_inv p.
Proof.
  induction 1 as [|p p' _ IH Hstep]; [apply ui_inv_init|].
  destruct Hstep as [ev p Hen]. by apply ui_inv_step.
Qed.

Lemma run_events_reachable evs p p' :
  reachable p -> run_events evs p = Some p' -> reachable p'.
Proof.
  revert p. induction evs as [|ev evs IH]; simpl; intros p Hp; [by intros [= <-]|].
  destruct (enabled ev p) eqn:Hen; [|done].
  apply IH. eapply reach_step; [done|]. by constructor.
Qed.

(** [C8] The creation form never creates a quiz.  [render] computes the
    disabled state of "Add This Question" from the draft's text when it
    draws the form, [goToPage('create')] draws it with a blank draft, and
    typing into the inputs only runs their [onchange] handlers, which do
    not redraw: on every page a user reaches, Add and Create are disabled,
    no question was added, and the success screen with its timer never
    comes.  Quizzes are created only by requests of other clients. *)
Theorem creator_never_submits p :
  reachable p ->
  enabled AddQuestion p = false /\ enabled SubmitForm p = false /\
  fd_questions (cs_formData (creator p)) = [] /\ cs_success (creator p) = false /\
  mainContent p <> SCreated /\ timers p = [].
Proof.
  intros (_ & Hq & Hs & Ht & Hsc)%reachable_ui_inv. simpl.
  destruct (mainContent p); simpl in Hsc; try done.
  destruct Hsc as (-> & -> & _). done.
Qed.

(** [C21] On every page a user reaches, an enabled Submit button means the
    player holds the loaded quiz with one answer per question, none of
    them [null]: Submit is drawn disabled while an answer is missing, and
    choosing an option only fills answers in. *)
Theorem submit_enabled_complete p :
  reachable p -> enabled ClickSubmit p = true ->
  exists quiz, ps_quiz (player p) = Some quiz /\
    length (ps_answers (player p)) = length (Quiz.questions quiz) /\
    Forall (fun a => a <> JNull) (ps_answers (player p)).
Proof.
  intros (Hwf & _ & _ & _ & Hsc)%reachable_ui_inv Hen. simpl in Hen.
  destruct (mainContent p) as [| | | |v| | | |]; try done. simpl in Hsc.
  destruct Hsc as (quiz & Hq & _ & _ & Hsub). apply andb_prop in Hen as [_ Hen].
  unfold player_wf in Hwf. rewrite Hq in Hwf. exists quiz. split; [done|]. split; [apply Hwf|].
  by apply Hsub.
Qed.

Lemma after_reachable evs : run_events evs demo_start = Some (after evs) -> reachable (after evs).
Proof. intros. eapply run_events_reachable; [apply (reach_init "bob" 1000)|done]. Qed.

Lemma nav_hidden_forever_witness :
  navVisible (run_event ClickNext (run_event (SelectQuiz "1000") (demo_page demo_questions))) = false /\
  forall pg, enabled (ClickTab pg)
               (run_event ClickNext (run_event (SelectQuiz "1000") (demo_page demo_questions))) = false.
Proof.
  apply (nav_hidden_forever (demo_page demo_questions) "1000").
  apply rtc_once. apply UiStep. vm_compute. reflexivity.
Defined.

Lemma creator_never_submits_witness :
  complete (cs_currentQuestion (creator (after create_session))) = true /\
  enabled AddQuestion (after create_session) = false.
Proof.
  split; [vm_compute; reflexivity|].
  apply (creator_never_submits (after create_session)).
  apply after_reachable. vm_compute. reflexivity.
Defined.

Lemma submit_enabled_complete_witness :
  exists quiz, ps_quiz (player (after play_session)) = Some quiz /\
    length (ps_answers (player (after play_session))) = length (Quiz.questions quiz) /\
    Forall (fun a => a <> JNull) (ps_answers (player (after play_session))).
Proof.
  apply (submit_enabled_complete (after play_session)).
  - apply after_reachable. vm_compute. reflexivity.
  - vm_compute. reflexivity.
Defined.

Lemma substring_all_chars p n m s :
  all_chars p s = true -> all_chars p (String.substring n m s) = true.
Proof.
  revert n m. induction s as [|c s IH]; intros [|n] [|m]; simpl; try done.
  - intros [-> Hs]%andb_prop. simpl. by apply IH.
  - intros [_ Hs]%andb_prop. by apply IH.
  - intros [_ Hs]%andb_prop. by apply IH.
Qed.

Lemma length_substring_le n m s : String.length (String.substring n m s) <= m.
Proof.
  revert n m. induction s as [|c s IH]; intros [|n] [|m]; simpl; try lia.
  - specialize (IH 0 m). lia.
  - apply IH.
  - apply IH.
Qed.

Lemma substring_whole m s : String.length s <= m -> String.substring 0 m s = s.
Proof.
  revert m. induction s as [|c s IH]; intros [|m]; simpl; try done; [lia|].
  intros Hl. f_equal. apply IH. lia.
Qed.

Lemma has_slash_app a b : has_slash (a ++ b) = has_slash a || has_slash b.
Proof. induction a as [|c a IH]; [done|]. simpl. by rewrite IH, orb_assoc. Qed.

Lemma has_dash_app a b : has_dash (a ++ b) = has_dash a || has_dash b.
Proof. induction a as [|c a IH]; [done|]. simpl. by rewrite IH, orb_assoc. Qed.

Lemma b36_no_slash_dash s :
  all_chars is_b36 s = true -> has_slash s = false /\ has_dash s = false.
Proof.
  induction s as [|c s IH]; simpl; [done|]. intros [Hc Hs]%andb_prop.
  destruct (IH Hs) as [-> ->].
  assert (H : forall k, is_b36 k = false -> Ascii.eqb c k = false).
  { intros k Hk. destruct (Ascii.eqb_spec c k); [subst; congruence|done]. }
  by rewrite !H.
Qed.

(** The generated address is one the routes and the participation key
    handle: no slash, no dash, non-empty, and short enough for the header
    to show it whole. *)
Lemma random_address_ok ds :
  all_chars is_b36 ds = true ->
  has_slash (random_address ("0." ++ ds)) = false /\ has_dash (random_address ("0." ++ ds)) = false /\
  random_address ("0." ++ ds) <> ""%string /\
  forall a, userAddress a = random_address ("0." ++ ds) ->
            address_text a = (random_address ("0." ++ ds) ++ "...")%string.
Proof.
  intros Hds.
  assert (Hr : random_address ("0." ++ ds) = ("user_" ++ String.substring 0 9 ds)%string)
    by reflexivity.
  destruct (b36_no_slash_dash (String.substring 0 9 ds)) as [Hs Hd]; [by apply substring_all_chars|].
  rewrite Hr, has_slash_app, has_dash_app, Hs, Hd. do 3 (split; [done|]).
  intros a Ha. unfold address_text. rewrite Ha, substring_whole; [done|].
  change (5 + String.length (String.substring 0 9 ds) <= 20).
  pose proof (length_substring_le 0 9 ds). lia.
Qed.

(** A page whose user has a generated address reads the user's record
    through the participant route it means. *)
Lemma random_address_routes ds quizId :
  all_chars is_b36 ds = true -> has_slash quizId = false -> quizId <> ""%string ->
  routed (quizAPI.getParticipantScore (random_address ("0." ++ ds)) quizId) =
    Some (GetParticipant (random_address ("0." ++ ds)) quizId).
Proof.
  intros Hds Hs Hn. destruct (random_address_ok ds Hds) as (Ha & _ & Hne & _).
  by apply route_getParticipantScore.
Qed.
