(* ===== verification/Session.v ===== *)
(** * A browser session against the shared server

    Every request the page sends goes through [quizAPI] and [apiCall] to
    one route of the server, and other clients' requests and the clock
    come between actions: the server behind a reachable page is a
    reachable server ([steps_event], [reachable_backend]).  [session_inv]
    couples the page with the server: the server's invariant holds, the
    player's quiz carries an id the server generated (so its URLs route to
    the routes they name), a submitted quiz has the user's record on the
    server, and the result screen shows only after a submission.  It holds
    on every page reachable by [ui_step], which gives the end-to-end
    theorem: a result on screen means the attempt is recorded, whatever
    happened since.  [ui_step] runs each method to completion; the
    schedules with requests in flight of [Async] break this theorem.
*)

From S2P Require Import Prelude JsNumber JsObject Keys Model Server Lifecycle Client Frontend Player Creator App.

(** The server behind the page holds the user's attempt at [quiz]: its
    record under [`${userAddress}-${quiz.quiz_id}`] is played or rewarded. *)
Definition recorded (p : page) (quiz : Quiz.t) : Prop :=
  phase_of (backend p) (participant_key (userAddress (app p)) (Quiz.quiz_id quiz)) <> NotPlayed.

(** What a session keeps true: the server's invariant, the player's quiz
    has an id the server generated, a submitted quiz has the user's record
    on the server, and the result screen shows only after a submission. *)
Definition session_inv (p : page) : Prop :=
  server_inv (backend p) /\
  (forall quiz, ps_quiz (player p) = Some quiz -> exists now, Quiz.quiz_id quiz = quiz_id_of now) /\
  (ps_submitted (player p) = true ->
     exists quiz, ps_quiz (player p) = Some quiz /\ recorded p quiz) /\
  (forall v, mainContent p = SResult v -> ps_submitted (player p) = true).

(** ** Lemmas *)

(** A [quizAPI] call runs at most one route. *)
Lemma call_steps c s : rtc server_step s (call c s).2.
Proof.
  unfold call, apiCall, express.
  destruct (express_route _) as [req|]; simpl; [|done].
  destruct (handle req s) as [r s'] eqn:Hh. apply rtc_once.
  replace s' with (handle req s).2 by (by rewrite Hh).
  destruct (response_ok _); apply step_request.
Qed.

(** Runs the calls of a component's method: each one extends the run of
    the server by the route it reaches. *)
Ltac calls_steps :=
  repeat match goal with
  | |- context [call ?c ?s] =>
      let H := fresh "Hcall" in
      pose proof (call_steps c s) as H;
      destruct (call c s) as [? ?]; simpl in H
  | |- context [match ?x with _ => _ end] => destruct x
  end; simpl;
  try (etrans; [eassumption|]); try eassumption; try reflexivity.

Lemma steps_list p : rtc server_step (backend p) (backend (QuizList.render p)).
Proof. unfold QuizList.render, QuizList.loaded. calls_steps. Qed.

Lemma steps_dashboard p : rtc server_step (backend p) (backend (Dashboard.render p)).
Proof. unfold Dashboard.render, Dashboard.loaded. calls_steps. Qed.

Lemma steps_goToPage pg p : rtc server_step (backend p) (backend (App.goToPage pg p)).
Proof.
  unfold App.goToPage. repeat case_match; rewrite ?render_backend; try reflexivity;
    lazymatch goal with
    | |- rtc _ _ (backend (QuizList.render ?q)) => exact (steps_list q)
    | |- rtc _ _ (backend (Dashboard.render ?q)) => exact (steps_dashboard q)
    end.
Qed.

Lemma steps_player_render id p : rtc server_step (backend p) (backend (QuizPlayer.render id p)).
Proof. unfold QuizPlayer.render, QuizPlayer.loaded. calls_steps. Qed.

Lemma rerender_backend p : backend (QuizPlayer.rerender p) = backend p.
Proof. unfold QuizPlayer.rerender. by case_match. Qed.

Lemma steps_submit u p : rtc server_step (backend p) (backend (QuizPlayer.submitQuiz u p)).
Proof. unfold QuizPlayer.submitQuiz, QuizPlayer.submitted. calls_steps. Qed.

Lemma steps_handleSubmit u p :
  rtc server_step (backend p) (backend (QuizCreator.handleSubmit u p)).
Proof. unfold QuizCreator.handleSubmit, QuizCreator.created. calls_steps; rewrite ?render_backend in *; calls_steps. Qed.

(** Closes [rtc server_step (backend p) (backend (f q))] for a method [f]
    of a component, whatever page [q] the handler built from [p]. *)
Ltac by_steps :=
  lazymatch goal with
  | |- rtc _ _ (backend (QuizList.render ?q)) => exact (steps_list q)
  | |- rtc _ _ (backend (Dashboard.render ?q)) => exact (steps_dashboard q)
  | |- rtc _ _ (backend (QuizPlayer.render ?i ?q)) => exact (steps_player_render i q)
  | |- rtc _ _ (backend (QuizPlayer.submitQuiz ?u ?q)) => exact (steps_submit u q)
  | |- rtc _ _ (backend (QuizCreator.handleSubmit ?u ?q)) => exact (steps_handleSubmit u q)
  | |- rtc _ _ (backend (App.goToPage ?g ?q)) => exact (steps_goToPage g q)
  end.

(** Every enabled action runs the server on: through the routes its
    calls reach, another client's request, or a clock tick. *)
Lemma steps_event ev p :
  enabled ev p = true -> rtc server_step (backend p) (backend (run_event ev p)).
Proof.
  intros Hen. destruct ev; simpl in Hen |- *; try reflexivity; try by_steps.
  - unfold App.handleQuizSelect. by_steps.
  - unfold QuizPlayer.goToQuestion. by rewrite rerender_backend.
  - unfold QuizPlayer.previousQuestion. clear Hen. case_match; by rewrite ?rerender_backend.
  - unfold QuizPlayer.nextQuestion. clear Hen. repeat case_match; by rewrite ?rerender_backend.
  - unfold QuizCreator.addQuestion. clear Hen. case_match; [done|]. by rewrite render_backend.
  - unfold QuizCreator.removeQuestion. by rewrite render_backend.
  - destruct (timers p) as [|[] ?]; [done|]. by_steps.
  - apply rtc_once, step_request.
  - apply rtc_once, step_tick. by apply bool_decide_eq_true in Hen.
Qed.

Lemma server_reachable_steps s s' :
  server_reachable s -> rtc server_step s s' -> server_reachable s'.
Proof. intros Hs Hsteps. induction Hsteps; [done|]. eauto using sreach_step. Qed.

Lemma ui_step_backend p p' : ui_step p p' -> rtc server_step (backend p) (backend p').
Proof. destruct 1. by apply steps_event. Qed.

Lemma reachable_backend p : reachable p -> server_reachable (backend p).
Proof.
  induction 1 as [address now|p p' _ IH Hstep].
  - eapply server_reachable_steps; [apply (sreach_init now)|]. unfold App.init. by_steps.
  - eapply server_reachable_steps; [exact IH|]. by apply ui_step_backend.
Qed.

(** Only [GET /api/quizzes/:quizId] answers with one quiz: the public view
    of a stored quiz. *)
Lemma handle_BQuiz req s st q :
  (handle req s).1 = Response st (BQuiz q) ->
  exists k q0, (quizzesStore s).[k] = Some q0 /\ q = Quiz.safe_view q0.
Proof.
  destruct req; run_route; repeat (case_match; simpl in *); intros;
    unfold ok, fail, internal_error in *; simplify_eq; eauto.
Qed.

Lemma call_BQuiz c s q s' :
  call c s = (ApiOk (BQuiz q), s') ->
  exists k q0, (quizzesStore s).[k] = Some q0 /\ q = Quiz.safe_view q0.
Proof.
  unfold call, apiCall, express. destruct (express_route _) as [req|]; simpl; [|done].
  destruct (handle req s) as [[st pl] s''] eqn:Hh. simpl.
  destruct (response_ok st); [|done]. intros [= ->]. eapply handle_BQuiz.
  rewrite Hh. reflexivity.
Qed.

(** A play the client sees succeed has stored the user's record. *)
Lemma call_play_recorded id u ans s d s' :
  has_slash id = false -> id <> ""%string ->
  call (quizAPI.playQuiz id u ans) s = (ApiOk d, s') ->
  phase_of s' (participant_key u id) <> NotPlayed.
Proof.
  intros Hs Hn. rewrite (call_routed _ _ _ (route_playQuiz _ _ _ Hs Hn)), handle_play.
  destruct ((quizzesStore s).[id]) as [quiz|]; [|by intros [=]].
  destruct (Quiz.is_active quiz); [|by intros [=]]. simpl.
  case_bool_decide; [|by intros [=]]. simpl. case_bool_decide; [by intros [=]|]. simpl.
  intros [= _ <-]. erewrite phase_of_set by reflexivity. by rewrite decide_True.
Qed.

Lemma inv_steps s s' : rtc server_step s s' -> server_inv s -> server_inv s'.
Proof. induction 1; eauto using inv_step. Qed.

(** An action that keeps the player's quiz, its submission flag and the
    user, runs the server on and shows a result only after a submission
    keeps the session's invariant. *)
Lemma session_frame p p' :
  session_inv p ->
  ps_quiz (player p') = ps_quiz (player p) ->
  ps_submitted (player p') = ps_submitted (player p) ->
  userAddress (app p') = userAddress (app p) ->
  rtc server_step (backend p) (backend p') ->
  (forall v, mainContent p' = SResult v -> ps_submitted (player p') = true) ->
  session_inv p'.
Proof.
  intros (Hs & Hids & Hsub & _) Hq Hsb Hu Hsteps Hres. rewrite Hsb in Hres.
  split; [by eapply inv_steps|]. unfold recorded. rewrite Hq, Hsb, Hu.
  split; [done|]. split; [|done].
  intros (quiz & Hquiz & Hph)%Hsub. exists quiz. split; [done|].
  by eapply phase_played_steps.
Qed.

Lemma list_frame p :
  player (QuizList.render p) = player p /\ app (QuizList.render p) = app p /\
  plain (mainContent (QuizList.render p)) = true.
Proof. unfold QuizList.render, QuizList.loaded. by repeat case_match. Qed.

Lemma dashboard_frame p :
  player (Dashboard.render p) = player p /\ app (Dashboard.render p) = app p /\
  plain (mainContent (Dashboard.render p)) = true.
Proof. unfold Dashboard.render, Dashboard.loaded. by repeat case_match. Qed.

Lemma goToPage_frame pg p :
  player (App.goToPage pg p) = player p /\
  userAddress (app (App.goToPage pg p)) = userAddress (app p) /\
  forall v, mainContent (App.goToPage pg p) <> SResult v.
Proof.
  unfold App.goToPage.
  repeat case_match; try (rewrite render_form by done; done);
    lazymatch goal with
    | |- context [QuizList.render ?q] => destruct (list_frame q) as (-> & -> & Hpl)
    | |- context [Dashboard.render ?q] => destruct (dashboard_frame q) as (-> & -> & Hpl)
    end; (split; [done|]); (split; [done|]);
    intros v Hv; rewrite Hv in Hpl; discriminate.
Qed.

Lemma session_goToPage pg p : session_inv p -> session_inv (App.goToPage pg p).
Proof.
  intros Hinv. destruct (goToPage_frame pg p) as (Hp & Hu & Hr).
  apply (session_frame p); rewrite ?Hp; try done; [apply steps_goToPage|].
  intros v Hv. by destruct (Hr v).
Qed.

Lemma renderQuiz_result ps v :
  QuizPlayer.renderQuiz ps = Some (SResult v) -> ps_submitted ps = true.
Proof.
  unfold QuizPlayer.renderQuiz. destruct (ps_submitted ps); [done|]. simpl.
  by repeat case_match.
Qed.

Lemma rerender_result p v :
  mainContent (QuizPlayer.rerender p) = SResult v ->
  ps_submitted (player p) = true \/ mainContent p = SResult v.
Proof.
  unfold QuizPlayer.rerender. destruct (QuizPlayer.renderQuiz _) eqn:Hr; [|by right].
  simpl. intros ->. left. by eapply renderQuiz_result.
Qed.

(** Moving among the questions keeps the session's invariant. *)
Lemma session_with_current cur p :
  session_inv p ->
  session_inv (QuizPlayer.rerender (set_player (QuizPlayer.with_current cur (player p)) p)).
Proof.
  intros Hinv. pose proof Hinv as (_ & _ & _ & Hres).
  apply (session_frame p);
    rewrite ?rerender_player, ?rerender_backend, ?(shell_app _ _ (shell_rerender _)); try done.
  intros v Hv. apply rerender_result in Hv as [Hs|Hm]; [exact Hs|exact (Hres v Hm)].
Qed.

Lemma session_select id p : session_inv p -> session_inv (App.handleQuizSelect id p).
Proof.
  intros Hinv. pose proof Hinv as (Hs & _ & _ & Hres).
  unfold App.handleQuizSelect, QuizPlayer.render, QuizPlayer.loaded.
  pose proof (call_steps (quizAPI.getQuiz id) (backend p)) as Hsteps.
  destruct (call _ _) as [[data|msg] s'] eqn:Hc; simpl in Hsteps;
    [|by apply (session_frame p)].
  destruct data as [| | |quiz| | | | | | |]; try by apply (session_frame p).
  destruct (call_BQuiz _ _ _ _ Hc) as (k & q0 & Hk & ->).
  assert (Hs' : server_inv s') by (by eapply inv_steps).
  destruct (inv_quiz_ids _ Hs k q0 Hk) as [Hid Hgen].
  destruct (QuizPlayer.renderQuiz _) as [sc|] eqn:Hr;
    (split; [exact Hs'|]); (split; [intros quiz [= <-]; simpl; by rewrite Hid|]);
    (split; [done|]); simpl; [|done].
  intros v ->. by apply renderQuiz_result in Hr.
Qed.

Lemma session_submit p : session_inv p -> session_inv (QuizPlayer.submitQuiz (userAddress (app p)) p).
Proof.
  intros Hinv. pose proof Hinv as (Hs & Hids & _ & Hres).
  unfold QuizPlayer.submitQuiz, QuizPlayer.submitted.
  destruct (ps_quiz (player p)) as [quiz|] eqn:Hq; [|apply (session_frame p); try done; exact Hres].
  pose proof (call_steps (quizAPI.playQuiz (Quiz.quiz_id quiz) (userAddress (app p))
                                           (ps_answers (player p))) (backend p)) as Hsteps.
  destruct (call _ _) as [[data|msg] s'] eqn:Hc; simpl in Hsteps;
    [|apply (session_frame p); try done; exact Hres].
  destruct (Hids quiz eq_refl) as [now Hnow].
  apply call_play_recorded in Hc; rewrite ?Hnow; [|apply quiz_id_no_slash|apply quiz_id_nonempty].
  assert (Hs' : server_inv s') by (by eapply inv_steps).
  cbn [player set_backend]. rewrite Hq.
  destruct (QuizPlayer.renderResult _);
    (split; [exact Hs'|]); simpl; (split; [intros q [= <-]; by exists now|]);
    (split; [intros _; by exists quiz|]); done.
Qed.

(** The creator's methods leave the player and the user as they are and
    never show a result. *)
Lemma creator_frame ev p :
  match ev with AddQuestion | RemoveQuestion _ | SubmitForm => True | _ => False end ->
  player (run_event ev p) = player p /\ app (run_event ev p) = app p /\
  (forall v, mainContent (run_event ev p) = SResult v -> mainContent p = SResult v).
Proof.
  destruct ev; intros []; simpl;
    unfold QuizCreator.addQuestion, QuizCreator.removeQuestion, QuizCreator.handleSubmit, QuizCreator.created;
    unfold QuizCreator.render; repeat (case_match; simpl in *); done.
Qed.

Lemma session_creator ev p :
  match ev with AddQuestion | RemoveQuestion _ | SubmitForm => True | _ => False end ->
  session_inv p -> rtc server_step (backend p) (backend (run_event ev p)) ->
  session_inv (run_event ev p).
Proof.
  intros Hev Hinv Hsteps. pose proof Hinv as (_ & _ & _ & Hres).
  destruct (creator_frame ev p Hev) as (Hp & Ha & Hr).
  apply (session_frame p); rewrite ?Hp, ?Ha; try done.
  intros v Hv. by apply (Hres v), Hr.
Qed.

(** Every enabled action keeps the session's invariant. *)
Lemma session_step ev p : session_inv p -> enabled ev p = true -> session_inv (run_event ev p).
Proof.
  intros Hinv Hen. pose proof Hinv as (_ & _ & _ & Hres).
  pose proof (steps_event ev p Hen) as Hsteps.
  destruct ev; try (by apply session_creator);
    simpl in Hsteps |- *; try (by apply session_goToPage);
    try (by apply (session_frame p); try exact Hres).
  - by apply session_select.
  - unfold QuizPlayer.goToQuestion. by apply session_with_current.
  - unfold QuizPlayer.previousQuestion. case_bool_decide; [by apply session_with_current|exact Hinv].
  - unfold QuizPlayer.nextQuestion. clear Hen.
    repeat case_match; [by apply session_with_current|exact Hinv..].
  - by apply session_submit.
  - destruct (timers p) as [|[] ?]; [exact Hinv|]. by apply session_goToPage.
Qed.

Lemma session_init address now : session_inv (App.init address (server_init now)).
Proof. apply session_goToPage. split; [apply inv_init|]. by repeat split. Qed.

Lemma reachable_session p : reachable p -> session_inv p.
Proof.
  induction 1 as [address now|p p' _ IH Hstep]; [apply session_init|].
  destruct Hstep as [ev p Hen]. by apply session_step.
Qed.

(** End to end, on the synchronous schedule of [ui_step] (each action's
    responses arrive before the next action): whenever the page shows the
    result of a quiz, the server holds the user's attempt for that quiz
    under the key [`${userAddress}-${quizId}`], played or already
    rewarded, whatever the user did since and whatever other clients
    sent.  With requests in flight this fails:
    [Async.late_play_response_misattributed] shows a result for a quiz
    the user never played. *)
Theorem result_screen_recorded p v :
  reachable p -> mainContent p = SResult v ->
  exists quiz, ps_quiz (player p) = Some quiz /\ recorded p quiz.
Proof. intros (_ & _ & Hsub & Hres)%reachable_session Hm. by apply Hsub, (Hres v). Qed.

