(* ===== verification/Lockout.v ===== *)
(** * A player page the user cannot leave

    The quiz list offers "Take Quiz" on every active quiz, also on one the
    user has already played (components.js lines 32-64), and the player
    screen hides the navigation tabs and has no control back to the list:
    only a successful submission leads to the result screen, whose button
    goes back (lines 206-215).  The play route refuses a second attempt
    (server.js line 143), so once the user re-opens a quiz they played,
    every submission fails with an alert and no sequence of actions, the
    other clients' requests and the clock included, ever shows anything
    but the player screen again; only reloading the page, which the model
    does not have, leaves it.

    [locked_out] is a predicate closed under [ui_step] ([locked_step]),
    the way a run is kept inside a set that no step leaves; the theorem
    follows by induction on [rtc ui_step]. *)

From S2P Require Import Prelude JsNumber JsObject Keys Model Server Lifecycle Client Frontend Player App Session.

(** The page shows the player with the navigation hidden and no pending
    timer, the loaded quiz is not submitted, its id routes to the play
    route, and the server holds the user's attempt at it. *)
Definition locked_out (p : page) : Prop :=
  navVisible p = false /\ timers p = [] /\ ps_submitted (player p) = false /\
  (exists v, mainContent p = SPlayer v) /\
  exists quiz, ps_quiz (player p) = Some quiz /\ has_slash (Quiz.quiz_id quiz) = false /\
               Quiz.quiz_id quiz <> ""%string /\ recorded p quiz.

(** ** Lemmas *)

(** The play route refuses a participant that already has a record. *)
Lemma call_play_refused id u ans s :
  has_slash id = false -> id <> ""%string ->
  phase_of s (participant_key u id) <> NotPlayed ->
  exists m, (call (quizAPI.playQuiz id u ans) s).1 = ApiErr m.
Proof.
  intros Hs Hn Hp. rewrite (call_routed _ _ _ (route_playQuiz _ _ _ Hs Hn)), handle_play.
  unfold phase_of in Hp.
  destruct ((quizzesStore s).[id]) as [quiz|]; [|by eexists].
  destruct (Quiz.is_active quiz); [|by eexists]. simpl.
  case_bool_decide; [|by eexists]. simpl.
  case_bool_decide as Hr; [by eexists|]. exfalso. apply Hr. simpl.
  destruct ((participantsStore s).[participant_key u id]); [by eexists|done].
Qed.

(** Rendering an unsubmitted player state shows the player or throws. *)
Lemma renderQuiz_unsubmitted ps sc :
  ps_submitted ps = false -> QuizPlayer.renderQuiz ps = Some sc -> exists v, sc = SPlayer v.
Proof.
  unfold QuizPlayer.renderQuiz. intros ->. simpl.
  repeat case_match; intros; simplify_eq; eauto.
Qed.

Lemma locked_rerender p : locked_out p -> locked_out (QuizPlayer.rerender p).
Proof.
  unfold QuizPlayer.rerender. destruct (QuizPlayer.renderQuiz _) as [sc|] eqn:Hr; [|done].
  intros (Hn & Ht & Hs & _ & Hq). apply renderQuiz_unsubmitted in Hr as [v ->]; [|done].
  unfold locked_out. simpl. eauto 7.
Qed.

(** A page whose server has run on keeps the user's attempt. *)
Lemma locked_backend p s :
  rtc server_step (backend p) s -> locked_out p -> locked_out (set_backend s p).
Proof.
  intros Hst (Hn & Ht & Hs & Hv & quiz & Hq & Hsl & Hne & Hr). unfold locked_out; simpl.
  do 4 (split; [done|]). exists quiz. do 3 (split; [done|]).
  eapply phase_played_steps; [exact Hst|exact Hr].
Qed.

Lemma locked_submit p : locked_out p -> locked_out (QuizPlayer.submitQuiz (userAddress (app p)) p).
Proof.
  intros Hl. pose proof Hl as (_ & _ & _ & _ & quiz & Hq & Hsl & Hne & Hr).
  unfold QuizPlayer.submitQuiz, QuizPlayer.submitted. rewrite Hq.
  destruct (call_play_refused (Quiz.quiz_id quiz) (userAddress (app p)) (ps_answers (player p))
              (backend p) Hsl Hne Hr) as [m Hm].
  pose proof (call_steps (quizAPI.playQuiz (Quiz.quiz_id quiz) (userAddress (app p))
                                           (ps_answers (player p))) (backend p)) as Hst.
  destruct (call _ _) as [r s']. simpl in Hm, Hst. subst r.
  exact (locked_backend p s' Hst Hl).
Qed.

(** No enabled action leaves the locked player page. *)
Lemma locked_step ev p : locked_out p -> enabled ev p = true -> locked_out (run_event ev p).
Proof.
  intros Hl Hen. pose proof Hl as (Hn & Ht & _ & [v Hv] & _).
  destruct ev; simpl in Hen |- *; rewrite ?Hv, ?Hn, ?Ht in Hen; try done; try exact Hl.
  - by apply locked_rerender.
  - unfold QuizPlayer.previousQuestion. case_bool_decide; [by apply locked_rerender|done].
  - unfold QuizPlayer.nextQuestion. destruct (ps_quiz _); [|done].
    case_bool_decide; [by apply locked_rerender|done].
  - by apply locked_submit.
  - apply locked_backend; [|done]. apply rtc_once, step_request.
Qed.

Lemma locked_steps p p' : rtc ui_step p p' -> locked_out p -> locked_out p'.
Proof. induction 1 as [|p1 p2 p3 []]; eauto using locked_step. Qed.

(** [C32] No way back: once the page shows the player for a quiz the
    user has already played (the server holds the attempt) with the
    navigation hidden, every page reachable from it by the user's actions,
    other clients' requests and the clock shows the player screen again:
    never the quiz list, a result or the dashboard. *)
Theorem replay_never_leaves_player p p' :
  locked_out p -> rtc ui_step p p' -> exists v, mainContent p' = SPlayer v.
Proof. intros Hl Hst. by destruct (locked_steps p p' Hst Hl) as (_ & _ & _ & Hv & _). Qed.

(** The user plays the demo quiz, goes back, takes it again, answers,
    re-renders and submits: the page still shows the player. *)
Definition replay_page : page :=
  after (play_session ++ [ClickSubmit; BackToQuizzes; SelectQuiz "1000"; ChooseOption 0 1; ClickDot 0]).

Lemma replay_never_leaves_player_witness :
  locked_out replay_page /\
  exists v, mainContent (run_event ClickSubmit replay_page) = SPlayer v.
Proof.
  assert (Hl : locked_out replay_page).
  { split; [vm_compute; reflexivity|]. split; [vm_compute; reflexivity|].
    split; [vm_compute; reflexivity|]. split; [eexists; reflexivity|].
    eexists. split; [reflexivity|]. split; [vm_compute; reflexivity|].
    split; [vm_compute; discriminate|]. unfold recorded. vm_compute. discriminate. }
  split; [exact Hl|]. apply (replay_never_leaves_player replay_page); [exact Hl|].
  apply rtc_once. apply (UiStep ClickSubmit). vm_compute. reflexivity.
Defined.
