(* ===== verification/Express.v ===== *)
(** * The Express application: middleware, routing and the error handler

    [server.js] builds its app as a pipeline (lines 7-12 and 212-216):
    [cors()] first, which answers every [OPTIONS] preflight itself with
    204 and no body; then [express.json()], which parses a JSON body before
    any route is chosen and passes a body it cannot parse (malformed text,
    a top-level value other than an object or an array, a body over its
    size limit) to the error middleware as an error; then the routes of
    [Client.express_route], or Express's 404 page; and last the error
    middleware, which answers every error with 500 ["Internal server
    error"].  A request without a JSON body leaves [req.body] the empty
    object, so its fields are [undefined] ([NoBody]).

    The theorems show that every response the routes give has a status
    that agrees with its payload (a type of the HTTP interface), that the
    pipeline runs the server by at most one step, and that a body the
    parser rejects is answered 500 on every path, also where the spec
    expects 400 (invalid input) or where no route matches. *)

From S2P Require Import Prelude JsNumber JsObject Keys Model Server Lifecycle Client.

(** The method line of a request as the app sees it: [OPTIONS] or a
    method the routes serve. *)
Inductive raw_method := ROptions | RMethod (m : http_method).

(** What [express.json()] makes of the request body. *)
Inductive raw_body :=
| NoPayload                      (** no JSON body: [req.body] is [{}] *)
| JsonPayload (b : json_body)    (** a body the parser accepts *)
| UnparsableJson                 (** a body the parser rejects with an error *).

Record raw_request := RawRequest { rr_method : raw_method; rr_url : string; rr_body : raw_body }.

(** What goes back on the wire. *)
Inductive http_reply :=
| NoContent                      (** [cors()]'s preflight answer: 204, empty *)
| Routed (r : response).

(** The request body the routes read. *)
Definition parsed_body (b : raw_body) : option json_body :=
  match b with
  | NoPayload => Some NoBody
  | JsonPayload b => Some b
  | UnparsableJson => None
  end.

(** [app]: [cors()], [express.json()], the routes and the error
    middleware, in the order [server.js] registers them. *)
Definition app_handle (rr : raw_request) (s : server) : http_reply * server :=
  match rr_method rr with
  | ROptions => (NoContent, s)
  | RMethod m =>
      match parsed_body (rr_body rr) with
      | None => (Routed internal_error, s)
      | Some b => let '(r, s') := express (Fetch (rr_url rr) m b) s in (Routed r, s')
      end
  end.

(** The status a payload is sent with: 201 for a creation, 200 for the
    other results, 404 for Express's page of an unknown path, and one of
    400, 404 and 500 for an error object. *)
Definition response_shape (r : response) : bool :=
  match payload r with
  | BError _ => bool_decide (status r ∈ [400; 404; 500]%Z)
  | BNoRoute => bool_decide (status r = 404%Z)
  | BCreated _ _ => bool_decide (status r = 201%Z)
  | _ => bool_decide (status r = 200%Z)
  end.

Definition reply_shape (r : http_reply) : bool :=
  match r with NoContent => true | Routed r => response_shape r end.

(** ** Lemmas *)

Lemma response_shape_ok b :
  match b with BError _ | BNoRoute | BCreated _ _ => False | _ => True end ->
  response_shape (ok b) = true.
Proof. destruct b; done. Qed.

Lemma response_shape_fail code msg :
  code ∈ [400; 404; 500]%Z -> response_shape (fail code msg) = true.
Proof. intros. by apply bool_decide_eq_true. Qed.

#[local] Hint Resolve response_shape_ok response_shape_fail : core.

Lemma express_steps fr s : rtc server_step s (express fr s).2.
Proof.
  unfold express. destruct (express_route fr); [apply rtc_once, step_request|done].
Qed.

(** The pipeline runs at most one route: the server after it is the
    server after one request, or the same server. *)
Lemma app_handle_steps rr s : rtc server_step s (app_handle rr s).2.
Proof.
  unfold app_handle. destruct (rr_method rr); [done|].
  destruct (parsed_body _) as [b|]; [|done].
  pose proof (express_steps (Fetch (rr_url rr) m b) s) as H.
  destruct (express _ _). exact H.
Qed.

Lemma app_handle_reachable rr s :
  server_reachable s -> server_reachable (app_handle rr s).2.
Proof.
  pose proof (app_handle_steps rr s) as Hst. revert Hst.
  generalize (app_handle rr s).2. intros s' Hst. induction Hst; eauto using sreach_step.
Qed.

Lemma handle_response_shape req s : response_shape (handle req s).1 = true.
Proof.
  destruct req; run_route; repeat (case_match; simpl); auto; try set_solver.
Qed.

Lemma express_response_shape fr s : response_shape (express fr s).1 = true.
Proof. unfold express. destruct (express_route fr); [apply handle_response_shape|done]. Qed.

(** [C33] The HTTP interface is well typed: whatever the request (any
    method, path and body, also one the parser rejects) and whatever the
    server's state, the app's answer is the preflight's empty 204 or a
    response whose status agrees with its payload: 201 with the created
    id, 200 with a result, 400, 404 or 500 with an error object, 404 with
    Express's page of an unknown path. *)
Theorem app_reply_shape rr s : reply_shape (app_handle rr s).1 = true.
Proof.
  unfold app_handle. destruct (rr_method rr) as [|m]; [done|].
  destruct (parsed_body _) as [b|]; [|by apply response_shape_fail; set_solver].
  pose proof (express_response_shape (Fetch (rr_url rr) m b) s) as H.
  destruct (express _ _). exact H.
Qed.

(** The body parser runs before the routes: a create request whose
    JSON body the parser rejects is answered 500 "Internal server error"
    by the error middleware, with the server unchanged, although the same
    request without a body reaches the route's own validation and gets
    its 400 "Invalid quiz data"; the spec answers invalid input with 400. *)
Theorem create_unparsable_500 url s :
  path_segments url = ["api"; "quizzes"] ->
  app_handle (RawRequest (RMethod POST) url UnparsableJson) s = (Routed internal_error, s) /\
  app_handle (RawRequest (RMethod POST) url NoPayload) s = (Routed (fail 400 "Invalid quiz data"), s).
Proof.
  intros Hp. split; [done|]. unfold app_handle, express, express_route. simpl.
  rewrite Hp. by rewrite handle_create.
Qed.

