(* ===== verification/Async.v ===== *)
(** * The page with its requests in flight

    Every method of [components.js] that fetches is [async]: it runs up to
    its [await], the browser goes back to its event loop, and the rest of
    the method runs when the response arrives.  In between the user may
    click any control the screen offers, and the responses of several
    requests may arrive in any order.  The synchronous model of [App]
    runs each method to completion; this file keeps the requests in
    flight.

    A method is split where the code awaits: [start] runs the part before
    the [await] (the loading screen, the request, which the server answers
    at once), and [resume] the part after it ([QuizList.loaded],
    [Dashboard.loaded], [QuizPlayer.loaded], [QuizPlayer.submitted],
    [QuizCreator.created]), on the page as it is when the response
    arrives.  [astep] is the page's transition relation: an enabled user
    action, or the arrival of any response in flight.

    The theorems show that the synchronous model is the schedule in which
    each response arrives before the next action ([start_resume_sync],
    [ui_step_astep]); that the Submit invariant of [App] survives every
    schedule ([ainv], preserved by every step of [astep]: an enabled
    Submit still means a complete set of answers, and Create is never
    enabled); and that other schedules break what the synchronous model
    promises: clicking Dashboard then Quizzes and receiving the list first
    leaves the dashboard on screen under the Quizzes tab
    ([tab_screen_race]); a double click on Submit sends two plays
    ([double_submit]); and a play response arriving after the user opened
    another quiz shows a result for a quiz the user never played
    ([late_play_response_misattributed]). *)

From S2P Require Import Prelude JsNumber JsObject Keys Model Server Lifecycle Client Frontend Player Creator App.

(** A response in flight, with the method it resumes. *)
Inductive pending :=
| PList (r : api_result)                   (** [QuizList.render] *)
| PDashboard (stats quizzes : api_result)  (** [Dashboard.render]'s [Promise.all] *)
| PQuiz (r : api_result)                   (** [QuizPlayer.render] *)
| PSubmit (r : api_result)                 (** [QuizPlayer.submitQuiz] *)
| PCreate (r : api_result)                 (** [QuizCreator.handleSubmit] *).

(** The page and the responses in flight, oldest first. *)
Record apage := APage { shown : page; inflight : list pending }.

(** The part of a method after its [await]. *)
Definition resume (pd : pending) (p : page) : page :=
  match pd with
  | PList r => QuizList.loaded r p
  | PDashboard a b => Dashboard.loaded a b p
  | PQuiz r => QuizPlayer.loaded r p
  | PSubmit r => QuizPlayer.submitted r p
  | PCreate r => QuizCreator.created r p
  end.

(** ** The parts before the [await] *)

(** [QuizList.render], lines 3-8. *)
Definition list_start (p : page) : page * list pending :=
  let p := set_main (SLoading "Loading quizzes...") p in
  let '(r, s') := call quizAPI.getQuizzes (backend p) in
  (set_backend s' p, [PList r]).

(** [Dashboard.render], lines 542-551. *)
Definition dashboard_start (p : page) : page * list pending :=
  let p := set_main (SLoading "Loading dashboard...") p in
  let '(a, s1) := call quizAPI.getStats (backend p) in
  let '(b, s2) := call quizAPI.getQuizzes s1 in
  (set_backend s2 p, [PDashboard a b]).

(** [QuizPlayer.render], lines 87-91. *)
Definition quiz_start (quizId : string) (p : page) : page * list pending :=
  let p := set_main (SLoading "Loading quiz...") p in
  let '(r, s') := call (quizAPI.getQuiz quizId) (backend p) in
  (set_backend s' p, [PQuiz r]).

(** [goToPage(page)], lines 56-94, up to the component's [await]. *)
Definition goToPage (pg : string) (p : page) : page * list pending :=
  let p := set_app (App.with_page pg (app p)) p in
  if bool_decide (pg = "quizzes") then list_start p
  else if bool_decide (pg = "dashboard") then dashboard_start p
  else if bool_decide (pg = "create") then
    if isAdmin (app p) then (QuizCreator.render (set_creator creator_reset p), [])
    else list_start (set_app (App.with_page "quizzes" (app p)) p)
  else list_start p.

(** [handleQuizSelect(quizId)], lines 96-106. *)
Definition handleQuizSelect (quizId : string) (p : page) : page * list pending :=
  let a := app p in
  quiz_start quizId (set_nav false (set_app (AppState "play" (Some quizId) (userAddress a) (isAdmin a)) p)).

(** [submitQuiz(userAddress)], lines 251-257. *)
Definition submit_start (userAddress : string) (p : page) : page * list pending :=
  match ps_quiz (player p) with
  | None => (add_alert "Error submitting quiz" p, [])
  | Some quiz =>
      let '(r, s') :=
        call (quizAPI.playQuiz (Quiz.quiz_id quiz) userAddress (ps_answers (player p))) (backend p) in
      (set_backend s' p, [PSubmit r])
  end.

(** [handleSubmit(event, userAddress)], lines 495-518. *)
Definition create_start (userAddress : string) (p : page) : page * list pending :=
  let fd := cs_formData (creator p) in
  if bool_decide (fd_title fd = "") || bool_decide (fd_description fd = "")
     || bool_decide (length (fd_questions fd) = 0)
  then (add_alert "Please fill all required fields" p, [])
  else if match parse_int (fd_passing_score fd) with
          | Some n => (Z.of_nat (length (fd_questions fd)) <? n)%Z
          | None => false
          end
  then (add_alert "Passing score cannot exceed number of questions" p, [])
  else
    let p := QuizCreator.render (set_creator (QuizCreator.set_loading true (creator p)) p) in
    let '(r, s') :=
      call (quizAPI.createQuiz (JStr (fd_title fd)) (JStr (fd_description fd))
                               (map draft_json (fd_questions fd))
                               (json_number (parse_int (fd_reward_pool fd)))
                               (json_number (parse_int (fd_passing_score fd)))
                               (JStr userAddress)) (backend p) in
    (set_backend s' p, [PCreate r]).

(** What an action does up to its first [await]; the actions that do not
    fetch run to completion. *)
Definition start (ev : ui_event) (p : page) : page * list pending :=
  match ev with
  | ClickTab pg => goToPage pg p
  | SelectQuiz id => handleQuizSelect id p
  | ClickSubmit => submit_start (userAddress (app p)) p
  | BackToQuizzes | CancelForm => goToPage "quizzes" p
  | SubmitForm => create_start (userAddress (app p)) p
  | TimerFires =>
      match timers p with
      | GoToQuizzesAfterCreate :: rest =>
          goToPage "quizzes"
            (Page (app p) (player p) (creator p) (navVisible p) (mainContent p) (alerts p)
                  rest (backend p))
      | [] => (p, [])
      end
  | _ => (run_event ev p, [])
  end.

(** The page's transitions: an enabled action runs up to its [await] and
    adds its request to those in flight; any response in flight may
    arrive and resume its method. *)
Inductive astep : apage -> apage -> Prop :=
| AUser ev ap :
    enabled ev (shown ap) = true ->
    astep ap (APage (start ev (shown ap)).1 (inflight ap ++ (start ev (shown ap)).2))
| ADeliver ap l1 pd l2 :
    inflight ap = l1 ++ pd :: l2 ->
    astep ap (APage (resume pd (shown ap)) (l1 ++ l2)).

(** Responses arriving in the order the requests were sent. *)
Definition resume_all (l : list pending) (p : page) : page := foldl (fun p pd => resume pd p) p l.

(** An executable schedule: an action, or the arrival of the [n]-th
    response in flight. *)
Inductive aevent := Act (ev : ui_event) | Arrive (n : nat).

Definition arun_step (e : aevent) (ap : apage) : option apage :=
  match e with
  | Act ev =>
      if enabled ev (shown ap)
      then Some (APage (start ev (shown ap)).1 (inflight ap ++ (start ev (shown ap)).2))
      else None
  | Arrive n =>
      match inflight ap !! n with
      | Some pd => Some (APage (resume pd (shown ap)) (take n (inflight ap) ++ drop (S n) (inflight ap)))
      | None => None
      end
  end.

Fixpoint arun (es : list aevent) (ap : apage) : option apage :=
  match es with
  | [] => Some ap
  | e :: es => ap' ← arun_step e ap; arun es ap'
  end.

(** A creation request in flight. *)
Definition creates (pd : pending) : bool := match pd with PCreate _ => true | _ => false end.

(** The invariant of the pages reachable with requests in flight: the
    synchronous invariant [ui_inv] of the page on screen, and no creation
    in flight (the Create button is never enabled, so [handleSubmit]
    never sends one). *)
Definition ainv (ap : apage) : Prop :=
  ui_inv (shown ap) /\ Forall (fun pd => creates pd = false) (inflight ap).

(** A schedule with two quizzes on the server: a second click on
    Quizzes whose list arrives while the first quiz's play is in flight. *)
Definition two_quizzes : list ui_event :=
  [OtherClient (PostQuiz (JStr "Sums") (JStr "practice")
                         (Some [Question.mk (JStr "2+2?") demo_options (JNum 1)])
                         (JNum 10) (JNum 1) (JStr "admin"));
   Tick 1;
   OtherClient (PostQuiz (JStr "More sums") (JStr "practice")
                         (Some [Question.mk (JStr "3+3?") demo_options (JNum 2)])
                         (JNum 10) (JNum 1) (JStr "admin"))].

Definition late_play_schedule : list aevent :=
  map Act two_quizzes ++
  [Act (ClickTab "quizzes"); Act (ClickTab "quizzes"); Arrive 0;
   Act (SelectQuiz "1000"); Arrive 1; Act (ChooseOption 0 1); Act (ClickDot 0);
   Act ClickSubmit; Arrive 0; Act (SelectQuiz "1001"); Arrive 1; Arrive 0].

(** ** Lemmas *)

Lemma list_start_sync p : resume_all (list_start p).2 (list_start p).1 = QuizList.render p.
Proof. unfold list_start, QuizList.render. by destruct (call _ _). Qed.

Lemma dashboard_start_sync p :
  resume_all (dashboard_start p).2 (dashboard_start p).1 = Dashboard.render p.
Proof. unfold dashboard_start, Dashboard.render. destruct (call _ _). by destruct (call _ _). Qed.

Lemma quiz_start_sync id p :
  resume_all (quiz_start id p).2 (quiz_start id p).1 = QuizPlayer.render id p.
Proof. unfold quiz_start, QuizPlayer.render. by destruct (call _ _). Qed.

Lemma submit_start_sync u p :
  resume_all (submit_start u p).2 (submit_start u p).1 = QuizPlayer.submitQuiz u p.
Proof. unfold submit_start, QuizPlayer.submitQuiz. case_match; [|done]. by destruct (call _ _). Qed.

Lemma create_start_sync u p :
  resume_all (create_start u p).2 (create_start u p).1 = QuizCreator.handleSubmit u p.
Proof.
  unfold create_start, QuizCreator.handleSubmit.
  case_match; [done|]. case_match; [done|]. by destruct (call _ _).
Qed.

Lemma goToPage_sync pg p :
  resume_all (goToPage pg p).2 (goToPage pg p).1 = App.goToPage pg p.
Proof.
  unfold goToPage, App.goToPage. simpl.
  repeat case_bool_decide; try destruct (isAdmin (app p));
    by rewrite ?list_start_sync, ?dashboard_start_sync.
Qed.

Lemma handleQuizSelect_sync id p :
  resume_all (handleQuizSelect id p).2 (handleQuizSelect id p).1 = App.handleQuizSelect id p.
Proof. apply quiz_start_sync. Qed.

Create Rewrite HintDb async.
#[local] Hint Rewrite goToPage_sync handleQuizSelect_sync list_start_sync dashboard_start_sync quiz_start_sync
  submit_start_sync create_start_sync : async.

(** The responses in flight, arriving in order, empty the queue. *)
Lemma astep_resume_all p l : rtc astep (APage p l) (APage (resume_all l p) []).
Proof.
  revert p. induction l as [|pd l IH]; intros p; [done|].
  eapply rtc_l; [apply (ADeliver (APage p (pd :: l)) [] pd l); reflexivity|]. apply IH.
Qed.

Lemma arun_step_astep e ap ap' : arun_step e ap = Some ap' -> astep ap ap'.
Proof.
  destruct e as [ev|n]; simpl.
  - destruct (enabled ev (shown ap)) eqn:Hen; intros [= <-]. by apply AUser.
  - destruct (inflight ap !! n) as [pd|] eqn:Hn; intros [= <-].
    apply ADeliver. symmetry. by apply take_drop_middle.
Qed.

(** The executable schedule is a run of the page. *)
Lemma arun_sound es ap ap' : arun es ap = Some ap' -> rtc astep ap ap'.
Proof.
  revert ap. induction es as [|e es IH]; simpl; intros ap; [by intros [= ->]|].
  destruct (arun_step e ap) as [ap1|] eqn:H1; simpl; [|done].
  intros H. apply (rtc_l _ _ ap1); [exact (arun_step_astep e ap ap1 H1)|by apply IH].
Qed.

(** Running an action up to its [await] and then receiving its responses
    in order is the synchronous action. *)
Lemma start_resume_sync ev p : resume_all (start ev p).2 (start ev p).1 = run_event ev p.
Proof.
  destruct ev; simpl; autorewrite with async; try reflexivity.
  destruct (timers p) as [|[] ?]; simpl; by autorewrite with async.
Qed.

Lemma goToPage_quizzes p : goToPage "quizzes" p = list_start (set_app (App.with_page "quizzes" (app p)) p).
Proof. reflexivity. Qed.

Lemma goToPage_dashboard p :
  goToPage "dashboard" p = dashboard_start (set_app (App.with_page "dashboard" (app p)) p).
Proof. reflexivity. Qed.

(** The list and the dashboard only read the server: their requests
    leave it as it is, and the server always answers them. *)
Lemma list_start_eq p :
  list_start p = (set_main (SLoading "Loading quizzes...") p,
                  [PList (call quizAPI.getQuizzes (backend p)).1]).
Proof. unfold list_start. rewrite !call_getQuizzes. by destruct p. Qed.

Lemma dashboard_start_eq p :
  dashboard_start p =
    (set_main (SLoading "Loading dashboard...") p,
     [PDashboard (ApiOk (BStats (statsStore (backend p)))) (call quizAPI.getQuizzes (backend p)).1]).
Proof. unfold dashboard_start. rewrite call_getStats, !call_getQuizzes. by destruct p. Qed.

Lemma enabled_tab pg p :
  navVisible p = true -> pg ∈ nav_tabs -> pg <> "create"%string -> enabled (ClickTab pg) p = true.
Proof.
  intros Hn Hin Hc. simpl. rewrite Hn, bool_decide_true, bool_decide_false by done. done.
Qed.

(** ** The invariant with requests in flight *)

Lemma inv_list_loaded r p : ui_inv p -> ui_inv (QuizList.loaded r p).
Proof. intros Hinv. eapply inv_plain; [exact Hinv|]. unfold QuizList.loaded. by repeat case_match. Qed.

Lemma inv_dashboard_loaded a b p : ui_inv p -> ui_inv (Dashboard.loaded a b p).
Proof. intros Hinv. eapply inv_plain; [exact Hinv|]. unfold Dashboard.loaded. by repeat case_match. Qed.

(** Every response but a creation's keeps the invariant, whatever page it
    arrives on. *)
Lemma inv_resume pd p : ui_inv p -> creates pd = false -> ui_inv (resume pd p).
Proof.
  intros Hinv Hc. destruct pd; simpl in Hc |- *; try done.
  - by apply inv_list_loaded.
  - by apply inv_dashboard_loaded.
  - by apply inv_quiz_loaded.
  - by apply inv_submitted.
Qed.

Lemma inv_list_start p :
  ui_inv p -> ui_inv (list_start p).1 /\ Forall (fun pd => creates pd = false) (list_start p).2.
Proof.
  intros Hinv. unfold list_start. destruct (call _ _).
  split; [by apply inv_loading|by repeat constructor].
Qed.

Lemma inv_goToPage_start pg p :
  ui_inv p -> ui_inv (goToPage pg p).1 /\ Forall (fun pd => creates pd = false) (goToPage pg p).2.
Proof.
  intros Hinv. unfold goToPage.
  repeat case_bool_decide; try destruct (isAdmin _) eqn:Ha; try (by apply inv_list_start).
  - unfold dashboard_start. destruct (call _ _). destruct (call _ _).
    split; [by apply inv_loading|by repeat constructor].
  - split; [|done]. subst pg.
    pose proof (inv_goToPage "create" p Hinv) as Hg. unfold App.goToPage in Hg.
    rewrite bool_decide_false, bool_decide_false, bool_decide_true in Hg by done.
    cbn [app set_app App.with_page isAdmin] in Ha, Hg. rewrite Ha in Hg. exact Hg.
Qed.

(** Every enabled action, up to its [await], keeps the invariant and
    sends no creation. *)
Lemma inv_start ev p :
  ui_inv p -> enabled ev p = true ->
  ui_inv (start ev p).1 /\ Forall (fun pd => creates pd = false) (start ev p).2.
Proof.
  intros Hinv Hen. pose proof Hinv as (_ & _ & _ & Htimers & Hsc).
  destruct ev; cbn [start fst snd];
    try (by apply inv_goToPage_start); try (by split; [apply ui_inv_step|]).
  - unfold handleQuizSelect, quiz_start. destruct (call _ _).
    split; [by apply inv_loading|by repeat constructor].
  - unfold submit_start. destruct (ps_quiz _); [|done]. destruct (call _ _).
    split; [by apply inv_backend|by repeat constructor].
  - simpl in Hen. destruct (mainContent p); try done. simpl in Hsc.
    destruct Hsc as (_ & Hsub & _). by rewrite Hsub in Hen.
  - by rewrite Htimers.
Qed.

Lemma ainv_step ap ap' : astep ap ap' -> ainv ap -> ainv ap'.
Proof.
  destruct 1 as [ev ap Hen|ap l1 pd l2 Hl]; intros [Hinv Hpd]; simpl.
  - destruct (inv_start ev (shown ap) Hinv Hen). split; [done|]. by apply Forall_app.
  - rewrite Hl in Hpd. apply Forall_app in Hpd as [H1 [Hc H2]%Forall_cons].
    split; [by apply inv_resume|by apply Forall_app].
Qed.

Lemma ainv_steps ap ap' : rtc astep ap ap' -> ainv ap -> ainv ap'.
Proof. induction 1; eauto using ainv_step. Qed.

(** Refinement of the synchronous page: every step of [ui_step]
    (an action run to completion) is a run of the page with its requests
    in flight in which the action's responses arrive, in order, before
    anything else happens; the synchronous model is one schedule of the
    asynchronous one. *)
Theorem ui_step_astep p p' : ui_step p p' -> rtc astep (APage p []) (APage p' []).
Proof.
  destruct 1 as [ev p Hen].
  eapply rtc_l; [by apply (AUser ev (APage p []))|]. simpl.
  rewrite <- start_resume_sync. apply astep_resume_all.
Qed.

(** [C31] The screen can disagree with the active tab: from any page
    whose navigation is shown, clicking Dashboard and then Quizzes before
    the dashboard's responses arrive, and receiving the list first, ends
    with nothing in flight, [app.state.currentPage] (the active tab)
    ["quizzes"], and the dashboard on screen: each method writes
    [mainContent] when its own response arrives, whatever was clicked
    since. *)
Theorem tab_screen_race p :
  navVisible p = true ->
  exists ap, rtc astep (APage p []) ap /\ inflight ap = [] /\
             currentPage (app (shown ap)) = "quizzes"%string /\
             exists v, mainContent (shown ap) = SDashboard v.
Proof.
  intros Hn. eexists. split.
  - eapply rtc_l.
    { apply (AUser (ClickTab "dashboard") (APage p [])).
      apply enabled_tab; [exact Hn|apply list_elem_of_In; simpl; tauto|done]. }
    cbn [shown inflight start]. rewrite goToPage_dashboard, dashboard_start_eq. simpl.
    eapply rtc_l.
    { apply AUser. apply enabled_tab; [exact Hn|apply list_elem_of_In; simpl; tauto|done]. }
    cbn [shown inflight start]. rewrite goToPage_quizzes, list_start_eq. simpl.
    eapply rtc_l; [eapply (ADeliver _ [_] _ []); reflexivity|]. simpl.
    eapply rtc_l; [eapply (ADeliver _ [] _ []); reflexivity|]. simpl.
    apply rtc_refl.
  - split; [reflexivity|]. simpl. split; [|eauto].
    by destruct (map Quiz.safe_view _).
Qed.

Lemma tab_screen_race_witness :
  navVisible demo_start = true /\
  exists ap, rtc astep (APage demo_start []) ap /\ inflight ap = [] /\
             currentPage (app (shown ap)) = "quizzes"%string /\
             exists v, mainContent (shown ap) = SDashboard v.
Proof. split; [reflexivity|]. apply tab_screen_race. reflexivity. Defined.

(** [C7] The Submit invariant holds with requests in flight: from any
    page a user reaches, whatever actions follow and in whatever order
    the responses of the list, the dashboard, the quiz and the plays
    arrive, an enabled Submit button means the player holds the loaded
    quiz with one answer per question, none of them [null]; and the
    Create button of the form is never enabled, so no creation is ever in
    flight. *)
Theorem async_submit_enabled_complete p ap :
  reachable p -> rtc astep (APage p []) ap ->
  (enabled ClickSubmit (shown ap) = true ->
   exists quiz, ps_quiz (player (shown ap)) = Some quiz /\
     length (ps_answers (player (shown ap))) = length (Quiz.questions quiz) /\
     Forall (fun a => a <> JNull) (ps_answers (player (shown ap)))) /\
  enabled SubmitForm (shown ap) = false /\
  Forall (fun pd => creates pd = false) (inflight ap).
Proof.
  intros Hp Hst. destruct (ainv_steps _ _ Hst (conj (reachable_ui_inv p Hp) (Forall_nil_2 _)))
    as [(Hwf & _ & _ & _ & Hsc) Hpd].
  split; [|split; [|exact Hpd]]; simpl.
  - destruct (mainContent (shown ap)) as [| | | |v| | | |]; try done. simpl in Hsc.
    destruct Hsc as (quiz & Hq & _ & _ & Hsub). intros [_ Hen]%andb_prop.
    unfold player_wf in Hwf. rewrite Hq in Hwf. exists quiz. split; [done|].
    split; [apply Hwf|by apply Hsub].
  - destruct (mainContent (shown ap)); try done. simpl in Hsc.
    destruct Hsc as (_ & -> & _). done.
Qed.

(** The run of [late_play_schedule] up to the user's answer: the page
    shows the first quiz's player with Submit enabled, two requests in
    flight. *)
Lemma async_submit_enabled_complete_witness :
  reachable demo_start /\
  exists ap, arun (take 10 late_play_schedule) (APage demo_start []) = Some ap /\
    enabled ClickSubmit (shown ap) = true /\
    exists quiz, ps_quiz (player (shown ap)) = Some quiz /\
      Forall (fun a => a <> JNull) (ps_answers (player (shown ap))).
Proof.
  assert (Hp : reachable demo_start) by apply (reach_init "bob" 1000).
  split; [exact Hp|].
  destruct (arun (take 10 late_play_schedule) (APage demo_start [])) as [ap|] eqn:E;
    [|vm_compute in E; discriminate].
  assert (Hen : enabled ClickSubmit (shown ap) = true) by (vm_compute in E; injection E as <-; reflexivity).
  exists ap. split; [reflexivity|]. split; [exact Hen|].
  destruct (async_submit_enabled_complete demo_start ap Hp (arun_sound _ _ _ E)) as [H _].
  destruct (H Hen) as (quiz & Hq & _ & Ha). eauto.
Defined.

(** Submit is not disabled while its request is in flight: a double click
    sends two plays; the server records the first and refuses the second,
    and whichever order the responses arrive in, the page ends on the
    result screen with the refusal's alert. *)
Theorem double_submit :
  forall order, order = [Arrive 0; Arrive 0] \/ order = [Arrive 1; Arrive 0] ->
  exists ap, rtc astep (APage (after play_session) []) ap /\ inflight ap = [] /\
             alerts (shown ap) = ["Error submitting quiz: HTTP error! status: 400"%string] /\
             exists v, mainContent (shown ap) = SResult v.
Proof.
  intros order Ho.
  destruct (arun ([Act ClickSubmit; Act ClickSubmit] ++ order) (APage (after play_session) []))
    as [ap|] eqn:E; [|by destruct Ho as [->| ->]; vm_compute in E].
  exists ap. split; [exact (arun_sound _ _ _ E)|].
  destruct Ho as [->| ->]; vm_compute in E; injection E as <-;
    (split; [reflexivity|]); (split; [reflexivity|]); eexists; reflexivity.
Qed.

(** The play response is rendered against the quiz loaded when it
    arrives, not the quiz it answers: [submitQuiz] reads [this.state]
    after its [await] (components.js lines 264-266) and [renderResult]
    reads [this.state.quiz].  With two quizzes
    on the server, a second click on Quizzes whose list arrives while the
    first quiz's play is in flight lets the user open the second quiz;
    the play response then shows a result for the second quiz, which the
    user never played, with nothing left in flight.  On the synchronous
    schedule the result screen always has the user's attempt
    ([Session.result_screen_recorded]); here it does not. *)
Theorem late_play_response_misattributed :
  exists ap, rtc astep (APage demo_start []) ap /\ inflight ap = [] /\
    (exists v, mainContent (shown ap) = SResult v) /\
    exists quiz, ps_quiz (player (shown ap)) = Some quiz /\
      Quiz.quiz_id quiz = "1001"%string /\
      phase_of (backend (shown ap))
               (participant_key (userAddress (app (shown ap))) (Quiz.quiz_id quiz)) = NotPlayed.
Proof.
  destruct (arun late_play_schedule (APage demo_start [])) as [ap|] eqn:E; [|by vm_compute in E].
  exists ap. split; [exact (arun_sound _ _ _ E)|].
  vm_compute in E. injection E as <-.
  split; [reflexivity|]. split; [eexists; reflexivity|]. eexists. split; [reflexivity|].
  split; reflexivity.
Qed.
